(** * ai_robot: the SSE stream decoder and the chat session state

    A shallow embedding of [src/api.ts] ([ZhipuAI.streamChat]) and of the
    [ChatInterface] component ([updateConversation], [selectConversation],
    [renameConversation], [groupConversationsByTime], [handleSend]).

    Conventions.
    - A JavaScript string is the list of its UTF-16 code units, each a [Z].
    - A [Uint8Array] chunk is a [list byte].
    - [Date.now()] is an oracle: the n-th call returns [Date_now n]; calls
      whose value only feeds [console.log] are left out.
    - [JSON.parse] and the rendering of a JS number are the platform's and
      are taken as parameters (class [Runtime]); a reference JSON reader
      instantiates them for the concrete runs. *)

From Stdlib Require Import List ZArith Lia Bool Strings.Byte String Ascii Permutation.
Import ListNotations.
Local Open Scope Z_scope.

(* ===================================================================== *)
(** ** JavaScript strings *)
(* ===================================================================== *)

Module JS.

Definition code_unit := Z.
Definition jsstring := list code_unit.

Fixpoint eqb (a b : jsstring) : bool :=
  match a, b with
  | [], [] => true
  | x :: a', y :: b' => (x =? y) && eqb a' b'
  | _, _ => false
  end.

(** [s.startsWith(p)] *)
Fixpoint startsWith (p s : jsstring) : bool :=
  match p, s with
  | [], _ => true
  | x :: p', y :: s' => (x =? y) && startsWith p' s'
  | _ :: _, [] => false
  end.

(** [s.slice(n)] and [s.slice(0, n)] for a literal [n >= 0] *)
Definition slice_from (n : nat) (s : jsstring) : jsstring := skipn n s.
Definition slice_to (n : nat) (s : jsstring) : jsstring := firstn n s.

(** [s.split(sep)] for a one-unit separator: [k] separators give [k + 1]
    pieces, and the empty string gives one empty piece. *)
Fixpoint split (sep : code_unit) (s : jsstring) : list jsstring :=
  match s with
  | [] => [[]]
  | c :: s' =>
      if c =? sep then [] :: split sep s'
      else match split sep s' with
           | [] => [[c]]
           | piece :: pieces => (c :: piece) :: pieces
           end
  end.

(** [Array.prototype.pop]: the array without its last element, and that
    element ([None] stands for [undefined] on an empty array). *)
Definition pop {A} (l : list A) : list A * option A :=
  match l with
  | [] => ([], None)
  | _ :: _ => (removelast l, nth_error l (Nat.pred (List.length l)))
  end.

(** WhiteSpace and LineTerminator code points of ECMAScript, the ones
    [String.prototype.trim] removes. *)
Definition is_whitespace (c : code_unit) : bool :=
  ((9 <=? c) && (c <=? 13)) || (c =? 32) || (c =? 160) || (c =? 5760)
  || ((8192 <=? c) && (c <=? 8202)) || (c =? 8232) || (c =? 8233)
  || (c =? 8239) || (c =? 8287) || (c =? 12288) || (c =? 65279).

Fixpoint trimStart (s : jsstring) : jsstring :=
  match s with
  | c :: s' => if is_whitespace c then trimStart s' else s
  | [] => []
  end.

Definition trimEnd (s : jsstring) : jsstring := rev (trimStart (rev s)).
Definition trim (s : jsstring) : jsstring := trimEnd (trimStart s).

(** ToBoolean on a string: the empty string is the only falsy one. *)
Definition truthy (s : jsstring) : bool :=
  match s with [] => false | _ :: _ => true end.

(** [a || b] on strings *)
Definition or_else (a b : jsstring) : jsstring := if truthy a then a else b.

(** UTF-16 encoding of one scalar value *)
Definition utf16 (cp : Z) : jsstring :=
  if cp <? 65536 then [cp]
  else [55296 + Z.shiftr (cp - 65536) 10; 56320 + Z.land (cp - 65536) 1023].

(** Number::toString of an integer, radix 10 *)
Fixpoint digits (d : Decimal.uint) : jsstring :=
  match d with
  | Decimal.Nil => []
  | Decimal.D0 d' => 48 :: digits d'
  | Decimal.D1 d' => 49 :: digits d'
  | Decimal.D2 d' => 50 :: digits d'
  | Decimal.D3 d' => 51 :: digits d'
  | Decimal.D4 d' => 52 :: digits d'
  | Decimal.D5 d' => 53 :: digits d'
  | Decimal.D6 d' => 54 :: digits d'
  | Decimal.D7 d' => 55 :: digits d'
  | Decimal.D8 d' => 56 :: digits d'
  | Decimal.D9 d' => 57 :: digits d'
  end.

Definition of_Z (z : Z) : jsstring :=
  match Z.to_int z with
  | Decimal.Pos d => digits d
  | Decimal.Neg d => 45 :: digits d
  end.

End JS.

Import JS.

(* ===================================================================== *)
(** ** TextDecoder: the streaming UTF-8 decoder of the Encoding Standard *)
(* ===================================================================== *)

Module TextDecoder.

(** The variables of the UTF-8 decoder. *)
Record utf8 := mk_utf8 {
  code_point : Z;
  bytes_seen : Z;
  bytes_needed : Z;
  lower_boundary : Z;
  upper_boundary : Z
}.

Definition utf8_start : utf8 := mk_utf8 0 0 0 128 191.

(** The handler in the state [bytes needed = 0]. *)
Definition lead (b : Z) : utf8 * list Z :=
  if b <=? 127 then (utf8_start, [b])
  else if (194 <=? b) && (b <=? 223) then
    (mk_utf8 (Z.land b 31) 0 1 128 191, [])
  else if (224 <=? b) && (b <=? 239) then
    (mk_utf8 (Z.land b 15) 0 2 (if b =? 224 then 160 else 128)
             (if b =? 237 then 159 else 191), [])
  else if (240 <=? b) && (b <=? 244) then
    (mk_utf8 (Z.land b 7) 0 3 (if b =? 240 then 144 else 128)
             (if b =? 244 then 143 else 191), [])
  else (utf8_start, [65533]).

(** One byte through the UTF-8 decoder in replacement mode, with the
    scalar values it emits.  A byte outside the expected range ends the
    sequence with U+FFFD and is read again from the start state. *)
Definition handler (b : Z) (d : utf8) : utf8 * list Z :=
  if bytes_needed d =? 0 then lead b
  else if negb ((lower_boundary d <=? b) && (b <=? upper_boundary d)) then
    let (d', out) := lead b in (d', 65533 :: out)
  else
    let cp := Z.lor (Z.shiftl (code_point d) 6) (Z.land b 63) in
    let seen := bytes_seen d + 1 in
    if seen =? bytes_needed d then (utf8_start, [cp])
    else (mk_utf8 cp seen (bytes_needed d) 128 191, []).

Definition byte_value (b : byte) : Z := Z.of_N (Byte.to_N b).

(** The bytes of one chunk through the handler; what is left of an
    unfinished sequence stays in the decoder's variables. *)
Fixpoint run (value : list byte) (d : utf8) : utf8 * list Z :=
  match value with
  | [] => (d, [])
  | b :: value' =>
      let (d1, out) := handler (byte_value b) d in
      let (d2, out') := run value' d1 in
      (d2, out ++ out')
  end.

(** Serialising the emitted scalar values: the first one ever emitted
    sets [BOM seen] and is dropped when it is U+FEFF ([ignoreBOM] is
    false). *)
Definition serialize (out : list Z) (BOM_seen : bool) : bool * jsstring :=
  match out with
  | [] => (BOM_seen, [])
  | cp :: out' =>
      (true,
       if negb BOM_seen && (cp =? 65279) then flat_map utf16 out'
       else flat_map utf16 out)
  end.

(** The decoder object; [new TextDecoder()] is [fresh]. *)
Record t := mk { decoder : utf8; BOM_seen : bool }.

Definition fresh : t := mk utf8_start false.

(** [decoder.decode(value, { stream: true })] *)
Definition decode (value : list byte) (d : t) : t * jsstring :=
  let (u, out) := run value (decoder d) in
  let (seen, s) := serialize out (BOM_seen d) in
  (mk u seen, s).

End TextDecoder.

(** A string literal of this file, read as UTF-8. *)
Definition js (s : string) : jsstring :=
  snd (TextDecoder.decode (list_byte_of_string s) TextDecoder.fresh).

(* ===================================================================== *)
(** ** JavaScript values, as far as a parsed frame is inspected *)
(* ===================================================================== *)

#[local] Set Warnings "-register-all".

Inductive jsval (number : Type) : Type :=
| JUndefined
| JNull
| JBool (b : bool)
| JNumber (n : number)
| JString (s : jsstring)
| JArray (elements : list (jsval number))
| JObject (properties : list (jsstring * jsval number)).

Arguments JUndefined {number}.
Arguments JNull {number}.
Arguments JBool {number} b.
Arguments JNumber {number} n.
Arguments JString {number} s.
Arguments JArray {number} elements.
Arguments JObject {number} properties.

(** A value that was thrown: an [Error] with its message, or anything that
    is not an instance of [Error]. *)
Inductive thrown : Type :=
| Error (message : jsstring)
| NotAnError.

(** What the code takes from the platform. *)
Class Runtime : Type := {
  number : Type;
  (** ToBoolean and ToString of a Number *)
  number_truthy : number -> bool;
  number_toString : number -> jsstring;
  (** [JSON.parse(text)]; [None] when it throws a SyntaxError *)
  JSON_parse : jsstring -> option (jsval number);
  (** the value returned by the n-th call of [Date.now()] *)
  Date_now : nat -> Z
}.

Module Value.
Section WithRuntime.
Context {RT : Runtime}.

Definition value : Type := jsval number.

(** The property names the code reads. *)
Inductive key : Type := choices | index0 | delta | content.

Definition key_name (k : key) : jsstring :=
  match k with
  | choices => js "choices"
  | index0 => js "0"
  | delta => js "delta"
  | content => js "content"
  end.

(** Own property of an object built by [JSON.parse]: of two members
    with one name, the later one stands. *)
Fixpoint own_property (name : jsstring) (properties : list (jsstring * value))
  : option value :=
  match properties with
  | [] => None
  | (name', v) :: rest =>
      match own_property name rest with
      | Some v' => Some v'
      | None => if JS.eqb name name' then Some v else None
      end
  end.

(** [v[k]] on a value that is neither [null] nor [undefined].  None of
    the four names is inherited from a prototype. *)
Definition member (v : value) (k : key) : value :=
  match v with
  | JObject properties =>
      match own_property (key_name k) properties with
      | Some x => x
      | None => JUndefined
      end
  | JArray elements =>
      match k, elements with
      | index0, x :: _ => x
      | _, _ => JUndefined
      end
  | JString s =>
      match k, s with
      | index0, c :: _ => JString [c]
      | _, _ => JUndefined
      end
  | _ => JUndefined
  end.

Definition nullish (v : value) : bool :=
  match v with JUndefined | JNull => true | _ => false end.

(** [v.k]: a TypeError ([None]) on [null] and [undefined] *)
Definition get (v : value) (k : key) : option value :=
  if nullish v then None else Some (member v k).

(** [v?.k] *)
Definition get_optional (v : value) (k : key) : value :=
  if nullish v then JUndefined else member v k.

(** ToBoolean *)
Definition truthy (v : value) : bool :=
  match v with
  | JUndefined | JNull => false
  | JBool b => b
  | JNumber n => number_truthy n
  | JString s => JS.truthy s
  | JArray _ | JObject _ => true
  end.

(** [Array.prototype.join] with the separator [","] *)
Fixpoint join (pieces : list jsstring) : jsstring :=
  match pieces with
  | [] => []
  | [p] => p
  | p :: rest => p ++ 44 :: join rest
  end.

(** The list of the values, when every one is there. *)
Fixpoint all {A : Type} (l : list (option A)) : option (list A) :=
  match l with
  | [] => Some []
  | Some x :: rest =>
      match all rest with
      | Some xs => Some (x :: xs)
      | None => None
      end
  | None :: _ => None
  end.

(** ToString, as [str += v] and [Array.prototype.join] apply it; [None]
    when it throws a TypeError.  An object is made a primitive by its
    [valueOf] and [toString] methods.  For a value built by [JSON.parse]
    the inherited [valueOf] returns the object itself, and an own member
    of either name is never callable; so an object without an own member
    [toString] gives [[object Object]] by the inherited method, and one
    with such a member has no method left and the conversion throws.  An
    array is joined, which converts its elements in turn. *)
Fixpoint toString (v : value) : option jsstring :=
  match v with
  | JUndefined => Some (js "undefined")
  | JNull => Some (js "null")
  | JBool true => Some (js "true")
  | JBool false => Some (js "false")
  | JNumber n => Some (number_toString n)
  | JString s => Some s
  | JArray elements =>
      option_map join
        (all (map (fun x => if nullish x then Some [] else toString x) elements))
  | JObject properties =>
      match own_property (js "toString") properties with
      | Some _ => None
      | None => Some (js "[object Object]")
      end
  end.

End WithRuntime.
End Value.

(* ===================================================================== *)
(** ** types.ts and the HTTP exchange *)
(* ===================================================================== *)

Inductive Role : Type := user | assistant.

Definition Role_eqb (a b : Role) : bool :=
  match a, b with
  | user, user | assistant, assistant => true
  | _, _ => false
  end.

Module Message.
Record t := mk { role : Role; content : jsstring; timestamp : Z }.
End Message.

(** The body of the completion request: [messages] carries role and
    content only. *)
Record RequestBody := {
  model : jsstring;
  body_messages : list (Role * jsstring);
  stream : bool
}.

Record Request := {
  url : jsstring;
  method : jsstring;
  ContentType : jsstring;
  Authorization : jsstring;
  body : RequestBody
}.

(** [messages.map(msg => ({ role: msg.role, content: msg.content }))] *)
Definition role_and_content (messages : list Message.t) : list (Role * jsstring) :=
  map (fun msg => (Message.role msg, Message.content msg)) messages.

(** A response body as its reader sees it: the chunks that [read()]
    delivers, then either [done] ([None]) or a rejected [read()]. *)
Record ReadableStream := {
  chunks : list (list byte);
  failure : option thrown
}.

Record Response := {
  ok : bool;
  status : Z;
  statusText : jsstring;
  text : jsstring;
  response_body : option ReadableStream
}.

(** The outcome of [await fetch(...)]. *)
Inductive Fetched : Type :=
| Rejected (e : thrown)
| Resolved (response : Response).

Definition POST : jsstring := Eval cbv in js "POST".
Definition application_json : jsstring := Eval cbv in js "application/json".
Definition Bearer (apiKey : jsstring) : jsstring := js "Bearer " ++ apiKey.
Definition chat_completions (baseUrl : jsstring) : jsstring :=
  baseUrl ++ js "/chat/completions".

Definition data_prefix : jsstring := Eval cbv in js "data: ".
Definition DONE : jsstring := Eval cbv in js "[DONE]".
Definition newline : code_unit := 10.

(** [buffer.split('\n')] followed by [buffer = lines.pop() || ''] *)
Definition split_lines (buffer : jsstring) : list jsstring * jsstring :=
  let lines := JS.split newline buffer in
  let (lines, last) := JS.pop lines in
  (lines, match last with Some s => JS.or_else s [] | None => [] end).

(* ===================================================================== *)
(** ** src/api.ts: [ZhipuAI.streamChat] *)
(* ===================================================================== *)

Module Api.
Section WithRuntime.
Context {RT : Runtime}.

Definition value : Type := jsval number.

Definition BASE_URL : jsstring :=
  js "https://open.bigmodel.cn/api/paas/v4".

(** [parsed.choices?.[0]?.delta?.content]; [None] when evaluating it
    throws. *)
Definition delta_content (parsed : value) : option value :=
  match Value.get parsed Value.choices with
  | None => None
  | Some c =>
      Some (Value.get_optional
              (Value.get_optional (Value.get_optional c Value.index0) Value.delta)
              Value.content)
  end.

(** The [try] block on one payload: the value to yield, if any.  Both a
    SyntaxError and a TypeError end in the empty [catch]. *)
Definition try_parse (data : jsstring) : option value :=
  match JSON_parse data with
  | None => None
  | Some parsed =>
      match delta_content parsed with
      | Some c => if Value.truthy c then Some c else None
      | None => None
      end
  end.

(** [for (const line of lines)]: the values yielded, and whether the
    generator returned inside the loop. *)
Fixpoint for_lines (lines : list jsstring) : list value * bool :=
  match lines with
  | [] => ([], false)
  | line :: rest =>
      if JS.startsWith data_prefix line then
        let data := JS.slice_from 6 line in
        if JS.eqb data DONE then ([], true)
        else
          let (ys, returned) := for_lines rest in
          match try_parse data with
          | Some c => (c :: ys, returned)
          | None => (ys, returned)
          end
      else for_lines rest
  end.

(** [while (true)] over the reads of the body: the values yielded and
    how the loop is left ([None]: by [break] or [return]). *)
Fixpoint while_reading (values : list (list byte)) (failure : option thrown)
         (decoder : TextDecoder.t) (buffer : jsstring)
  : list value * option thrown :=
  match values with
  | [] => ([], failure)
  | value :: rest =>
      let (decoder, decoded) := TextDecoder.decode value decoder in
      let (lines, buffer) := split_lines (buffer ++ decoded) in
      let (ys, returned) := for_lines lines in
      if returned then (ys, None)
      else
        let (ys', completion) := while_reading rest failure decoder buffer in
        (ys ++ ys', completion)
  end.

Definition request (apiKey : jsstring) (messages : list Message.t) : Request :=
  {| url := chat_completions BASE_URL;
     method := POST;
     ContentType := application_json;
     Authorization := Bearer apiKey;
     body := {| model := js "glm-4-flash";
                body_messages := role_and_content messages;
                stream := true |} |}.

(** The outer [catch]: every failure is thrown again, wrapped. *)
Definition wrap (e : thrown) : thrown :=
  Error (js "Stream chat failed: "
           ++ match e with
              | Error message => message
              | NotAnError => js "Unknown error"
              end).

(** The generator run to its end against the outcome of its [fetch]:
    the values it yields, in order, and its completion ([None]: it
    returned; [Some e]: it threw [e]). *)
Definition streamChat (fetched : Fetched) : list value * option thrown :=
  match fetched with
  | Rejected e => ([], Some (wrap e))
  | Resolved response =>
      if negb (ok response) then
        ([], Some (wrap (Error (js "API Error: "
                                  ++ JS.of_Z (status response)
                                  ++ 32 :: statusText response))))
      else
        match response_body response with
        | None => ([], Some (wrap (Error (js "Failed to get response reader"))))
        | Some reader =>
            let (ys, completion) :=
              while_reading (chunks reader) (failure reader) TextDecoder.fresh [] in
            (ys, option_map wrap completion)
        end
  end.

End WithRuntime.
End Api.

(* ===================================================================== *)
(** ** The [ChatInterface] component *)
(* ===================================================================== *)

Module Conversation.
Record t := mk {
  id : jsstring;
  title : jsstring;
  messages : list Message.t;
  timestamp : Z;
  lastMessage : option jsstring
}.
End Conversation.

Record ModelSettings := {
  name : jsstring;
  baseUrl : jsstring;
  apiKey : jsstring
}.

Module ChatInterface.

(** The [useState] cells that the session logic reads and writes (the
    dialog, clipboard and fullscreen cells are presentation only). *)
Record State := {
  conversations : list Conversation.t;
  currentConversationId : option jsstring;
  messages : list Message.t;
  input : jsstring;
  isLoading : bool;
  error : option jsstring;
  modelSettings : ModelSettings
}.

Definition setConversations (f : list Conversation.t -> list Conversation.t)
           (s : State) : State :=
  {| conversations := f (conversations s);
     currentConversationId := currentConversationId s;
     messages := messages s; input := input s; isLoading := isLoading s;
     error := error s; modelSettings := modelSettings s |}.

Definition setCurrentConversationId (v : option jsstring) (s : State) : State :=
  {| conversations := conversations s;
     currentConversationId := v;
     messages := messages s; input := input s; isLoading := isLoading s;
     error := error s; modelSettings := modelSettings s |}.

Definition setMessages (f : list Message.t -> list Message.t) (s : State) : State :=
  {| conversations := conversations s;
     currentConversationId := currentConversationId s;
     messages := f (messages s); input := input s; isLoading := isLoading s;
     error := error s; modelSettings := modelSettings s |}.

Definition setInput (v : jsstring) (s : State) : State :=
  {| conversations := conversations s;
     currentConversationId := currentConversationId s;
     messages := messages s; input := v; isLoading := isLoading s;
     error := error s; modelSettings := modelSettings s |}.

Definition setIsLoading (v : bool) (s : State) : State :=
  {| conversations := conversations s;
     currentConversationId := currentConversationId s;
     messages := messages s; input := input s; isLoading := v;
     error := error s; modelSettings := modelSettings s |}.

Definition setError (v : option jsstring) (s : State) : State :=
  {| conversations := conversations s;
     currentConversationId := currentConversationId s;
     messages := messages s; input := input s; isLoading := isLoading s;
     error := v; modelSettings := modelSettings s |}.

(** The component's state together with the number of [Date.now()]
    calls made so far. *)
Record World := { state : State; clock : nat }.

Definition on_state (f : State -> State) (w : World) : World :=
  {| state := f (state w); clock := clock w |}.

Definition createNewConversation (s : State) : State :=
  setError None (setInput [] (setMessages (fun _ => []) (setCurrentConversationId None s))).

Definition default_title : jsstring := Eval cbv in js "新对话".

Definition is_user (m : Message.t) : bool := Role_eqb (Message.role m) user.

(** [lastUserMessage?.content.slice(0, 15) || '新对话'], where
    [lastUserMessage] is [newMessages.find(m => m.role === 'user')] *)
Definition title_of (newMessages : list Message.t) : jsstring :=
  match find is_user newMessages with
  | Some lastUserMessage =>
      JS.or_else (JS.slice_to 15 (Message.content lastUserMessage)) default_title
  | None => default_title
  end.

(** [newMessages[newMessages.length - 1]?.content.slice(0, 30) || ''] *)
Definition lastMessage_of (newMessages : list Message.t) : jsstring :=
  match nth_error newMessages (Nat.pred (List.length newMessages)) with
  | Some m => JS.or_else (JS.slice_to 30 (Message.content m)) []
  | None => []
  end.

(** [prev.map(conv => conv.id === conversationId ? { ...conv, title: newTitle } : conv)] *)
Definition renameConversation (conversationId newTitle : jsstring) (s : State) : State :=
  setConversations
    (map (fun conv =>
            if JS.eqb (Conversation.id conv) conversationId
            then Conversation.mk (Conversation.id conv) newTitle
                   (Conversation.messages conv) (Conversation.timestamp conv)
                   (Conversation.lastMessage conv)
            else conv)) s.

Definition selectConversation (conversationId : jsstring) (s : State) : State :=
  let s1 := setCurrentConversationId (Some conversationId) s in
  let conversation :=
    find (fun c => JS.eqb (Conversation.id c) conversationId) (conversations s) in
  let s2 := match conversation with
            | Some c => setMessages (fun _ => Conversation.messages c) s1
            | None => s1
            end in
  setError None s2.

Record Groups := {
  todayConvs : list Conversation.t;
  weekConvs : list Conversation.t;
  olderConvs : list Conversation.t
}.

(** [now] is the value of [Date.now()] read at the call; [%] is the
    remainder of JavaScript, which truncates. *)
Definition groupConversationsByTime (now : Z) (convs : list Conversation.t) : Groups :=
  let today := now - Z.rem now 86400000 in
  let weekAgo := today - 7 * 86400000 in
  {| todayConvs := filter (fun conv => Conversation.timestamp conv >=? today) convs;
     weekConvs := filter (fun conv => (Conversation.timestamp conv >=? weekAgo)
                                      && (Conversation.timestamp conv <? today)) convs;
     olderConvs := filter (fun conv => Conversation.timestamp conv <? weekAgo) convs |}.

Section WithRuntime.
Context {RT : Runtime}.

Definition value : Type := jsval number.

(** The updater of [updateConversation]: every entry with the id is
    rebuilt and reads the clock. *)
Fixpoint updateConversation_map (conversationId : jsstring)
         (newMessages : list Message.t) (prev : list Conversation.t) (clock : nat)
  : list Conversation.t * nat :=
  match prev with
  | [] => ([], clock)
  | conv :: rest =>
      if JS.eqb (Conversation.id conv) conversationId then
        let title := title_of newMessages in
        let lastMessage := lastMessage_of newMessages in
        let conv' := Conversation.mk (Conversation.id conv) title newMessages
                       (Date_now clock) (Some lastMessage) in
        let (rest', clock') :=
          updateConversation_map conversationId newMessages rest (S clock) in
        (conv' :: rest', clock')
      else
        let (rest', clock') :=
          updateConversation_map conversationId newMessages rest clock in
        (conv :: rest', clock')
  end.

Definition updateConversation (conversationId : jsstring)
           (newMessages : list Message.t) (w : World) : World :=
  let (convs, clock') :=
    updateConversation_map conversationId newMessages
      (conversations (state w)) (clock w) in
  {| state := setConversations (fun _ => convs) (state w); clock := clock' |}.

Definition configuration_missing : jsstring :=
  Eval cbv in js "请先配置模型设置（模型名称、API Base、API Key）".

(** What [handleSend] holds in its closure when it awaits [fetch]. *)
Record Pending := {
  closure_messages : list Message.t;     (* [messages] of the render *)
  userMessage : Message.t;
  assistantMessage : Message.t;
  conversationId : jsstring
}.

Definition currentMessages (p : Pending) : list Message.t :=
  closure_messages p ++ [userMessage p].

(** [handleSend] up to its first [await]. *)
Inductive Started : Type :=
| Returned (w : World)
| Awaiting (request : Request) (p : Pending) (w : World).

Definition handleSend_start (w : World) : Started :=
  let s := state w in
  if negb (JS.truthy (JS.trim (input s))) || isLoading s then Returned w
  else if negb (JS.truthy (name (modelSettings s)))
          || negb (JS.truthy (baseUrl (modelSettings s)))
          || negb (JS.truthy (apiKey (modelSettings s)))
  then Returned (on_state (setError (Some configuration_missing)) w)
  else
    let userMessage := Message.mk user (JS.trim (input s)) (Date_now (clock w)) in
    let clock1 := S (clock w) in
    let '(conversationId, s1, clock2) :=
      match currentConversationId s with
      | Some (c :: id') => (c :: id', s, clock1)
      | _ =>
          let newConversation :=
            Conversation.mk (JS.of_Z (Date_now clock1))
              (JS.slice_to 15 (JS.trim (input s)))
              []
              (Date_now (S clock1))
              (Some (JS.slice_to 30 (JS.trim (input s)))) in
          (Conversation.id newConversation,
           setCurrentConversationId (Some (Conversation.id newConversation))
             (setConversations (fun prev => newConversation :: prev) s),
           S (S clock1))
      end in
    let s2 := setMessages (fun prev => prev ++ [userMessage]) s1 in
    let s3 := setError None (setIsLoading true (setInput [] s2)) in
    let assistantMessage := Message.mk assistant [] (Date_now clock2) in
    let s4 := setMessages (fun prev => prev ++ [assistantMessage]) s3 in
    let p := {| closure_messages := messages s;
                userMessage := userMessage;
                assistantMessage := assistantMessage;
                conversationId := conversationId |} in
    Awaiting
      {| url := chat_completions (baseUrl (modelSettings s));
         method := POST;
         ContentType := application_json;
         Authorization := Bearer (apiKey (modelSettings s));
         body := {| model := JS.or_else (name (modelSettings s)) (js "glm-4-flash");
                    body_messages := role_and_content (currentMessages p);
                    stream := true |} |}
      p {| state := s4; clock := S clock2 |}.

(** [parsed.choices[0]?.delta?.content || '']; [None] when evaluating
    it throws a TypeError. *)
Definition delta_content (parsed : value) : option value :=
  match Value.get parsed Value.choices with
  | None => None
  | Some c =>
      match Value.get c Value.index0 with
      | None => None
      | Some c0 =>
          let x := Value.get_optional (Value.get_optional c0 Value.delta)
                                      Value.content in
          Some (if Value.truthy x then x else JString [])
      end
  end.

(** The body of [if (content)]: the accumulator grows and the last
    message is replaced by the whole accumulated text, on screen and in
    the conversation.  When [fullResponse += content] throws, nothing of
    this is done: the TypeError ends in the [catch] of the frame. *)
Definition apply_content (p : Pending) (content : value)
           (acc : jsstring * World) : jsstring * World :=
  let (fullResponse, w) := acc in
  match Value.toString content with
  | None => acc
  | Some text =>
      let fullResponse := fullResponse ++ text in
      let newMessages :=
        currentMessages p
          ++ [Message.mk (Message.role (assistantMessage p)) fullResponse
                (Message.timestamp (assistantMessage p))] in
      (fullResponse,
       updateConversation (conversationId p) newMessages
         (on_state (setMessages (fun _ => newMessages)) w))
  end.

(** One turn of [for (const line of lines)]. *)
Definition for_line (p : Pending) (line : jsstring)
           (acc : jsstring * World) : jsstring * World :=
  if JS.startsWith data_prefix line then
    let data := JS.slice_from 6 line in
    if JS.eqb data DONE then acc
    else
      match JSON_parse data with
      | None => acc
      | Some parsed =>
          match delta_content parsed with
          | None => acc
          | Some content =>
              if Value.truthy content then apply_content p content acc else acc
          end
      end
  else acc.

Fixpoint for_lines (p : Pending) (lines : list jsstring)
         (acc : jsstring * World) : jsstring * World :=
  match lines with
  | [] => acc
  | line :: rest => for_lines p rest (for_line p line acc)
  end.

(** [while (true)] over the reads of the body; the last component is
    [None] when the loop is left by [break] and the thrown value when a
    read is rejected. *)
Fixpoint while_reading (p : Pending) (values : list (list byte))
         (failure : option thrown) (decoder : TextDecoder.t) (buffer : jsstring)
         (acc : jsstring * World) : jsstring * World * option thrown :=
  match values with
  | [] => (acc, failure)
  | value :: rest =>
      let (decoder, decoded) := TextDecoder.decode value decoder in
      let (lines, buffer) := split_lines (buffer ++ decoded) in
      while_reading p rest failure decoder buffer (for_lines p lines acc)
  end.

(** The [try] block from the resolution of [fetch] on. *)
Definition try_block (p : Pending) (fetched : Fetched) (w : World)
  : jsstring * World * option thrown :=
  match fetched with
  | Rejected e => ([], w, Some e)
  | Resolved response =>
      if negb (ok response) then
        ([], w, Some (Error (js "API请求失败: " ++ JS.of_Z (status response)
                               ++ js " - " ++ text response)))
      else
        match response_body response with
        | None => ([], w, Some (Error (js "无法获取响应流")))
        | Some reader =>
            while_reading p (chunks reader) (failure reader)
                          TextDecoder.fresh [] ([], w)
        end
  end.

Definition catch_block (p : Pending) (e : thrown) (w : World) : World :=
  let message := match e with
                 | Error message => message
                 | NotAnError => js "发送消息失败"
                 end in
  updateConversation (conversationId p) (closure_messages p ++ [userMessage p])
    (on_state (setError (Some message)) w).

(** [handleSend] from the resolution of [fetch] to its end. *)
Definition handleSend_finish (p : Pending) (fetched : Fetched) (w : World) : World :=
  let '(_, w1, completion) := try_block p fetched w in
  let w2 := match completion with
            | Some e => catch_block p e w1
            | None => w1
            end in
  on_state (setIsLoading false) w2.

(** One call of [handleSend] run to its end, with the requests it
    issued. *)
Definition handleSend (fetch : Request -> Fetched) (w : World) : World * list Request :=
  match handleSend_start w with
  | Returned w' => (w', [])
  | Awaiting request p w' => (handleSend_finish p (fetch request) w', [request])
  end.

End WithRuntime.
End ChatInterface.

(* ===================================================================== *)
(** ** A reference JSON reader, for the concrete runs *)
(* ===================================================================== *)

(** It follows the JSON grammar of ECMA-404 as [JSON.parse] does.  A
    number is kept as the text of its literal; its rendering is the one
    of JavaScript for integer literals of magnitude up to 2^53, which is
    all the runs below need. *)
Module ReferenceJSON.

Definition value : Type := jsval jsstring.

Definition is_ws (c : Z) : bool := (c =? 32) || (c =? 9) || (c =? 10) || (c =? 13).
Definition is_digit (c : Z) : bool := (48 <=? c) && (c <=? 57).

Fixpoint skip_ws (s : jsstring) : jsstring :=
  match s with
  | c :: s' => if is_ws c then skip_ws s' else s
  | [] => []
  end.

Fixpoint span_digits (s : jsstring) : jsstring * jsstring :=
  match s with
  | c :: s' =>
      if is_digit c then let (ds, rest) := span_digits s' in (c :: ds, rest)
      else ([], s)
  | [] => ([], [])
  end.

Definition hex_digit (c : Z) : option Z :=
  if is_digit c then Some (c - 48)
  else if (97 <=? c) && (c <=? 102) then Some (c - 87)
  else if (65 <=? c) && (c <=? 70) then Some (c - 55)
  else None.

Definition simple_escape (c : Z) : option Z :=
  if (c =? 34) || (c =? 92) || (c =? 47) then Some c
  else if c =? 98 then Some 8
  else if c =? 102 then Some 12
  else if c =? 110 then Some 10
  else if c =? 114 then Some 13
  else if c =? 116 then Some 9
  else None.

(** The characters of a string after its opening quote, up to and
    without the closing one. *)
Fixpoint string_body (s : jsstring) : option (jsstring * jsstring) :=
  match s with
  | [] => None
  | c :: rest =>
      if c =? 34 then Some ([], rest)
      else if c =? 92 then
        match rest with
        | [] => None
        | e :: rest1 =>
            if e =? 117 then
              match rest1 with
              | h1 :: h2 :: h3 :: h4 :: rest2 =>
                  match hex_digit h1, hex_digit h2, hex_digit h3, hex_digit h4 with
                  | Some a, Some b, Some c', Some d =>
                      match string_body rest2 with
                      | Some (str, rest3) =>
                          Some (((a * 16 + b) * 16 + c') * 16 + d :: str, rest3)
                      | None => None
                      end
                  | _, _, _, _ => None
                  end
              | _ => None
              end
            else
              match simple_escape e, string_body rest1 with
              | Some x, Some (str, rest2) => Some (x :: str, rest2)
              | _, _ => None
              end
        end
      else if c <? 32 then None
      else
        match string_body rest with
        | Some (str, rest1) => Some (c :: str, rest1)
        | None => None
        end
  end.

(** The digits of an integer part: one zero, or digits that do not
    start with a zero. *)
Definition integer_part (s : jsstring) : option (jsstring * jsstring) :=
  match span_digits s with
  | ([], _) => None
  | (d :: ds, rest) =>
      if (d =? 48) && negb (match ds with [] => true | _ => false end) then None
      else Some (d :: ds, rest)
  end.

Definition fraction_part (s : jsstring) : option (jsstring * jsstring) :=
  match s with
  | c :: s' =>
      if c =? 46 then
        match span_digits s' with
        | ([], _) => None
        | (ds, rest) => Some (c :: ds, rest)
        end
      else Some ([], s)
  | [] => Some ([], [])
  end.

Definition exponent_digits (mark : jsstring) (s : jsstring)
  : option (jsstring * jsstring) :=
  match span_digits s with
  | ([], _) => None
  | (ds, rest) => Some (mark ++ ds, rest)
  end.

Definition exponent_part (s : jsstring) : option (jsstring * jsstring) :=
  match s with
  | c :: s' =>
      if (c =? 101) || (c =? 69) then
        match s' with
        | sign :: s'' =>
            if (sign =? 43) || (sign =? 45) then exponent_digits [c; sign] s''
            else exponent_digits [c] s'
        | [] => None
        end
      else Some ([], s)
  | [] => Some ([], [])
  end.

Definition unsigned_literal (s : jsstring) : option (jsstring * jsstring) :=
  match integer_part s with
  | None => None
  | Some (i, s1) =>
      match fraction_part s1 with
      | None => None
      | Some (f, s2) =>
          match exponent_part s2 with
          | None => None
          | Some (e, s3) => Some (i ++ f ++ e, s3)
          end
      end
  end.

Definition number_literal (s : jsstring) : option (jsstring * jsstring) :=
  match s with
  | c :: s' =>
      if c =? 45 then
        match unsigned_literal s' with
        | Some (lit, rest) => Some (c :: lit, rest)
        | None => None
        end
      else unsigned_literal s
  | [] => None
  end.

Definition keyword (word : jsstring) (v : value) (s : jsstring)
  : option (value * jsstring) :=
  if JS.startsWith word s then Some (v, skipn (List.length word) s) else None.

Fixpoint parse_value (fuel : nat) (s : jsstring) {struct fuel}
  : option (value * jsstring) :=
  match fuel with
  | O => None
  | S fuel' =>
      match skip_ws s with
      | [] => None
      | c :: rest =>
          if c =? 123 then
            match skip_ws rest with
            | c' :: rest' =>
                if c' =? 125 then Some (JObject [], rest')
                else match parse_members fuel' rest with
                     | Some (ms, rest1) => Some (JObject ms, rest1)
                     | None => None
                     end
            | [] => None
            end
          else if c =? 91 then
            match skip_ws rest with
            | c' :: rest' =>
                if c' =? 93 then Some (JArray [], rest')
                else match parse_elements fuel' rest with
                     | Some (es, rest1) => Some (JArray es, rest1)
                     | None => None
                     end
            | [] => None
            end
          else if c =? 34 then
            match string_body rest with
            | Some (str, rest1) => Some (JString str, rest1)
            | None => None
            end
          else if c =? 116 then keyword (js "true") (JBool true) (c :: rest)
          else if c =? 102 then keyword (js "false") (JBool false) (c :: rest)
          else if c =? 110 then keyword (js "null") JNull (c :: rest)
          else
            match number_literal (c :: rest) with
            | Some (lit, rest1) => Some (JNumber lit, rest1)
            | None => None
            end
      end
  end

with parse_elements (fuel : nat) (s : jsstring) {struct fuel}
  : option (list value * jsstring) :=
  match fuel with
  | O => None
  | S fuel' =>
      match parse_value fuel' s with
      | None => None
      | Some (v, rest) =>
          match skip_ws rest with
          | c :: rest1 =>
              if c =? 44 then
                match parse_elements fuel' rest1 with
                | Some (vs, rest2) => Some (v :: vs, rest2)
                | None => None
                end
              else if c =? 93 then Some ([v], rest1)
              else None
          | [] => None
          end
      end
  end

with parse_members (fuel : nat) (s : jsstring) {struct fuel}
  : option (list (jsstring * value) * jsstring) :=
  match fuel with
  | O => None
  | S fuel' =>
      match skip_ws s with
      | q :: s1 =>
          if q =? 34 then
            match string_body s1 with
            | None => None
            | Some (key, s2) =>
                match skip_ws s2 with
                | colon :: s3 =>
                    if colon =? 58 then
                      match parse_value fuel' s3 with
                      | None => None
                      | Some (v, rest) =>
                          match skip_ws rest with
                          | c :: rest1 =>
                              if c =? 44 then
                                match parse_members fuel' rest1 with
                                | Some (ms, rest2) => Some ((key, v) :: ms, rest2)
                                | None => None
                                end
                              else if c =? 125 then Some ([(key, v)], rest1)
                              else None
                          | [] => None
                          end
                      end
                    else None
                | [] => None
                end
            end
          else None
      | [] => None
      end
  end.

(** [JSON.parse(text)]: one value, with nothing but white space around
    it. *)
Definition parse (text : jsstring) : option value :=
  match parse_value (2 * List.length text + 2) text with
  | Some (v, rest) => match skip_ws rest with [] => Some v | _ :: _ => None end
  | None => None
  end.

(** Zero is the only falsy number a literal can denote.  A literal with
    a digit other than 0 before its exponent is taken as truthy (one so
    small that it rounds to zero is outside what the runs use). *)
Fixpoint literal_truthy (lit : jsstring) : bool :=
  match lit with
  | [] => false
  | c :: lit' =>
      if (c =? 101) || (c =? 69) then false
      else ((49 <=? c) && (c <=? 57)) || literal_truthy lit'
  end.

Fixpoint digits_value (acc : Z) (ds : jsstring) : Z :=
  match ds with
  | [] => acc
  | d :: ds' => digits_value (acc * 10 + (d - 48)) ds'
  end.

Definition literal_toString (lit : jsstring) : jsstring :=
  match lit with
  | c :: ds =>
      if (c =? 45) && forallb is_digit ds then JS.of_Z (- digits_value 0 ds)
      else if forallb is_digit lit then JS.of_Z (digits_value 0 lit)
      else lit
  | [] => lit
  end.

End ReferenceJSON.

(** The runtime of the concrete runs: the reference reader and a clock
    that starts at [t0] and advances by one millisecond a call. *)
Definition reference_runtime (t0 : Z) : Runtime :=
  {| number := jsstring;
     number_truthy := ReferenceJSON.literal_truthy;
     number_toString := ReferenceJSON.literal_toString;
     JSON_parse := ReferenceJSON.parse;
     Date_now := fun n => t0 + Z.of_nat n |}.

(* ===================================================================== *)
(** ** Notions used in the statements *)
(* ===================================================================== *)

(** The complete lines of a body: the text decoded from all its bytes,
    cut at the newlines, without what follows the last newline. *)
Definition complete_lines (payload : list byte) : list jsstring :=
  removelast (JS.split newline (snd (TextDecoder.decode payload TextDecoder.fresh))).

Section Deltas.
Context {RT : Runtime}.

(** The text that one line makes [handleSend] append to [fullResponse],
    if any. *)
Definition line_delta (line : jsstring) : option jsstring :=
  if JS.startsWith data_prefix line then
    let data := JS.slice_from 6 line in
    if JS.eqb data DONE then None
    else
      match JSON_parse data with
      | None => None
      | Some parsed =>
          match ChatInterface.delta_content parsed with
          | None => None
          | Some content =>
              if Value.truthy content then Value.toString content else None
          end
      end
  else None.

Fixpoint deltas (lines : list jsstring) : list jsstring :=
  match lines with
  | [] => []
  | line :: rest =>
      match line_delta line with
      | Some d => d :: deltas rest
      | None => deltas rest
      end
  end.

(** One delta applied: the accumulator grows by [d], and the text
    accumulated so far replaces the content of the last message, on
    screen and in the conversation. *)
Definition append_delta (p : ChatInterface.Pending) (d : jsstring)
           (acc : jsstring * ChatInterface.World) : jsstring * ChatInterface.World :=
  let (fullResponse, w) := acc in
  let newMessages :=
    ChatInterface.currentMessages p
      ++ [Message.mk (Message.role (ChatInterface.assistantMessage p))
            (fullResponse ++ d)
            (Message.timestamp (ChatInterface.assistantMessage p))] in
  (fullResponse ++ d,
   ChatInterface.updateConversation (ChatInterface.conversationId p) newMessages
     (ChatInterface.on_state (ChatInterface.setMessages (fun _ => newMessages)) w)).

(** The deltas of a list applied one after the other. *)
Definition run_deltas (p : ChatInterface.Pending) (ds : list jsstring)
           (acc : jsstring * ChatInterface.World) : jsstring * ChatInterface.World :=
  fold_left (fun a d => append_delta p d a) ds acc.

End Deltas.

Section Updated.
Context {RT : Runtime}.

(** What [updateConversation] makes of one entry: an entry with
    another id is kept; an entry with the id keeps its id, takes the
    messages, a title and a preview computed from them, and a fresh
    reading of the clock. *)
Definition updated (conversationId : jsstring) (newMessages : list Message.t)
           (clock : nat) (conv conv' : Conversation.t) : Prop :=
  if JS.eqb (Conversation.id conv) conversationId then
    Conversation.id conv' = Conversation.id conv
    /\ Conversation.title conv' = ChatInterface.title_of newMessages
    /\ Conversation.messages conv' = newMessages
    /\ Conversation.lastMessage conv' = Some (ChatInterface.lastMessage_of newMessages)
    /\ exists k, (clock <= k)%nat /\ Conversation.timestamp conv' = Date_now k
  else conv' = conv.

End Updated.

(** An entry of the store that kept its place and its id, and that is
    untouched unless its id is [conversationId]. *)
Definition kept (conversationId : jsstring) (conv conv' : Conversation.t) : Prop :=
  Conversation.id conv' = Conversation.id conv
  /\ (Conversation.id conv <> conversationId -> conv' = conv).

(** The complete lines that the loop of [handleSend] gets to see for an
    outcome of [fetch]: none unless the response is ok and has a body. *)
Definition received_lines (fetched : Fetched) : list jsstring :=
  match fetched with
  | Rejected _ => []
  | Resolved response =>
      if ok response then
        match response_body response with
        | Some reader => complete_lines (List.concat (chunks reader))
        | None => []
        end
      else []
  end.

(** The errors of a send that are not a malformed frame, by the outcome
    of [fetch]: the request itself fails, the status is not a success,
    the response has no body to read, a read of the body fails. *)
Inductive send_fails : Fetched -> thrown -> Prop :=
| NetworkFailure (e : thrown) :
    send_fails (Rejected e) e
| UpstreamError (r : Response) :
    ok r = false ->
    send_fails (Resolved r)
      (Error (js "API请求失败: " ++ JS.of_Z (status r) ++ js " - " ++ text r))
| StreamUnavailable (r : Response) :
    ok r = true ->
    response_body r = None ->
    send_fails (Resolved r) (Error (js "无法获取响应流"))
| ReadFailure (r : Response) (reader : ReadableStream) (e : thrown) :
    ok r = true ->
    response_body r = Some reader ->
    failure reader = Some e ->
    send_fails (Resolved r) e.

(** The text of the error banner when one is rendered,
    [{error && (...)}]: none for [null] and none for the empty text. *)
Definition banner (s : ChatInterface.State) : option jsstring :=
  match ChatInterface.error s with
  | Some text => if JS.truthy text then Some text else None
  | None => None
  end.

(** The response [r] with a body that delivers [values] and then ends as
    [ending] says. *)
Definition with_body (r : Response) (values : list (list byte))
           (ending : option thrown) : Response :=
  {| ok := ok r; status := status r; statusText := statusText r; text := text r;
     response_body := Some {| chunks := values; failure := ending |} |}.

(** An HTTP 200 response whose body delivers [chunks] and then ends as
    [failure] says. *)
Definition streaming (chunks : list (list byte)) (failure : option thrown) : Response :=
  {| ok := true; status := 200; statusText := js "OK"; text := [];
     response_body := Some {| chunks := chunks; failure := failure |} |}.

(** The list is ordered by recency of last update, most recent first. *)
Fixpoint recency_sorted (convs : list Conversation.t) : bool :=
  match convs with
  | [] => true
  | c :: rest =>
      forallb (fun c' => Conversation.timestamp c' <=? Conversation.timestamp c) rest
      && recency_sorted rest
  end.

(** The start of the local day that contains [now], for a time zone
    [offset] milliseconds ahead of UTC, and the test that a time stamp
    falls within that day. *)
Definition local_day_start (offset now : Z) : Z :=
  now - (now + offset) mod 86400000.

Definition within_local_day (offset now timestamp : Z) : bool :=
  (local_day_start offset now <=? timestamp)
  && (timestamp <? local_day_start offset now + 86400000).

(* ===================================================================== *)
(** ** Concrete runs *)
(* ===================================================================== *)

Module Run.

Definition RT : Runtime := reference_runtime 1700000000000.

(** A literal with the apostrophes read as double quotes. *)
Fixpoint dq (s : string) : string :=
  match s with
  | EmptyString => EmptyString
  | String c s' =>
      String (if Ascii.eqb c "039"%char then "034"%char else c) (dq s')
  end.

(** The bytes of an event stream: every frame followed by a newline. *)
Fixpoint sse (frames : list string) : list byte :=
  match frames with
  | [] => []
  | f :: rest => list_byte_of_string (dq f) ++ x0a :: sse rest
  end.

Definition content_Hi : string := "data: {'choices':[{'delta':{'content':'Hi'}}]}".
Definition content_there : string := "data: {'choices':[{'delta':{'content':' there'}}]}".
Definition content_X : string := "data: {'choices':[{'delta':{'content':'X'}}]}".
Definition done : string := "data: [DONE]".

Definition settings : ModelSettings :=
  {| name := js "glm-4-flash"; baseUrl := js "https://x/v1"; apiKey := js "k" |}.

Definition no_settings : ModelSettings :=
  {| name := []; baseUrl := []; apiKey := [] |}.

(** The component after start-up, with a text typed in. *)
Definition typed (text : string) (m : ModelSettings) : ChatInterface.World :=
  {| ChatInterface.state :=
       {| ChatInterface.conversations := [];
          ChatInterface.currentConversationId := None;
          ChatInterface.messages := [];
          ChatInterface.input := js text;
          ChatInterface.isLoading := false;
          ChatInterface.error := None;
          ChatInterface.modelSettings := m |};
     ChatInterface.clock := 0 |}.

(** A server that answers every request with the given body. *)
Definition server (values : list (list byte)) (failure : option thrown)
  : Request -> Fetched :=
  fun _ => Resolved (streaming values failure).

(** The stream of the specification's example. *)
Definition Hi_there : list (list byte) := [sse [content_Hi; content_there; done]].

(** A delta that follows the terminal frame in the same chunk. *)
Definition after_DONE : list (list byte) := [sse [done; content_X]].

(** One delta, and then the connection is lost. *)
Definition connection_lost : thrown := Error (js "network error").

(** Two conversations, the more recent one first, and the older one
    selected with its message on screen. *)
Definition older_message : Message.t := Message.mk user (js "first") 1600000000000.

Definition recent : Conversation.t :=
  Conversation.mk (js "1650000000000") (js "second") [] 1650000000001 (Some (js "second")).

Definition older : Conversation.t :=
  Conversation.mk (js "1600000000000") (js "first") [older_message]
    1600000000001 (Some (js "first")).

Definition older_selected : ChatInterface.World :=
  {| ChatInterface.state :=
       {| ChatInterface.conversations := [recent; older];
          ChatInterface.currentConversationId := Some (Conversation.id older);
          ChatInterface.messages := [older_message];
          ChatInterface.input := js "again";
          ChatInterface.isLoading := false;
          ChatInterface.error := None;
          ChatInterface.modelSettings := settings |};
     ChatInterface.clock := 0 |}.

(** A conversation that was renamed, and a message list whose user
    message has no text. *)
Definition renamed : Conversation.t :=
  Conversation.mk (js "1650000000000") (js "my title") [] 1650000000001 None.

Definition renamed_only : ChatInterface.World :=
  {| ChatInterface.state :=
       {| ChatInterface.conversations := [renamed];
          ChatInterface.currentConversationId := Some (Conversation.id renamed);
          ChatInterface.messages := [];
          ChatInterface.input := [];
          ChatInterface.isLoading := false;
          ChatInterface.error := None;
          ChatInterface.modelSettings := settings |};
     ChatInterface.clock := 0 |}.

Definition empty_user_message : Message.t := Message.mk user [] 1650000000002.

(** 09:00 of a day in a zone eight hours ahead of UTC, and a
    conversation last updated at 07:00 of that local day. *)
Definition UTC_plus_8 : Z := 8 * 3600000.
Definition nine_local : Z := 19675 * 86400000 + 3600000.
Definition seven_local : Conversation.t :=
  Conversation.mk (js "c") (js "early") [] (nine_local - 2 * 3600000) None.

(** A conversation stamped two days after [nine_local]. *)
Definition from_the_future : Conversation.t :=
  Conversation.mk (js "f") (js "late") [] (nine_local + 2 * 86400000) None.

(** The three bytes of U+65B0 arrive in three chunks, and the line ends
    in a fourth. *)
Definition content_xin : list byte :=
  list_byte_of_string (dq "data: {'choices':[{'delta':{'content':'新'}}]}").

Definition cut_inside_character : list (list byte) :=
  [firstn 41 content_xin; [nth 41 content_xin x00]; skipn 42 content_xin; [x0a]].

End Run.

(* ===================================================================== *)
(** ** Further notions used in the statements *)
(* ===================================================================== *)

(** The test that both loops make for the terminal frame. *)
Definition is_DONE (line : jsstring) : bool :=
  JS.startsWith data_prefix line && JS.eqb (JS.slice_from 6 line) DONE.

(** The lines before the first terminal frame. *)
Fixpoint until_DONE (lines : list jsstring) : list jsstring :=
  match lines with
  | [] => []
  | line :: rest => if is_DONE line then [] else line :: until_DONE rest
  end.

(** The strings of the values that [str += v] can make a string, in
    order. *)
Definition strings {RT : Runtime} (ys : list (jsval number)) : list jsstring :=
  flat_map (fun y => match Value.toString y with
                     | Some text => [text]
                     | None => []
                     end) ys.

Module StreamRuns.

(** A frame whose content is an object with a member [toString]. *)
Definition object_frame : string :=
  "data: {'choices':[{'delta':{'content':{'toString':1}}}]}".

Definition object_then_Hi : list (list byte) :=
  [Run.sse [object_frame; Run.content_Hi]].

(** A body in which no line is a well-formed frame: a line without the
    prefix, a frame whose payload is not JSON, a frame without content,
    a frame whose value is [null], and bytes that are not UTF-8. *)
Definition event_line : string := "event: ping".
Definition truncated_frame : string := "data: {'choices':".
Definition empty_delta : string := "data: {'choices':[{'delta':{}}]}".
Definition null_frame : string := "data: null".

Definition malformed : list (list byte) :=
  [Run.sse [event_line; truncated_frame; empty_delta; null_frame];
   [xff; xfe; x0a]].

(** A body with the terminal frame and nothing else. *)
Definition only_DONE : list (list byte) := [Run.sse [Run.done]].

(** The user has typed [hello] after an id that the store does not hold
    was selected. *)
Definition unknown_selected : ChatInterface.World :=
  ChatInterface.on_state (ChatInterface.selectConversation (js "42"))
    (Run.typed "hello" Run.settings).

End StreamRuns.

(* ===================================================================== *)
(** ** The rename and delete dialogs of [ChatInterface] *)
(* ===================================================================== *)

Module DeleteConfirm.
Record t := mk {
  show : bool;
  conversationId : jsstring;
  conversationTitle : jsstring
}.
(** [{ show: false, conversationId: '', conversationTitle: '' }] *)
Definition closed : t := mk false [] [].
End DeleteConfirm.

Module RenameDialog.
Record t := mk {
  show : bool;
  conversationId : jsstring;
  currentTitle : jsstring
}.
(** [{ show: false, conversationId: '', currentTitle: '' }] *)
Definition closed : t := mk false [] [].
End RenameDialog.

Module Sidebar.

(** The cells of the session together with the two dialog cells. *)
Record UI := {
  session : ChatInterface.State;
  deleteConfirm : DeleteConfirm.t;
  renameDialog : RenameDialog.t
}.

Definition on_session (f : ChatInterface.State -> ChatInterface.State) (ui : UI) : UI :=
  {| session := f (session ui);
     deleteConfirm := deleteConfirm ui;
     renameDialog := renameDialog ui |}.

Definition setDeleteConfirm (v : DeleteConfirm.t) (ui : UI) : UI :=
  {| session := session ui; deleteConfirm := v; renameDialog := renameDialog ui |}.

Definition setRenameDialog (v : RenameDialog.t) (ui : UI) : UI :=
  {| session := session ui; deleteConfirm := deleteConfirm ui; renameDialog := v |}.

Definition showRenameDialog (conversationId currentTitle : jsstring) (ui : UI) : UI :=
  setRenameDialog (RenameDialog.mk true conversationId currentTitle) ui.

(** [if (newTitle.trim()) { renameConversation(...); setRenameDialog(...) }] *)
Definition confirmRename (newTitle : jsstring) (ui : UI) : UI :=
  if JS.truthy (JS.trim newTitle) then
    setRenameDialog RenameDialog.closed
      (on_session
         (ChatInterface.renameConversation
            (RenameDialog.conversationId (renameDialog ui)) (JS.trim newTitle))
         ui)
  else ui.

Definition cancelRename (ui : UI) : UI := setRenameDialog RenameDialog.closed ui.

(** [handleSubmit] of [RenameInputDialog], with [onConfirm] bound to
    [confirmRename] as the component binds it. *)
Definition RenameInputDialog_handleSubmit (inputValue : jsstring) (ui : UI) : UI :=
  if JS.truthy (JS.trim inputValue) then confirmRename (JS.trim inputValue) ui
  else ui.

(** The click on a conversation's delete button: the confirmation is
    asked for when the store holds the id. *)
Definition deleteConversation (conversationId : jsstring) (ui : UI) : UI :=
  match find (fun c => JS.eqb (Conversation.id c) conversationId)
             (ChatInterface.conversations (session ui)) with
  | Some conversation =>
      setDeleteConfirm
        (DeleteConfirm.mk true conversationId (Conversation.title conversation)) ui
  | None => ui
  end.

(** [currentConversationId === deleteConfirm.conversationId] *)
Definition is_current (current : option jsstring) (conversationId : jsstring) : bool :=
  match current with
  | Some id => JS.eqb id conversationId
  | None => false
  end.

Definition confirmDelete (ui : UI) : UI :=
  let doomed := DeleteConfirm.conversationId (deleteConfirm ui) in
  let ui1 :=
    on_session
      (ChatInterface.setConversations
         (filter (fun conv => negb (JS.eqb (Conversation.id conv) doomed))))
      ui in
  let ui2 :=
    if is_current (ChatInterface.currentConversationId (session ui)) doomed
    then on_session ChatInterface.createNewConversation ui1
    else ui1 in
  setDeleteConfirm DeleteConfirm.closed ui2.

Definition cancelDelete (ui : UI) : UI := setDeleteConfirm DeleteConfirm.closed ui.

End Sidebar.

(* ===================================================================== *)
(** ** The effects of [ChatInterface] on [localStorage] *)
(* ===================================================================== *)

(** An item of [localStorage] is kept as the value whose JSON text it
    holds: [JSON.parse (JSON.stringify v)] is taken to give [v] back for
    the conversations and the settings that the component writes.  An
    item may also hold text that does not parse. *)
Module Storage.

Inductive item (A : Type) : Type :=
| Absent
| Unparsable
| Stored (v : A).

Arguments Absent {A}.
Arguments Unparsable {A}.
Arguments Stored {A} v.

Record t := {
  conversations_item : item (list Conversation.t);     (* key [conversations] *)
  modelSettings_item : item ModelSettings              (* key [modelSettings] *)
}.

Definition empty_settings : ModelSettings :=
  {| name := []; baseUrl := []; apiKey := [] |}.

(** The cells as [useState] initialises them. *)
Definition initial : ChatInterface.State :=
  {| ChatInterface.conversations := [];
     ChatInterface.currentConversationId := None;
     ChatInterface.messages := [];
     ChatInterface.input := [];
     ChatInterface.isLoading := false;
     ChatInterface.error := None;
     ChatInterface.modelSettings := empty_settings |}.

Definition setModelSettings (v : ModelSettings) (s : ChatInterface.State)
  : ChatInterface.State :=
  {| ChatInterface.conversations := ChatInterface.conversations s;
     ChatInterface.currentConversationId := ChatInterface.currentConversationId s;
     ChatInterface.messages := ChatInterface.messages s;
     ChatInterface.input := ChatInterface.input s;
     ChatInterface.isLoading := ChatInterface.isLoading s;
     ChatInterface.error := ChatInterface.error s;
     ChatInterface.modelSettings := v |}.

Definition old_default_name : jsstring := Eval cbv in js "智谱AI".
Definition old_default_baseUrl : jsstring :=
  Eval cbv in js "https://open.bigmodel.cn/api/paas/v4".

(** The first step of the effect that runs at mount: settings that look
    like the old defaults, or that do not parse, are removed. *)
Definition clean_old_defaults (st : t) : t :=
  match modelSettings_item st with
  | Stored parsed =>
      if JS.eqb (name parsed) old_default_name
         || JS.eqb (baseUrl parsed) old_default_baseUrl
      then {| conversations_item := conversations_item st;
              modelSettings_item := Absent |}
      else st
  | Unparsable =>
      {| conversations_item := conversations_item st; modelSettings_item := Absent |}
  | Absent => st
  end.

(** The effect that runs at mount: the storage as it leaves it, and the
    cells it sets; [None] when [JSON.parse] of the conversations throws,
    which nothing in the effect catches. *)
Definition mount (st : t) : t * option ChatInterface.State :=
  let st1 := clean_old_defaults st in
  match conversations_item st1 with
  | Unparsable => (st1, None)
  | loaded =>
      let s1 := match loaded with
                | Stored parsedConversations =>
                    ChatInterface.setConversations (fun _ => parsedConversations) initial
                | _ => initial
                end in
      let s2 := match modelSettings_item st1 with
                | Stored parsedSettings => setModelSettings parsedSettings s1
                | _ => setModelSettings empty_settings s1
                end in
      (st1,
       Some (ChatInterface.setMessages (fun _ => [])
               (ChatInterface.setCurrentConversationId None s2)))
  end.

(** The two effects that save: the conversations when the list is not
    empty, the settings when one of the three fields is not empty. *)
Definition save (s : ChatInterface.State) (st : t) : t :=
  {| conversations_item :=
       match ChatInterface.conversations s with
       | [] => conversations_item st
       | _ :: _ => Stored (ChatInterface.conversations s)
       end;
     modelSettings_item :=
       if JS.truthy (name (ChatInterface.modelSettings s))
          || JS.truthy (baseUrl (ChatInterface.modelSettings s))
          || JS.truthy (apiKey (ChatInterface.modelSettings s))
       then Stored (ChatInterface.modelSettings s)
       else modelSettings_item st |}.

End Storage.

(** A string that neither starts nor ends with white space. *)
Definition starts_clean (s : jsstring) : Prop :=
  match s with
  | [] => True
  | c :: _ => JS.is_whitespace c = false
  end.

Definition no_outer_whitespace (s : jsstring) : Prop :=
  starts_clean s /\ starts_clean (rev s).

Module StoreRuns.

(** The sidebar with the two conversations of [Run], the older one
    active, and both dialogs closed. *)
Definition two_conversations : Sidebar.UI :=
  {| Sidebar.session := ChatInterface.state Run.older_selected;
     Sidebar.deleteConfirm := DeleteConfirm.closed;
     Sidebar.renameDialog := RenameDialog.closed |}.

(** One conversation, active, and both dialogs closed. *)
Definition one_conversation : Sidebar.UI :=
  {| Sidebar.session :=
       {| ChatInterface.conversations := [Run.older];
          ChatInterface.currentConversationId := Some (Conversation.id Run.older);
          ChatInterface.messages := [Run.older_message];
          ChatInterface.input := [];
          ChatInterface.isLoading := false;
          ChatInterface.error := None;
          ChatInterface.modelSettings := Run.settings |};
     Sidebar.deleteConfirm := DeleteConfirm.closed;
     Sidebar.renameDialog := RenameDialog.closed |}.

Definition nothing_stored : Storage.t :=
  {| Storage.conversations_item := Storage.Absent;
     Storage.modelSettings_item := Storage.Absent |}.

(** The settings with the endpoint that [api.ts] has as [BASE_URL]. *)
Definition zhipu_settings : ModelSettings :=
  {| name := js "glm-4-flash";
     baseUrl := js "https://open.bigmodel.cn/api/paas/v4";
     apiKey := js "k" |}.

End StoreRuns.

(* ===================================================================== *)
(** ** Frames and their newlines *)
(* ===================================================================== *)

(** The text of [lines], each one ended by a newline. *)
Definition terminated (lines : list jsstring) : jsstring :=
  List.concat (map (fun line => line ++ [newline]) lines).

Module FrameRuns.

(** The frame [Hi] ended by a newline, and the frame [ there] without
    one, after which the body ends. *)
Definition last_frame_cut : list (list byte) :=
  [Run.sse [Run.content_Hi]; list_byte_of_string (Run.dq Run.content_there)].

End FrameRuns.

(* ===================================================================== *)
(** ** Regular expressions, as far as [processAIContent] uses them *)
(* ===================================================================== *)

(** [s.includes(p)] *)
Fixpoint includes (p s : jsstring) : bool :=
  JS.startsWith p s
  || match s with
     | [] => false
     | _ :: s' => includes p s'
     end.

Module RegExp.

(** The patterns are built from character classes ([\n], [\s]), the
    assertions [^] and [$] (without the flag [m]: start and end of the
    input), sequence, alternation and the greedy quantifiers [*], [+]
    and [{n,}] on a class. *)
Inductive pattern : Type :=
| Class (p : code_unit -> bool)
| Start
| End_
| Seq (a b : pattern)
| Alt (a b : pattern)
| Star (p : code_unit -> bool)
| Plus (p : code_unit -> bool)
| AtLeast (n : nat) (p : code_unit -> bool).

(** A matcher takes the index it has reached and the rest of the input,
    and a continuation that matches what follows in the pattern; it
    gives the end of the match, or fails.  This is the backtracking
    semantics of the language specification: the first alternative that
    lets the continuation succeed is taken. *)
Definition Continuation : Type := nat -> jsstring -> option (nat * jsstring).

Definition accept : Continuation := fun e rest => Some (e, rest).

Definition one (p : code_unit -> bool) (k : Continuation) : Continuation :=
  fun i s =>
    match s with
    | c :: s' => if p c then k (S i) s' else None
    | [] => None
    end.

(** Greedy repetition: one more character if the rest of the pattern
    still matches after it, and otherwise the continuation from here. *)
Fixpoint star (p : code_unit -> bool) (k : Continuation) (i : nat) (s : jsstring)
  : option (nat * jsstring) :=
  match s with
  | c :: s' =>
      if p c then
        match star p k (S i) s' with
        | Some r => Some r
        | None => k i s
        end
      else k i s
  | [] => k i s
  end.

Fixpoint at_least (n : nat) (p : code_unit -> bool) (k : Continuation) : Continuation :=
  match n with
  | O => star p k
  | S n' => one p (at_least n' p k)
  end.

Fixpoint matcher (r : pattern) (k : Continuation) : Continuation :=
  match r with
  | Class p => one p k
  | Start => fun i s => if (i =? 0)%nat then k i s else None
  | End_ => fun i s => match s with [] => k i s | _ :: _ => None end
  | Seq a b => matcher a (matcher b k)
  | Alt a b =>
      fun i s =>
        match matcher a k i s with
        | Some r => Some r
        | None => matcher b k i s
        end
  | Star p => star p k
  | Plus p => at_least 1 p k
  | AtLeast n p => at_least n p k
  end.

(** A match that starts at index [i], where [s] is the input from [i]
    on. *)
Definition match_at (r : pattern) (i : nat) (s : jsstring) : option (nat * jsstring) :=
  matcher r accept i s.

(** [input.replace(r, replacement)] for a pattern with the flag [g] and
    a replacement without [$]: the input is searched from left to right,
    every match is replaced, and the search goes on behind the match
    (one character further when the match is empty).  [skip] counts the
    characters of the current match that are still to be passed. *)
Fixpoint replace_from (r : pattern) (replacement : jsstring)
         (skip i : nat) (s : jsstring) {struct s} : jsstring :=
  match skip with
  | S skip' =>
      match s with
      | _ :: s' => replace_from r replacement skip' (S i) s'
      | [] => []
      end
  | O =>
      match match_at r i s with
      | Some (e, _) =>
          replacement
            ++ match s with
               | c :: s' =>
                   if (e =? i)%nat then c :: replace_from r replacement 0 (S i) s'
                   else replace_from r replacement (e - i - 1) (S i) s'
               | [] => []
               end
      | None =>
          match s with
          | c :: s' => c :: replace_from r replacement 0 (S i) s'
          | [] => []
          end
      end
  end.

Definition replace (r : pattern) (replacement : jsstring) (input : jsstring) : jsstring :=
  replace_from r replacement 0 0 input.

End RegExp.

(* ===================================================================== *)
(** ** [processAIContent]: the text shown for an assistant message *)
(* ===================================================================== *)

Definition is_newline (c : code_unit) : bool := c =? newline.

(** [/\n{3,}/g] *)
Definition three_or_more_newlines : RegExp.pattern :=
  RegExp.AtLeast 3 is_newline.

(** [/^\s*\n+|\n+\s*$/g] *)
Definition blank_start_or_end : RegExp.pattern :=
  RegExp.Alt
    (RegExp.Seq RegExp.Start
       (RegExp.Seq (RegExp.Star JS.is_whitespace) (RegExp.Plus is_newline)))
    (RegExp.Seq (RegExp.Plus is_newline)
       (RegExp.Seq (RegExp.Star JS.is_whitespace) RegExp.End_)).

Definition processAIContent (content : jsstring) : jsstring :=
  if negb (JS.truthy content) then []
  else
    JS.trim
      (RegExp.replace blank_start_or_end []
         (RegExp.replace three_or_more_newlines [newline; newline] content)).

(** The characters of a text that are not white space, in order. *)
Definition visible (s : jsstring) : jsstring :=
  filter (fun c => negb (JS.is_whitespace c)) s.

(** Three newlines in a row. *)
Definition three_newlines : jsstring := [newline; newline; newline].

Module TextRuns.

(** An answer with blank lines before, inside and after its text. *)
Definition padded_answer : jsstring :=
  Eval cbv in js (String "010" (String "010" (String " " (String "010"
       ("Hi" ++ String "010" (String "010" (String "010" (String "010"
       ("there " ++ String "010" (String " " (String "010" EmptyString))))))))))).

End TextRuns.

(** The length of the longest prefix of [s] in the class [p]. *)
Fixpoint span (p : code_unit -> bool) (s : jsstring) : nat :=
  match s with
  | c :: s' => if p c then S (span p s') else O
  | [] => O
  end.

(** Every match of the continuation [k] passes over characters of the
    class [q] only, and leaves a rest of the input for which [P] holds. *)
Definition consumes (q : code_unit -> bool) (P : jsstring -> Prop)
           (k : RegExp.Continuation) : Prop :=
  forall (i : nat) (s : jsstring) (e : nat) (rest : jsstring),
    k i s = Some (e, rest) ->
    exists m : nat,
      e = (i + m)%nat /\ (m <= List.length s)%nat /\ rest = skipn m s
      /\ forallb q (firstn m s) = true /\ P rest.

(* ===================================================================== *)
(** ** [ModelSettingsDialog]: the connection test *)
(* ===================================================================== *)

(** What [handleTest] takes from the platform besides the runtime. *)
Class Browser (RT : Runtime) : Type := {
  (** [new URL(text).protocol], or what the constructor throws *)
  URL_protocol : jsstring -> thrown + jsstring;
  (** the message of the TypeError for reading a property of [null] or
      [undefined] *)
  TypeError_message : jsval number -> jsstring -> jsstring;
  (** the message of the TypeError for a value that cannot be made a
      primitive *)
  ToPrimitive_message : jsval number -> jsstring;
  (** the message of the SyntaxError with which [response.json()]
      rejects a body that is not JSON *)
  SyntaxError_message : jsstring -> jsstring;
  (** [n > 0] on a Number, and [s > 0] on a String *)
  number_positive : number -> bool;
  string_positive : jsstring -> bool
}.

(** [pieces.join(sep)] *)
Fixpoint join_with (sep : jsstring) (pieces : list jsstring) : jsstring :=
  match pieces with
  | [] => []
  | [p] => p
  | p :: rest => p ++ sep ++ join_with sep rest
  end.

Module ModelSettingsDialog.

Record TestResult := { success : bool; message : jsstring }.

(** The [useState] cells of the dialog. *)
Record State := {
  localSettings : ModelSettings;
  isTesting : bool;
  testResult : option TestResult
}.

Definition setIsTesting (v : bool) (s : State) : State :=
  {| localSettings := localSettings s; isTesting := v; testResult := testResult s |}.

Definition setTestResult (v : option TestResult) (s : State) : State :=
  {| localSettings := localSettings s; isTesting := isTesting s; testResult := v |}.

(** The dialog's state together with the number of [Date.now()] calls
    made so far. *)
Record World := { state : State; clock : nat }.

Definition on_state (f : State -> State) (w : World) : World :=
  {| state := f (state w); clock := clock w |}.

Definition tick (w : World) : World :=
  {| state := state w; clock := S (clock w) |}.

(** The request of the test: the one of a send, with the member
    [max_tokens] added to its body. *)
Record TestRequest := { request : Request; max_tokens : Z }.

Definition name_label : jsstring := Eval cbv in js "模型名称".
Definition baseUrl_label : jsstring := Eval cbv in js "API Base".
Definition apiKey_label : jsstring := Eval cbv in js "API Key".
Definition please_fill_in : jsstring := Eval cbv in js "请填写: ".
Definition comma : jsstring := Eval cbv in js ", ".
Definition http : jsstring := Eval cbv in js "http:".
Definition https : jsstring := Eval cbv in js "https:".
Definition protocol_must_be_http : jsstring := Eval cbv in js "协议必须为http或https".
Definition invalid_URL : jsstring := Eval cbv in js "无效的URL".
Definition baseUrl_malformed : jsstring := Eval cbv in js "API Base格式错误: ".
Definition test_content : jsstring := Eval cbv in js "你好，这是一个连接测试".
Definition status_400 : jsstring := Eval cbv in js "请求格式错误，可能是模型名称不正确".
Definition status_401 : jsstring := Eval cbv in js "API Key认证失败，请检查API Key是否正确".
Definition status_403 : jsstring := Eval cbv in js "访问被拒绝，可能是API Key权限不足或已过期".
Definition status_404 : jsstring := Eval cbv in js "API地址不正确，请检查API Base URL".
Definition status_429 : jsstring := Eval cbv in js "请求频率过高，请稍后重试".
Definition status_5xx : jsstring := Eval cbv in js "服务器内部错误，请稍后重试".
Definition request_failed : jsstring := Eval cbv in js "API请求失败 (".
Definition request_failed_colon : jsstring := Eval cbv in js "): ".
Definition test_succeeded : jsstring := Eval cbv in js "连接测试成功！模型: ".
Definition elapsed_label : jsstring := Eval cbv in js ", 耗时: ".
Definition ms : jsstring := Eval cbv in js "ms".
Definition unexpected_format : jsstring :=
  Eval cbv in js "API响应格式异常，可能是模型名称不匹配".
Definition fetch_word : jsstring := Eval cbv in js "fetch".
Definition Failed_to_fetch : jsstring := Eval cbv in js "Failed to fetch".
Definition network_failed : jsstring :=
  Eval cbv in js "网络连接失败，请检查API Base URL是否正确且可访问".
Definition CORS_or_network : jsstring :=
  Eval cbv in js "CORS或网络错误，请检查API Base URL和CORS配置".
Definition unknown_network_error : jsstring := Eval cbv in js "未知网络错误".
Definition choices_name : jsstring := Eval cbv in js "choices".
Definition index0_name : jsstring := Eval cbv in js "0".
Definition length_name : jsstring := Eval cbv in js "length".
Definition message_name : jsstring := Eval cbv in js "message".

Definition failed (text : jsstring) : TestResult :=
  {| success := false; message := text |}.

Section WithBrowser.
Context {RT : Runtime} {B : Browser RT}.

Definition value : Type := jsval number.

(** [v[name]] on a value that is neither [null] nor [undefined], for the
    names [choices], [0] and [message], none of which is inherited from
    a prototype. *)
Definition property (v : value) (name : jsstring) : value :=
  match v with
  | JObject properties =>
      match Value.own_property name properties with
      | Some x => x
      | None => JUndefined
      end
  | JArray elements =>
      if JS.eqb name index0_name
      then match elements with x :: _ => x | [] => JUndefined end
      else JUndefined
  | JString s =>
      if JS.eqb name index0_name
      then match s with c :: _ => JString [c] | [] => JUndefined end
      else JUndefined
  | _ => JUndefined
  end.

(** [v.name]: a TypeError on [null] and [undefined] *)
Definition read (v : value) (name : jsstring) : thrown + value :=
  if Value.nullish v then inl (Error (TypeError_message v name))
  else inr (property v name).

(** [v > 0]: the value is made a primitive, which throws a TypeError
    for an array or object that cannot be made one, and a String is made
    a Number. *)
Definition greater_than_zero (v : value) : thrown + bool :=
  match v with
  | JUndefined | JNull => inr false
  | JBool b => inr b
  | JNumber n => inr (number_positive n)
  | JString s => inr (string_positive s)
  | JArray _ | JObject _ =>
      match Value.toString v with
      | Some s => inr (string_positive s)
      | None => inl (Error (ToPrimitive_message v))
      end
  end.

(** [c.length > 0] on a value that is neither [null] nor [undefined] *)
Definition length_positive (c : value) : thrown + bool :=
  match c with
  | JArray elements => inr (negb (Nat.eqb (List.length elements) 0))
  | JString s => inr (negb (Nat.eqb (List.length s) 0))
  | JObject properties =>
      greater_than_zero
        match Value.own_property length_name properties with
        | Some x => x
        | None => JUndefined
        end
  | _ => greater_than_zero JUndefined
  end.

(** [data.choices && data.choices.length > 0 && data.choices[0].message]
    as the condition of the [if]. *)
Definition answered (data : value) : thrown + bool :=
  match read data choices_name with
  | inl e => inl e
  | inr c =>
      if negb (Value.truthy c) then inr false
      else
        match length_positive c with
        | inl e => inl e
        | inr false => inr false
        | inr true =>
            match read (property c index0_name) message_name with
            | inl e => inl e
            | inr m => inr (Value.truthy m)
            end
        end
  end.

Definition missingFields (settings : ModelSettings) : list jsstring :=
  (if negb (JS.truthy (name settings)) then [name_label] else [])
  ++ (if negb (JS.truthy (baseUrl settings)) then [baseUrl_label] else [])
  ++ (if negb (JS.truthy (apiKey settings)) then [apiKey_label] else []).

(** The inner [try]: what it throws, if anything. *)
Definition URL_error (text : jsstring) : option thrown :=
  match URL_protocol text with
  | inl e => Some e
  | inr protocol =>
      if JS.eqb protocol http || JS.eqb protocol https then None
      else Some (Error protocol_must_be_http)
  end.

Definition test_request (settings : ModelSettings) : TestRequest :=
  {| request :=
       {| url := chat_completions (baseUrl settings);
          method := POST;
          ContentType := application_json;
          Authorization := Bearer (apiKey settings);
          body := {| model := name settings;
                     body_messages := [(user, test_content)];
                     stream := false |} |};
     max_tokens := 10 |}.

(** The [switch] on [response.status]. *)
Definition status_message (status : Z) (errorText : jsstring) : jsstring :=
  if status =? 400 then status_400
  else if status =? 401 then status_401
  else if status =? 403 then status_403
  else if status =? 404 then status_404
  else if status =? 429 then status_429
  else if (status =? 500) || (status =? 502) || (status =? 503) || (status =? 504)
  then status_5xx
  else request_failed ++ JS.of_Z status ++ request_failed_colon
       ++ JS.slice_to 100 errorText.

(** The outer [catch]. *)
Definition catch_message (e : thrown) : jsstring :=
  match e with
  | Error text =>
      if includes fetch_word text then network_failed
      else if includes Failed_to_fetch text then CORS_or_network
      else text
  | NotAnError => unknown_network_error
  end.

(** The outer [try] block: how it is left ([None]: normally or by
    [return]), the state it leaves, and the requests issued. *)
Definition try_block (fetch : TestRequest -> Fetched) (settings : ModelSettings)
           (w : World) : option thrown * World * list TestRequest :=
  let testStartTime := Date_now (clock w) in
  let w := tick w in
  match URL_error (baseUrl settings) with
  | Some urlError =>
      (None,
       on_state
         (setTestResult
            (Some (failed (baseUrl_malformed
                           ++ match urlError with
                              | Error text => text
                              | NotAnError => invalid_URL
                              end))))
         w,
       [])
  | None =>
      let sent := test_request settings in
      match fetch sent with
      | Rejected e => (Some e, w, [sent])
      | Resolved response =>
          let testEndTime := Date_now (clock w) in
          let w := tick w in
          if negb (ok response) then
            (None,
             on_state
               (setTestResult
                  (Some (failed (status_message (status response) (text response)))))
               w,
             [sent])
          else
            match JSON_parse (text response) with
            | None => (Some (Error (SyntaxError_message (text response))), w, [sent])
            | Some data =>
                match answered data with
                | inl e => (Some e, w, [sent])
                | inr true =>
                    (None,
                     on_state
                       (setTestResult
                          (Some {| success := true;
                                   message :=
                                     test_succeeded ++ name settings ++ elapsed_label
                                     ++ JS.of_Z (testEndTime - testStartTime) ++ ms |}))
                       w,
                     [sent])
                | inr false =>
                    (None, on_state (setTestResult (Some (failed unexpected_format))) w,
                     [sent])
                end
            end
      end
  end.

Definition handleTest (fetch : TestRequest -> Fetched) (w : World)
  : World * list TestRequest :=
  let settings := localSettings (state w) in
  if negb (JS.truthy (name settings))
     || negb (JS.truthy (baseUrl settings))
     || negb (JS.truthy (apiKey settings))
  then
    (on_state
       (setTestResult
          (Some (failed (please_fill_in ++ join_with comma (missingFields settings)))))
       w,
     [])
  else
    let w1 := on_state (setTestResult None) (on_state (setIsTesting true) w) in
    let '(completion, w2, requests) := try_block fetch settings w1 in
    let w3 :=
      match completion with
      | Some e => on_state (setTestResult (Some (failed (catch_message e)))) w2
      | None => w2
      end in
    (on_state (setIsTesting false) w3, requests).

End WithBrowser.
End ModelSettingsDialog.

(** The browser of the concrete runs: a URL is accepted when a scheme of
    letters and a colon start it, no Number and no String counts as
    positive, and the messages are those of one engine. *)
Module ReferenceBrowser.

Definition is_letter (c : code_unit) : bool :=
  ((97 <=? c) && (c <=? 122)) || ((65 <=? c) && (c <=? 90)).

Fixpoint scheme (text : jsstring) : option jsstring :=
  match text with
  | [] => None
  | c :: rest =>
      if c =? 58 then Some [c]
      else if is_letter c then
        match scheme rest with
        | Some s => Some (c :: s)
        | None => None
        end
      else None
  end.

Definition URL_protocol (text : jsstring) : thrown + jsstring :=
  match scheme text with
  | Some (c :: d :: s) => inr (c :: d :: s)
  | _ => inl (Error (js "Invalid URL"))
  end.

End ReferenceBrowser.

Definition reference_browser (t0 : Z) : Browser (reference_runtime t0) :=
  {| URL_protocol := ReferenceBrowser.URL_protocol;
     TypeError_message := fun _ name => js "Cannot read properties (reading '" ++ name ++ js "')";
     ToPrimitive_message := fun _ => js "Cannot convert object to primitive value";
     SyntaxError_message := fun _ => js "Unexpected token";
     number_positive := fun _ => false;
     string_positive := fun _ => false |}.

Module TestRuns.

Definition B : Browser Run.RT := reference_browser 1700000000000.

(** The dialog as it opens on given settings. *)
Definition opened (m : ModelSettings) : ModelSettingsDialog.World :=
  {| ModelSettingsDialog.state :=
       {| ModelSettingsDialog.localSettings := m;
          ModelSettingsDialog.isTesting := false;
          ModelSettingsDialog.testResult := None |};
     ModelSettingsDialog.clock := 0 |}.

(** Settings without a key, and settings whose base URL is a file. *)
Definition key_missing : ModelSettings :=
  {| name := js "glm-4-flash"; baseUrl := js "https://x/v1"; apiKey := [] |}.

Definition file_settings : ModelSettings :=
  {| name := js "glm-4-flash"; baseUrl := js "file:///etc/passwd"; apiKey := js "k" |}.

(** A server that answers the test with a completion, and a network
    that refuses the request as a browser reports it. *)
Definition completion : string := "{'choices':[{'message':{'content':'Hi'}}]}".

Definition answering : ModelSettingsDialog.TestRequest -> Fetched :=
  fun _ =>
    Resolved {| ok := true; status := 200; statusText := js "OK";
                text := js (Run.dq completion); response_body := None |}.

Definition unreachable : ModelSettingsDialog.TestRequest -> Fetched :=
  fun _ => Rejected (Error ModelSettingsDialog.Failed_to_fetch).

End TestRuns.

(* ===================================================================== *)
(** ** The send button and the Enter key *)
(* ===================================================================== *)

(** The [disabled] attribute of the send button:
    [!input.trim() || isLoading || !currentConversationId]. *)
Definition send_disabled (s : ChatInterface.State) : bool :=
  negb (JS.truthy (JS.trim (ChatInterface.input s)))
  || ChatInterface.isLoading s
  || negb match ChatInterface.currentConversationId s with
          | Some id => JS.truthy id
          | None => false
          end.

(** [handleKeyPress]: Enter without Shift sends. *)
Definition handleKeyPress {RT : Runtime} (key : jsstring) (shiftKey : bool)
           (fetch : Request -> Fetched) (w : ChatInterface.World)
  : ChatInterface.World * list Request :=
  if JS.eqb key (js "Enter") && negb shiftKey then ChatInterface.handleSend fetch w
  else (w, []).

(* ===================================================================== *)
(** * Properties *)
(* ===================================================================== *)

(** ** Strings and lines *)

Lemma eqb_eq (a b : jsstring) : JS.eqb a b = true <-> a = b.
Proof.
  revert b; induction a as [|x a IH]; intros [|y b]; simpl; split;
    try congruence; try reflexivity.
  - rewrite andb_true_iff, Z.eqb_eq, IH. intros [-> ->]. reflexivity.
  - intros H. injection H as -> ->. rewrite Z.eqb_refl. apply IH. reflexivity.
Qed.

Lemma eqb_refl (a : jsstring) : JS.eqb a a = true.
Proof. apply eqb_eq. reflexivity. Qed.

Lemma eqb_neq (a b : jsstring) : JS.eqb a b = false <-> a <> b.
Proof.
  rewrite <- eqb_eq. destruct (JS.eqb a b); split; congruence.
Qed.

Lemma or_else_nil (s : jsstring) : JS.or_else s [] = s.
Proof. destruct s; reflexivity. Qed.

Lemma split_not_nil (sep : code_unit) (s : jsstring) : JS.split sep s <> [].
Proof.
  destruct s as [|c s]; simpl; [discriminate|].
  destruct (c =? sep); [discriminate|].
  destruct (JS.split sep s); discriminate.
Qed.

Lemma removelast_cons {A} (x : A) (l : list A) :
  l <> [] -> removelast (x :: l) = x :: removelast l.
Proof. destruct l; [congruence | reflexivity]. Qed.

Lemma last_cons {A} (x d : A) (l : list A) :
  l <> [] -> last (x :: l) d = last l d.
Proof. destruct l; [congruence | reflexivity]. Qed.

(** Cutting [a ++ b] at the separators: the pieces of [a], the last of
    them continued by the first piece of [b], then the other pieces of
    [b]. *)
Lemma split_app (sep : code_unit) (a b : jsstring) :
  JS.split sep (a ++ b)
  = removelast (JS.split sep a)
      ++ (last (JS.split sep a) [] ++ hd [] (JS.split sep b))
      :: tl (JS.split sep b).
Proof.
  induction a as [|c a IH].
  - simpl. pose proof (split_not_nil sep b) as Hb.
    destruct (JS.split sep b); [congruence | reflexivity].
  - pose proof (split_not_nil sep a) as Ha.
    change ((c :: a) ++ b) with (c :: (a ++ b)).
    cbn [JS.split]. destruct (c =? sep).
    + rewrite IH, removelast_cons, last_cons by assumption. reflexivity.
    + rewrite IH. destruct (JS.split sep a) as [|p ps]; [congruence|].
      destruct ps as [|q qs]; reflexivity.
Qed.

Lemma split_without_sep (sep : code_unit) (s : jsstring) :
  ~ In sep s -> JS.split sep s = [s].
Proof.
  induction s as [|c s IH]; intros H; simpl; [reflexivity|].
  destruct (Z.eqb_spec c sep) as [->|_].
  - exfalso. apply H. left. reflexivity.
  - rewrite IH; [reflexivity|]. intros Hin. apply H. right. exact Hin.
Qed.

Lemma last_split_without_sep (sep : code_unit) (s : jsstring) :
  ~ In sep (last (JS.split sep s) []).
Proof.
  induction s as [|c s IH]; simpl; [tauto|].
  pose proof (split_not_nil sep s) as Hs.
  destruct (Z.eqb_spec c sep) as [->|Hc].
  - rewrite last_cons by assumption. exact IH.
  - destruct (JS.split sep s) as [|p ps]; [congruence|].
    destruct ps as [|q qs]; [|exact IH].
    simpl in *. intros [H|H]; [congruence | tauto].
Qed.

Lemma pop_not_nil {A} (l : list A) (d : A) :
  l <> [] -> JS.pop l = (removelast l, Some (last l d)).
Proof.
  intros H. destruct l as [|x l]; [congruence|]. unfold JS.pop. f_equal.
  clear H. revert x. induction l as [|y l IH]; intros x; [reflexivity|].
  specialize (IH y). simpl in *. exact IH.
Qed.

(** [split_lines] hands over all the pieces but the last and keeps the
    last one. *)
Lemma split_lines_spec (buffer : jsstring) :
  split_lines buffer
  = (removelast (JS.split newline buffer), last (JS.split newline buffer) []).
Proof.
  unfold split_lines. cbv zeta.
  rewrite (pop_not_nil _ ([] : jsstring)) by apply split_not_nil.
  rewrite or_else_nil. reflexivity.
Qed.

(** With a held-back fragment [buffer] that has no newline, the lines of
    [buffer ++ text1 ++ text2] are those handed over after [text1]
    followed by those handed over after [text2]. *)
Lemma split_lines_app (buffer text1 text2 : jsstring) :
  fst (split_lines (buffer ++ text1 ++ text2))
  = fst (split_lines (buffer ++ text1))
      ++ fst (split_lines (snd (split_lines (buffer ++ text1)) ++ text2)).
Proof.
  rewrite !split_lines_spec. cbn [fst snd].
  set (s1 := buffer ++ text1).
  replace (buffer ++ text1 ++ text2) with (s1 ++ text2)
    by (unfold s1; rewrite app_assoc; reflexivity).
  rewrite (split_app newline s1 text2).
  set (held := last (JS.split newline s1) []).
  assert (Hheld : JS.split newline held = [held])
    by (apply split_without_sep, last_split_without_sep).
  rewrite (split_app newline held text2), Hheld. cbn [removelast last app].
  rewrite removelast_app by discriminate. reflexivity.
Qed.

Lemma split_lines_held (buffer : jsstring) :
  ~ In newline (snd (split_lines buffer)).
Proof. rewrite split_lines_spec. apply last_split_without_sep. Qed.

Lemma split_lines_without_newline (buffer : jsstring) :
  ~ In newline buffer -> split_lines buffer = ([], buffer).
Proof.
  intros H. rewrite split_lines_spec, split_without_sep by assumption. reflexivity.
Qed.

(** ** The streaming decoder *)

Lemma run_app (a b : list byte) (d : TextDecoder.utf8) :
  TextDecoder.run (a ++ b) d
  = let (d1, out1) := TextDecoder.run a d in
    let (d2, out2) := TextDecoder.run b d1 in
    (d2, out1 ++ out2).
Proof.
  revert d; induction a as [|x a IH]; intros d; simpl.
  - destruct (TextDecoder.run b d); reflexivity.
  - destruct (TextDecoder.handler (TextDecoder.byte_value x) d) as [d1 o].
    rewrite IH. destruct (TextDecoder.run a d1) as [d2 o2].
    destruct (TextDecoder.run b d2) as [d3 o3]. rewrite app_assoc. reflexivity.
Qed.

Lemma serialize_app (out1 out2 : list Z) (seen : bool) :
  TextDecoder.serialize (out1 ++ out2) seen
  = let (seen1, s1) := TextDecoder.serialize out1 seen in
    let (seen2, s2) := TextDecoder.serialize out2 seen1 in
    (seen2, s1 ++ s2).
Proof.
  destruct out1 as [|cp out1]; simpl.
  - destruct (TextDecoder.serialize out2 seen); reflexivity.
  - destruct out2 as [|cp2 out2]; simpl.
    + rewrite !app_nil_r. reflexivity.
    + rewrite flat_map_app. simpl.
      destruct (negb seen && (cp =? 65279)); rewrite <- ?app_assoc; reflexivity.
Qed.

(** Decoding is a fold over the bytes with the decoder's state carried
    along: where a chunk ends makes no difference. *)
Lemma decode_app (a b : list byte) (d : TextDecoder.t) :
  TextDecoder.decode (a ++ b) d
  = let (d1, s1) := TextDecoder.decode a d in
    let (d2, s2) := TextDecoder.decode b d1 in
    (d2, s1 ++ s2).
Proof.
  unfold TextDecoder.decode. rewrite run_app.
  destruct (TextDecoder.run a (TextDecoder.decoder d)) as [u1 o1].
  destruct (TextDecoder.run b u1) as [u2 o2] eqn:Hb.
  rewrite serialize_app.
  destruct (TextDecoder.serialize o1 (TextDecoder.BOM_seen d)) as [seen1 s1].
  cbn [TextDecoder.decoder TextDecoder.BOM_seen]. rewrite Hb.
  destruct (TextDecoder.serialize o2 seen1) as [seen2 s2]. reflexivity.
Qed.

Lemma decode_nil (d : TextDecoder.t) : TextDecoder.decode [] d = (d, []).
Proof. destruct d; reflexivity. Qed.

(** ** The rolling-buffer loops *)

Section Loops.
Context {RT : Runtime}.

Lemma Api_for_lines_app (l1 l2 : list jsstring) :
  Api.for_lines (l1 ++ l2)
  = let (ys1, returned1) := Api.for_lines l1 in
    if returned1 then (ys1, true)
    else let (ys2, returned2) := Api.for_lines l2 in (ys1 ++ ys2, returned2).
Proof.
  induction l1 as [|line l1 IH]; cbn [app Api.for_lines].
  - destruct (Api.for_lines l2); reflexivity.
  - destruct (JS.startsWith data_prefix line); [|exact IH].
    destruct (JS.eqb (JS.slice_from 6 line) DONE); [reflexivity|].
    rewrite IH. destruct (Api.for_lines l1) as [ys1 [|]];
      [|destruct (Api.for_lines l2) as [ys2 r2]];
      destruct (Api.try_parse (JS.slice_from 6 line)); reflexivity.
Qed.

(** The generator's loop only sees the complete lines of the text
    decoded so far, in order, whatever the chunking. *)
Lemma Api_while_reading_lines (values : list (list byte)) (failure : option thrown) :
  forall (d : TextDecoder.t) (buffer : jsstring),
    ~ In newline buffer ->
    Api.while_reading values failure d buffer
    = let (ys, returned) :=
        Api.for_lines
          (fst (split_lines (buffer ++ snd (TextDecoder.decode (List.concat values) d)))) in
      (ys, if returned then None else failure).
Proof.
  induction values as [|value rest IH]; intros d buffer Hbuf.
  - cbn [List.concat Api.while_reading]. rewrite decode_nil. cbn [snd].
    rewrite app_nil_r, split_lines_without_newline by assumption. reflexivity.
  - cbn [List.concat Api.while_reading]. rewrite decode_app.
    destruct (TextDecoder.decode value d) as [d1 s1].
    destruct (TextDecoder.decode (List.concat rest) d1) as [d2 s2] eqn:Hrest.
    cbn [snd]. rewrite split_lines_app.
    pose proof (split_lines_held (buffer ++ s1)) as Hheld.
    destruct (split_lines (buffer ++ s1)) as [lines held]. cbn [fst snd] in *.
    rewrite Api_for_lines_app, (IH d1 held Hheld), Hrest. cbn [snd].
    destruct (Api.for_lines lines) as [ys [|]]; [reflexivity|].
    destruct (Api.for_lines (fst (split_lines (held ++ s2)))) as [ys2 r2].
    reflexivity.
Qed.

Lemma for_lines_app (p : ChatInterface.Pending) (l1 l2 : list jsstring)
      (acc : jsstring * ChatInterface.World) :
  ChatInterface.for_lines p (l1 ++ l2) acc
  = ChatInterface.for_lines p l2 (ChatInterface.for_lines p l1 acc).
Proof.
  revert acc; induction l1 as [|line l1 IH]; intros acc;
    cbn [app ChatInterface.for_lines]; [reflexivity | apply IH].
Qed.

(** So does the loop of [handleSend]. *)
Lemma while_reading_lines (p : ChatInterface.Pending)
      (values : list (list byte)) (failure : option thrown) :
  forall (d : TextDecoder.t) (buffer : jsstring) (acc : jsstring * ChatInterface.World),
    ~ In newline buffer ->
    ChatInterface.while_reading p values failure d buffer acc
    = (ChatInterface.for_lines p
         (fst (split_lines (buffer ++ snd (TextDecoder.decode (List.concat values) d))))
         acc,
       failure).
Proof.
  induction values as [|value rest IH]; intros d buffer acc Hbuf.
  - cbn [List.concat ChatInterface.while_reading]. rewrite decode_nil. cbn [snd].
    rewrite app_nil_r, split_lines_without_newline by assumption. reflexivity.
  - cbn [List.concat ChatInterface.while_reading]. rewrite decode_app.
    destruct (TextDecoder.decode value d) as [d1 s1].
    destruct (TextDecoder.decode (List.concat rest) d1) as [d2 s2] eqn:Hrest.
    cbn [snd]. rewrite split_lines_app.
    pose proof (split_lines_held (buffer ++ s1)) as Hheld.
    destruct (split_lines (buffer ++ s1)) as [lines held]. cbn [fst snd] in *.
    rewrite for_lines_app, (IH d1 held _ Hheld), Hrest. reflexivity.
Qed.

Lemma Api_while_reading_complete_lines
      (values : list (list byte)) (failure : option thrown) :
  Api.while_reading values failure TextDecoder.fresh []
  = let (ys, returned) := Api.for_lines (complete_lines (List.concat values)) in
    (ys, if returned then None else failure).
Proof.
  rewrite Api_while_reading_lines by (simpl; tauto).
  rewrite split_lines_spec. reflexivity.
Qed.

Lemma while_reading_complete_lines (p : ChatInterface.Pending)
      (values : list (list byte)) (failure : option thrown)
      (acc : jsstring * ChatInterface.World) :
  ChatInterface.while_reading p values failure TextDecoder.fresh [] acc
  = (ChatInterface.for_lines p (complete_lines (List.concat values)) acc, failure).
Proof.
  rewrite while_reading_lines by (simpl; tauto).
  rewrite split_lines_spec. reflexivity.
Qed.

End Loops.


(** ** [updateConversation] *)

Section Store.
Context {RT : Runtime}.

Lemma updated_later (conversationId : jsstring) (newMessages : list Message.t)
      (clock clock' : nat) (conv conv' : Conversation.t) :
  (clock <= clock')%nat ->
  updated conversationId newMessages clock' conv conv' ->
  updated conversationId newMessages clock conv conv'.
Proof.
  unfold updated. destruct (JS.eqb (Conversation.id conv) conversationId); [|tauto].
  intros Hle (H1 & H2 & H3 & H4 & k & Hk & H5).
  repeat split; try assumption. exists k. split; [lia | assumption].
Qed.

Lemma updateConversation_map_updated (conversationId : jsstring)
      (newMessages : list Message.t) (prev : list Conversation.t) :
  forall clock,
    Forall2 (updated conversationId newMessages clock) prev
            (fst (ChatInterface.updateConversation_map conversationId newMessages
                    prev clock)).
Proof.
  induction prev as [|conv rest IH]; intros clock;
    cbn [ChatInterface.updateConversation_map]; [constructor|].
  destruct (JS.eqb (Conversation.id conv) conversationId) eqn:Hid.
  - specialize (IH (S clock)).
    destruct (ChatInterface.updateConversation_map conversationId newMessages
                rest (S clock)) as [rest' clock'].
    cbn [fst] in *. constructor.
    + unfold updated. rewrite Hid. cbn. repeat split.
      exists clock. split; [lia | reflexivity].
    + eapply Forall2_impl; [|exact IH].
      intros a b. apply updated_later. lia.
  - specialize (IH clock).
    destruct (ChatInterface.updateConversation_map conversationId newMessages
                rest clock) as [rest' clock'].
    cbn [fst] in *. constructor; [|exact IH].
    unfold updated. rewrite Hid. reflexivity.
Qed.

Lemma updated_id (conversationId : jsstring) (newMessages : list Message.t)
      (clock : nat) (conv conv' : Conversation.t) :
  updated conversationId newMessages clock conv conv' ->
  Conversation.id conv' = Conversation.id conv.
Proof.
  unfold updated. destruct (JS.eqb (Conversation.id conv) conversationId).
  - tauto.
  - intros ->. reflexivity.
Qed.

Lemma Forall2_updated_ids (conversationId : jsstring) (newMessages : list Message.t)
      (clock : nat) (prev next : list Conversation.t) :
  Forall2 (updated conversationId newMessages clock) prev next ->
  map Conversation.id next = map Conversation.id prev.
Proof.
  induction 1 as [|conv conv' prev next H _ IH]; [reflexivity|].
  simpl. rewrite IH, (updated_id _ _ _ _ _ H). reflexivity.
Qed.

(** The state after [updateConversation]: only the store changes. *)
Lemma updateConversation_state (conversationId : jsstring)
      (newMessages : list Message.t) (w : ChatInterface.World) :
  ChatInterface.state (ChatInterface.updateConversation conversationId newMessages w)
  = ChatInterface.setConversations
      (fun _ => fst (ChatInterface.updateConversation_map conversationId newMessages
                       (ChatInterface.conversations (ChatInterface.state w))
                       (ChatInterface.clock w)))
      (ChatInterface.state w).
Proof.
  unfold ChatInterface.updateConversation.
  destruct (ChatInterface.updateConversation_map conversationId newMessages
              (ChatInterface.conversations (ChatInterface.state w))
              (ChatInterface.clock w)); reflexivity.
Qed.

Lemma updateConversation_updated (conversationId : jsstring)
      (newMessages : list Message.t) (w : ChatInterface.World) :
  Forall2 (updated conversationId newMessages (ChatInterface.clock w))
          (ChatInterface.conversations (ChatInterface.state w))
          (ChatInterface.conversations
             (ChatInterface.state
                (ChatInterface.updateConversation conversationId newMessages w))).
Proof.
  rewrite updateConversation_state. apply updateConversation_map_updated.
Qed.

(** [updateConversation] keeps every conversation at its position. *)
Lemma updateConversation_ids (conversationId : jsstring)
      (newMessages : list Message.t) (w : ChatInterface.World) :
  map Conversation.id
      (ChatInterface.conversations
         (ChatInterface.state
            (ChatInterface.updateConversation conversationId newMessages w)))
  = map Conversation.id (ChatInterface.conversations (ChatInterface.state w)).
Proof.
  eapply Forall2_updated_ids, updateConversation_updated.
Qed.

End Store.

(** ** [handleSend]: the guards and the start of a send *)

Lemma truthy_false (s : jsstring) : JS.truthy s = false <-> s = [].
Proof. destruct s; simpl; split; congruence. Qed.

Lemma truthy_true (s : jsstring) : JS.truthy s = true <-> s <> [].
Proof. destruct s; simpl; split; congruence. Qed.

Lemma or_else_truthy (a b : jsstring) : a <> [] -> JS.or_else a b = a.
Proof. destruct a; [congruence | reflexivity]. Qed.

(** Projections of the state out of the setters, and nothing else. *)
Ltac state_simpl :=
  cbn [ChatInterface.state ChatInterface.clock ChatInterface.on_state
       ChatInterface.conversations ChatInterface.currentConversationId
       ChatInterface.messages ChatInterface.input ChatInterface.isLoading
       ChatInterface.error ChatInterface.modelSettings
       ChatInterface.setConversations ChatInterface.setCurrentConversationId
       ChatInterface.setMessages ChatInterface.setInput ChatInterface.setIsLoading
       ChatInterface.setError
       ChatInterface.closure_messages ChatInterface.userMessage
       ChatInterface.assistantMessage ChatInterface.conversationId
       ChatInterface.currentMessages
       Message.role Message.content Message.timestamp
       Conversation.id Conversation.title Conversation.messages
       Conversation.timestamp Conversation.lastMessage fst snd] in *.

Section Send.
Context {RT : Runtime}.

(** A send that is blank or comes while another one is in flight
    returns at once. *)
Lemma handleSend_start_blank (w : ChatInterface.World) :
  JS.trim (ChatInterface.input (ChatInterface.state w)) = []
  \/ ChatInterface.isLoading (ChatInterface.state w) = true ->
  ChatInterface.handleSend_start w = ChatInterface.Returned w.
Proof.
  intros H. unfold ChatInterface.handleSend_start. cbv zeta.
  destruct H as [H|H]; rewrite H; [reflexivity|].
  rewrite orb_true_r. reflexivity.
Qed.

(** A send never gets to [fetch] with a field of the settings empty. *)
Lemma handleSend_start_unconfigured (w : ChatInterface.World) :
  name (ChatInterface.modelSettings (ChatInterface.state w)) = []
  \/ baseUrl (ChatInterface.modelSettings (ChatInterface.state w)) = []
  \/ apiKey (ChatInterface.modelSettings (ChatInterface.state w)) = [] ->
  ChatInterface.handleSend_start w
  = ChatInterface.Returned
      (if negb (JS.truthy (JS.trim (ChatInterface.input (ChatInterface.state w))))
          || ChatInterface.isLoading (ChatInterface.state w)
       then w
       else ChatInterface.on_state
              (ChatInterface.setError (Some ChatInterface.configuration_missing)) w).
Proof.
  intros H. unfold ChatInterface.handleSend_start. cbv zeta.
  destruct (negb (JS.truthy (JS.trim (ChatInterface.input (ChatInterface.state w))))
            || ChatInterface.isLoading (ChatInterface.state w)); [reflexivity|].
  destruct H as [H|[H|H]]; rewrite H; cbn [JS.truthy negb orb];
    rewrite ?orb_true_r; reflexivity.
Qed.

(** What a send that reaches [fetch] has done by then. *)
Lemma handleSend_start_Awaiting (w w1 : ChatInterface.World)
      (request : Request) (p : ChatInterface.Pending) :
  ChatInterface.handleSend_start w = ChatInterface.Awaiting request p w1 ->
  let s := ChatInterface.state w in
  let s1 := ChatInterface.state w1 in
  ChatInterface.closure_messages p = ChatInterface.messages s
  /\ ChatInterface.userMessage p
     = Message.mk user (JS.trim (ChatInterface.input s))
                  (Date_now (ChatInterface.clock w))
  /\ Message.role (ChatInterface.assistantMessage p) = assistant
  /\ Message.content (ChatInterface.assistantMessage p) = []
  /\ ChatInterface.messages s1
     = ChatInterface.messages s
         ++ [ChatInterface.userMessage p; ChatInterface.assistantMessage p]
  /\ ChatInterface.currentConversationId s1 = Some (ChatInterface.conversationId p)
  /\ ChatInterface.modelSettings s1 = ChatInterface.modelSettings s
  /\ (ChatInterface.conversations s1 = ChatInterface.conversations s
      \/ exists newConversation,
           ChatInterface.conversations s1
           = newConversation :: ChatInterface.conversations s
           /\ Conversation.id newConversation = ChatInterface.conversationId p).
Proof.
  unfold ChatInterface.handleSend_start. cbv zeta.
  destruct (negb (JS.truthy (JS.trim (ChatInterface.input (ChatInterface.state w))))
            || ChatInterface.isLoading (ChatInterface.state w)); [discriminate|].
  destruct (negb (JS.truthy (name (ChatInterface.modelSettings (ChatInterface.state w))))
            || negb (JS.truthy (baseUrl (ChatInterface.modelSettings (ChatInterface.state w))))
            || negb (JS.truthy (apiKey (ChatInterface.modelSettings (ChatInterface.state w)))));
    [discriminate|].
  destruct (ChatInterface.currentConversationId (ChatInterface.state w))
    as [[|c id']|] eqn:Hcur; intros H; injection H as <- <- <-; state_simpl;
    rewrite <- ?app_assoc, ?Hcur;
    do 7 (split; [reflexivity|]);
    first [left; reflexivity | right; eexists; split; reflexivity].
Qed.

End Send.

(** C4.  A send of a text that is not blank, with no request in flight,
    no active conversation and the three settings filled in, puts one
    new conversation at the head of the store, its id the decimal
    rendering of the clock, its title the first 15 and its preview the
    first 30 code units of the trimmed text; appends the user message
    and then an assistant message with empty content; and issues one
    POST to [baseUrl/chat/completions] with [stream: true] whose messages
    are the role and content of the history followed by the user
    message, the placeholder left out. *)
Theorem C4_first_send :
  forall (RT : Runtime) (w : ChatInterface.World),
    let s := ChatInterface.state w in
    let trimmed := JS.trim (ChatInterface.input s) in
    trimmed <> [] ->
    ChatInterface.isLoading s = false ->
    ChatInterface.currentConversationId s = None ->
    name (ChatInterface.modelSettings s) <> [] ->
    baseUrl (ChatInterface.modelSettings s) <> [] ->
    apiKey (ChatInterface.modelSettings s) <> [] ->
    let userMessage := Message.mk user trimmed (Date_now (ChatInterface.clock w)) in
    let newConversation :=
      Conversation.mk (JS.of_Z (Date_now (1 + ChatInterface.clock w)))
        (firstn 15 trimmed) [] (Date_now (2 + ChatInterface.clock w))
        (Some (firstn 30 trimmed)) in
    let placeholder := Message.mk assistant [] (Date_now (3 + ChatInterface.clock w)) in
    let request :=
      {| url := baseUrl (ChatInterface.modelSettings s) ++ js "/chat/completions";
         method := js "POST";
         ContentType := js "application/json";
         Authorization := js "Bearer " ++ apiKey (ChatInterface.modelSettings s);
         body := {| model := name (ChatInterface.modelSettings s);
                    body_messages :=
                      map (fun m => (Message.role m, Message.content m))
                          (ChatInterface.messages s ++ [userMessage]);
                    stream := true |} |} in
    exists (p : ChatInterface.Pending) (w1 : ChatInterface.World),
      ChatInterface.handleSend_start w = ChatInterface.Awaiting request p w1
      /\ ChatInterface.conversations (ChatInterface.state w1)
         = newConversation :: ChatInterface.conversations s
      /\ ChatInterface.currentConversationId (ChatInterface.state w1)
         = Some (Conversation.id newConversation)
      /\ ChatInterface.messages (ChatInterface.state w1)
         = ChatInterface.messages s ++ [userMessage; placeholder]
      /\ forall fetch : Request -> Fetched,
           snd (ChatInterface.handleSend fetch w) = [request].
Proof.
  intros RT w s trimmed Htext Hload Hcur Hname Hbase Hkey
         userMessage newConversation placeholder request.
  assert (Hstart : exists p w1,
             ChatInterface.handleSend_start w = ChatInterface.Awaiting request p w1
             /\ ChatInterface.state w1
                = ChatInterface.setMessages (fun prev => prev ++ [placeholder])
                    (ChatInterface.setError None
                       (ChatInterface.setIsLoading true
                          (ChatInterface.setInput []
                             (ChatInterface.setMessages (fun prev => prev ++ [userMessage])
                                (ChatInterface.setCurrentConversationId
                                   (Some (Conversation.id newConversation))
                                   (ChatInterface.setConversations
                                      (fun prev => newConversation :: prev) s))))))).
  { unfold ChatInterface.handleSend_start. cbv zeta. fold s. fold trimmed.
    apply truthy_true in Htext, Hname, Hbase, Hkey.
    rewrite Htext, Hload, Hname, Hbase, Hkey, Hcur. cbn [negb orb].
    do 2 eexists. split.
    - unfold request, chat_completions, Bearer, role_and_content,
        ChatInterface.currentMessages, JS.or_else.
      rewrite Hname. reflexivity.
    - reflexivity. }
  destruct Hstart as (p & w1 & Hstart & Hs1).
  exists p, w1. rewrite Hs1. state_simpl.
  do 3 (split; [solve [assumption | reflexivity]|]). split.
  - rewrite <- app_assoc. reflexivity.
  - intros fetch. unfold ChatInterface.handleSend. rewrite Hstart. reflexivity.
Qed.

(** C5.  A send whose text is blank after trimming, or that comes while
    a request is in flight, does nothing at all: the state is the one
    before and no request is issued.  A send with the model name, the
    base URL or the API key empty issues no request and leaves the
    messages and the store alone; when it is neither blank nor in flight
    it raises the missing-configuration message in the error banner. *)
Theorem C5_rejected_sends :
  forall (RT : Runtime) (fetch : Request -> Fetched) (w : ChatInterface.World),
    let s := ChatInterface.state w in
    let after := fst (ChatInterface.handleSend fetch w) in
    let issued := snd (ChatInterface.handleSend fetch w) in
    (JS.trim (ChatInterface.input s) = [] \/ ChatInterface.isLoading s = true ->
     after = w /\ issued = [])
    /\ (name (ChatInterface.modelSettings s) = []
        \/ baseUrl (ChatInterface.modelSettings s) = []
        \/ apiKey (ChatInterface.modelSettings s) = [] ->
        issued = []
        /\ ChatInterface.messages (ChatInterface.state after) = ChatInterface.messages s
        /\ ChatInterface.conversations (ChatInterface.state after)
           = ChatInterface.conversations s
        /\ (JS.trim (ChatInterface.input s) <> [] ->
            ChatInterface.isLoading s = false ->
            ChatInterface.error (ChatInterface.state after)
            = Some ChatInterface.configuration_missing)).
Proof.
  intros RT fetch w s after issued. subst after issued. split.
  - intros H. unfold ChatInterface.handleSend.
    rewrite (handleSend_start_blank w H). split; reflexivity.
  - intros H. unfold ChatInterface.handleSend.
    rewrite (handleSend_start_unconfigured w H). fold s.
    destruct (negb (JS.truthy (JS.trim (ChatInterface.input s)))
              || ChatInterface.isLoading s) eqn:Hguard; cbn [fst snd].
    + repeat split. intros Htext Hload. apply truthy_true in Htext.
      rewrite Htext, Hload in Hguard. discriminate.
    + repeat split.
Qed.

(** ** [handleSend]: the stream and the end of a send *)

Section Stream.
Context {RT : Runtime}.

Lemma apply_content_append (p : ChatInterface.Pending) (content : jsval number)
      (acc : jsstring * ChatInterface.World) :
  ChatInterface.apply_content p content acc
  = match Value.toString content with
    | Some d => append_delta p d acc
    | None => acc
    end.
Proof.
  destruct acc. unfold ChatInterface.apply_content.
  destruct (Value.toString content); reflexivity.
Qed.

Lemma for_line_delta (p : ChatInterface.Pending) (line : jsstring)
      (acc : jsstring * ChatInterface.World) :
  ChatInterface.for_line p line acc
  = match line_delta line with
    | Some d => append_delta p d acc
    | None => acc
    end.
Proof.
  unfold ChatInterface.for_line, line_delta.
  destruct (JS.startsWith data_prefix line); [|reflexivity]. cbv zeta.
  destruct (JS.eqb (JS.slice_from 6 line) DONE); [reflexivity|].
  destruct (JSON_parse (JS.slice_from 6 line)) as [parsed|]; [|reflexivity].
  destruct (ChatInterface.delta_content parsed) as [content|]; [|reflexivity].
  destruct (Value.truthy content); [apply apply_content_append | reflexivity].
Qed.

(** The loop over the lines is the deltas of the lines applied in
    order. *)
Lemma for_lines_deltas (p : ChatInterface.Pending) (lines : list jsstring) :
  forall acc, ChatInterface.for_lines p lines acc = run_deltas p (deltas lines) acc.
Proof.
  induction lines as [|line lines IH]; intros acc; [reflexivity|].
  cbn [ChatInterface.for_lines deltas]. rewrite IH, for_line_delta.
  destruct (line_delta line); reflexivity.
Qed.

Lemma append_delta_state (p : ChatInterface.Pending) (d full : jsstring)
      (w : ChatInterface.World) :
  exists convs,
    ChatInterface.state (snd (append_delta p d (full, w)))
    = ChatInterface.setConversations (fun _ => convs)
        (ChatInterface.setMessages
           (fun _ => ChatInterface.currentMessages p
                       ++ [Message.mk (Message.role (ChatInterface.assistantMessage p))
                             (full ++ d)
                             (Message.timestamp (ChatInterface.assistantMessage p))])
           (ChatInterface.state w))
    /\ Forall2 (updated (ChatInterface.conversationId p)
                  (ChatInterface.currentMessages p
                     ++ [Message.mk (Message.role (ChatInterface.assistantMessage p))
                           (full ++ d)
                           (Message.timestamp (ChatInterface.assistantMessage p))])
                  (ChatInterface.clock w))
               (ChatInterface.conversations (ChatInterface.state w)) convs.
Proof.
  unfold append_delta. cbn [snd]. rewrite updateConversation_state.
  eexists. split; [reflexivity|].
  apply updateConversation_map_updated.
Qed.

Lemma run_deltas_cons (p : ChatInterface.Pending) (d : jsstring)
      (ds : list jsstring) (acc : jsstring * ChatInterface.World) :
  run_deltas p (d :: ds) acc = run_deltas p ds (append_delta p d acc).
Proof. reflexivity. Qed.

Lemma append_delta_fst (p : ChatInterface.Pending) (d full : jsstring)
      (w : ChatInterface.World) :
  fst (append_delta p d (full, w)) = full ++ d.
Proof. reflexivity. Qed.

Lemma run_deltas_fst (p : ChatInterface.Pending) (ds : list jsstring) :
  forall full w, fst (run_deltas p ds (full, w)) = full ++ List.concat ds.
Proof.
  induction ds as [|d ds IH]; intros full w.
  - cbn [run_deltas fold_left List.concat fst]. rewrite app_nil_r. reflexivity.
  - rewrite run_deltas_cons.
    pose proof (append_delta_fst p d full w) as Hfst.
    destruct (append_delta p d (full, w)) as [full1 w1]. cbn [fst] in Hfst.
    rewrite IH, Hfst. cbn [List.concat]. rewrite app_assoc. reflexivity.
Qed.

(** After at least one delta the last message on screen carries the
    whole accumulated text. *)
Lemma run_deltas_messages (p : ChatInterface.Pending) (ds : list jsstring) :
  forall full w,
    ds <> [] ->
    ChatInterface.messages (ChatInterface.state (snd (run_deltas p ds (full, w))))
    = ChatInterface.currentMessages p
        ++ [Message.mk (Message.role (ChatInterface.assistantMessage p))
              (full ++ List.concat ds)
              (Message.timestamp (ChatInterface.assistantMessage p))].
Proof.
  induction ds as [|d ds IH]; intros full w Hds; [congruence|].
  rewrite run_deltas_cons.
  pose proof (append_delta_fst p d full w) as Hfst.
  destruct (append_delta_state p d full w) as (convs & Hst & _).
  destruct (append_delta p d (full, w)) as [full1 w1].
  cbn [fst snd] in Hfst, Hst. subst full1.
  destruct ds as [|d' ds'].
  - cbn [run_deltas fold_left snd List.concat].
    rewrite Hst, app_nil_r. reflexivity.
  - rewrite IH by discriminate. cbn [List.concat]. rewrite <- !app_assoc.
    reflexivity.
Qed.

Lemma updated_kept (conversationId : jsstring) (newMessages : list Message.t)
      (clock : nat) (conv conv' : Conversation.t) :
  updated conversationId newMessages clock conv conv' ->
  kept conversationId conv conv'.
Proof.
  unfold updated, kept.
  destruct (JS.eqb (Conversation.id conv) conversationId) eqn:Hid.
  - apply eqb_eq in Hid. intros (H & _). split; [exact H | congruence].
  - intros ->. split; reflexivity.
Qed.

Lemma Forall2_kept_refl (conversationId : jsstring) (convs : list Conversation.t) :
  Forall2 (kept conversationId) convs convs.
Proof. induction convs; constructor; [split; reflexivity | assumption]. Qed.

Lemma Forall2_kept_trans (conversationId : jsstring)
      (a b c : list Conversation.t) :
  Forall2 (kept conversationId) a b ->
  Forall2 (kept conversationId) b c ->
  Forall2 (kept conversationId) a c.
Proof.
  intros Hab; revert c; induction Hab as [|x y a b [Hid Hxy] _ IH]; intros c Hbc;
    inversion Hbc as [|y' z b' c' [Hid' Hyz] Hrest]; subst; constructor.
  - split; [congruence|]. intros Hne. rewrite Hyz, Hxy; congruence.
  - apply IH. assumption.
Qed.

Lemma Forall2_kept_ids (conversationId : jsstring) (a b : list Conversation.t) :
  Forall2 (kept conversationId) a b ->
  map Conversation.id b = map Conversation.id a.
Proof.
  induction 1 as [|x y a b [Hid _] _ IH]; [reflexivity|].
  simpl. rewrite IH, Hid. reflexivity.
Qed.

(** The deltas touch the messages on screen and the entries with the
    conversation's id, and nothing else. *)
Lemma run_deltas_frame (p : ChatInterface.Pending) (ds : list jsstring) :
  forall full w,
    let w' := snd (run_deltas p ds (full, w)) in
    ChatInterface.currentConversationId (ChatInterface.state w')
    = ChatInterface.currentConversationId (ChatInterface.state w)
    /\ ChatInterface.input (ChatInterface.state w') = ChatInterface.input (ChatInterface.state w)
    /\ ChatInterface.isLoading (ChatInterface.state w')
       = ChatInterface.isLoading (ChatInterface.state w)
    /\ ChatInterface.error (ChatInterface.state w') = ChatInterface.error (ChatInterface.state w)
    /\ ChatInterface.modelSettings (ChatInterface.state w')
       = ChatInterface.modelSettings (ChatInterface.state w)
    /\ (ds = [] ->
        ChatInterface.messages (ChatInterface.state w')
        = ChatInterface.messages (ChatInterface.state w))
    /\ Forall2 (kept (ChatInterface.conversationId p))
               (ChatInterface.conversations (ChatInterface.state w))
               (ChatInterface.conversations (ChatInterface.state w')).
Proof.
  induction ds as [|d ds IH]; intros full w; cbv zeta.
  - cbn [run_deltas fold_left snd]. repeat split. apply Forall2_kept_refl.
  - rewrite run_deltas_cons.
    destruct (append_delta_state p d full w) as (convs & Hst & Hup).
    destruct (append_delta p d (full, w)) as [full1 w1]. cbn [snd] in Hst.
    specialize (IH full1 w1). cbv zeta in IH.
    destruct IH as (H1 & H2 & H3 & H4 & H5 & _ & H7).
    rewrite H1, H2, H3, H4, H5, Hst. state_simpl.
    do 5 (split; [reflexivity|]). split; [discriminate|].
    eapply Forall2_kept_trans; [|exact H7]. rewrite Hst. state_simpl.
    eapply Forall2_impl; [|exact Hup]. intros a b. apply updated_kept.
Qed.

(** The [try] block on an ok response with a body. *)
Lemma try_block_streaming (p : ChatInterface.Pending) (r : Response)
      (reader : ReadableStream) (w : ChatInterface.World) :
  ok r = true ->
  response_body r = Some reader ->
  ChatInterface.try_block p (Resolved r) w
  = (run_deltas p (deltas (complete_lines (List.concat (chunks reader)))) ([], w),
     failure reader).
Proof.
  intros Hok Hbody. unfold ChatInterface.try_block.
  rewrite Hok, Hbody. cbn [negb].
  rewrite while_reading_complete_lines, for_lines_deltas. reflexivity.
Qed.

(** In every case the [try] block is the deltas of the lines received,
    applied in order, and then possibly a thrown value. *)
Lemma try_block_received (p : ChatInterface.Pending) (fetched : Fetched)
      (w : ChatInterface.World) :
  fst (ChatInterface.try_block p fetched w)
  = run_deltas p (deltas (received_lines fetched)) ([], w).
Proof.
  unfold ChatInterface.try_block, received_lines.
  destruct fetched as [e|r]; [reflexivity|].
  destruct (ok r); cbn [negb]; [|reflexivity].
  destruct (response_body r) as [reader|]; [|reflexivity].
  rewrite while_reading_complete_lines, for_lines_deltas. reflexivity.
Qed.

End Stream.

(** C1.  For every payload and every way of cutting its bytes into
    chunks, also inside a UTF-8 sequence or inside a line, the
    rolling-buffer loop gives what it gives on the payload delivered as
    one chunk.  The generator [streamChat] yields the same values in the
    same order and completes in the same way; they are the values of the
    complete lines of the payload.  The loop of [handleSend] applies the
    same deltas in the same order, those of the complete lines of the
    payload, and ends with the same accumulated text, the same messages
    on screen and the same conversation store; so does the whole send. *)
Theorem C1_chunking_is_invisible :
  forall (RT : Runtime) (r : Response) (payload : list byte)
         (values : list (list byte)) (ending : option thrown),
    List.concat values = payload ->
    Api.streamChat (Resolved (with_body r values ending))
    = Api.streamChat (Resolved (with_body r [payload] ending))
    /\ (ok r = true ->
        fst (Api.streamChat (Resolved (with_body r values ending)))
        = fst (Api.for_lines (complete_lines payload)))
    /\ (forall (p : ChatInterface.Pending) (w : ChatInterface.World),
           ChatInterface.try_block p (Resolved (with_body r values ending)) w
           = ChatInterface.try_block p (Resolved (with_body r [payload] ending)) w
           /\ (ok r = true ->
               fst (ChatInterface.try_block p (Resolved (with_body r values ending)) w)
               = run_deltas p (deltas (complete_lines payload)) ([], w))
           /\ ChatInterface.handleSend_finish p (Resolved (with_body r values ending)) w
              = ChatInterface.handleSend_finish p
                  (Resolved (with_body r [payload] ending)) w)
    /\ (forall w : ChatInterface.World,
           ChatInterface.handleSend (fun _ => Resolved (with_body r values ending)) w
           = ChatInterface.handleSend (fun _ => Resolved (with_body r [payload] ending)) w).
Proof.
  intros RT r payload values ending Hpayload.
  assert (Hone : List.concat [payload] = payload) by (simpl; apply app_nil_r).
  assert (Htry : forall p w,
             ChatInterface.try_block p (Resolved (with_body r values ending)) w
             = ChatInterface.try_block p (Resolved (with_body r [payload] ending)) w).
  { intros p w. unfold ChatInterface.try_block, with_body.
    cbn [ok response_body chunks failure]. destruct (ok r); [|reflexivity].
    cbn [negb]. rewrite !while_reading_complete_lines, Hone, Hpayload. reflexivity. }
  assert (Hfinish : forall p w,
             ChatInterface.handleSend_finish p (Resolved (with_body r values ending)) w
             = ChatInterface.handleSend_finish p
                 (Resolved (with_body r [payload] ending)) w).
  { intros p w. unfold ChatInterface.handleSend_finish. rewrite Htry. reflexivity. }
  split; [|split; [|split]].
  - unfold Api.streamChat, with_body.
    cbn [ok response_body chunks failure]. destruct (ok r); [|reflexivity].
    cbn [negb]. rewrite !Api_while_reading_complete_lines, Hone, Hpayload.
    reflexivity.
  - intros Hok. unfold Api.streamChat, with_body.
    cbn [ok response_body chunks failure]. rewrite Hok. cbn [negb].
    rewrite Api_while_reading_complete_lines, Hpayload.
    destruct (Api.for_lines (complete_lines payload)). reflexivity.
  - intros p w. split; [apply Htry|]. split; [|apply Hfinish].
    intros Hok. rewrite try_block_received. unfold received_lines, with_body.
    cbn [ok response_body chunks]. rewrite Hok, Hpayload. reflexivity.
  - intros w. unfold ChatInterface.handleSend.
    destruct (ChatInterface.handleSend_start w); [reflexivity|].
    rewrite Hfinish. reflexivity.
Qed.

Section Accumulation.
Context {RT : Runtime}.

(** From the start of a send on, the messages on screen are the history,
    the user message and one assistant message whose content is the
    concatenation of the deltas applied so far. *)
Lemma run_deltas_shown (w w1 : ChatInterface.World) (request : Request)
      (p : ChatInterface.Pending) (ds : list jsstring) :
  ChatInterface.handleSend_start w = ChatInterface.Awaiting request p w1 ->
  ChatInterface.messages (ChatInterface.state (snd (run_deltas p ds ([], w1))))
  = ChatInterface.messages (ChatInterface.state w)
      ++ [ChatInterface.userMessage p;
          Message.mk assistant (List.concat ds)
            (Message.timestamp (ChatInterface.assistantMessage p))].
Proof.
  intros Hstart.
  destruct (handleSend_start_Awaiting w w1 request p Hstart)
    as (Hclosure & _ & Hrole & Hcontent & Hmessages & _).
  destruct ds as [|d ds].
  - cbn [run_deltas fold_left snd List.concat]. rewrite Hmessages.
    destruct (ChatInterface.assistantMessage p) as [r c t].
    cbn [Message.role Message.content Message.timestamp] in *. subst. reflexivity.
  - rewrite run_deltas_messages by discriminate.
    unfold ChatInterface.currentMessages.
    rewrite Hclosure, Hrole, <- app_assoc. reflexivity.
Qed.

(** The end of a send whose [try] block completes normally. *)
Lemma handleSend_finish_normal (p : ChatInterface.Pending) (fetched : Fetched)
      (w1 : ChatInterface.World) :
  snd (ChatInterface.try_block p fetched w1) = None ->
  ChatInterface.handleSend_finish p fetched w1
  = ChatInterface.on_state (ChatInterface.setIsLoading false)
      (snd (run_deltas p (deltas (received_lines fetched)) ([], w1))).
Proof.
  intros Hnormal. unfold ChatInterface.handleSend_finish.
  rewrite <- try_block_received.
  destruct (ChatInterface.try_block p fetched w1) as [[full wk] completion].
  cbn [fst snd] in *. subst completion. reflexivity.
Qed.

(** The end of a send whose [try] block throws. *)
Lemma handleSend_finish_thrown (p : ChatInterface.Pending) (fetched : Fetched)
      (w1 : ChatInterface.World) (e : thrown) :
  snd (ChatInterface.try_block p fetched w1) = Some e ->
  ChatInterface.handleSend_finish p fetched w1
  = ChatInterface.on_state (ChatInterface.setIsLoading false)
      (ChatInterface.catch_block p e
         (snd (run_deltas p (deltas (received_lines fetched)) ([], w1)))).
Proof.
  intros Hthrown. unfold ChatInterface.handleSend_finish.
  rewrite <- try_block_received.
  destruct (ChatInterface.try_block p fetched w1) as [[full wk] completion].
  cbn [fst snd] in *. subst completion. reflexivity.
Qed.

End Accumulation.

(** C3.  On a send whose response is ok and whose body ends normally,
    the deltas are applied in the order of their lines: after any number
    of complete lines the accumulator is the concatenation of the deltas
    of those lines, and the assistant message on screen carries exactly
    that text; when the stream has ended, the content of the assistant
    message is the concatenation of all the deltas, in order. *)
Theorem C3_deltas_accumulate :
  forall (RT : Runtime) (fetch : Request -> Fetched) (w w1 : ChatInterface.World)
         (request : Request) (p : ChatInterface.Pending)
         (r : Response) (values : list (list byte)),
    ChatInterface.handleSend_start w = ChatInterface.Awaiting request p w1 ->
    fetch request = Resolved r ->
    ok r = true ->
    response_body r = Some {| chunks := values; failure := None |} ->
    let lines := complete_lines (List.concat values) in
    let shown (text : jsstring) :=
      ChatInterface.messages (ChatInterface.state w)
        ++ [ChatInterface.userMessage p;
            Message.mk assistant text
              (Message.timestamp (ChatInterface.assistantMessage p))] in
    (forall k : nat,
        let seen := firstn k lines in
        let acc := ChatInterface.for_lines p seen ([], w1) in
        fst acc = List.concat (deltas seen)
        /\ ChatInterface.messages (ChatInterface.state (snd acc))
           = shown (List.concat (deltas seen)))
    /\ ChatInterface.messages
         (ChatInterface.state (fst (ChatInterface.handleSend fetch w)))
       = shown (List.concat (deltas lines)).
Proof.
  intros RT fetch w w1 request p r values Hstart Hfetch Hok Hbody lines shown.
  split.
  - intros k seen acc. subst acc. rewrite for_lines_deltas. split.
    + apply run_deltas_fst.
    + apply (run_deltas_shown w w1 request p _ Hstart).
  - unfold ChatInterface.handleSend. rewrite Hstart, Hfetch. cbn [fst].
    rewrite handleSend_finish_normal.
    + state_simpl. unfold received_lines. rewrite Hok, Hbody. cbn [chunks].
      apply (run_deltas_shown w w1 request p _ Hstart).
    + rewrite (try_block_streaming p r _ w1 Hok Hbody). reflexivity.
Qed.

(** C3 at the specification's example, the frames [Hi], [ there] and
    [[DONE]] after the user has sent [hello]: the assistant message ends
    as [Hi there]. *)
Lemma C3_Hi_there :
  ChatInterface.messages
    (ChatInterface.state
       (fst (@ChatInterface.handleSend Run.RT (Run.server Run.Hi_there None)
               (Run.typed "hello" Run.settings))))
  = [Message.mk user (js "hello") 1700000000000;
     Message.mk assistant (js "Hi there") 1700000000003].
Proof.
  pose proof
       (fun request p w1 Hstart =>
          proj2 (C3_deltas_accumulate Run.RT (Run.server Run.Hi_there None)
                   (Run.typed "hello" Run.settings) w1 request p
                   (streaming Run.Hi_there None) Run.Hi_there
                   Hstart eq_refl eq_refl eq_refl)) as H.
  specialize (H _ _ _ eq_refl).
  vm_compute in H. vm_compute. exact H.
Defined.

(** ** The terminal frame *)

Section Terminal.
Context {RT : Runtime}.

Lemma startsWith_app (prefix rest : jsstring) :
  JS.startsWith prefix (prefix ++ rest) = true.
Proof.
  induction prefix as [|c prefix IH]; [reflexivity|].
  simpl. rewrite Z.eqb_refl. exact IH.
Qed.

(** In [streamChat] nothing that follows a line [data: [DONE]] is looked
    at: the generator returns there. *)
Lemma Api_for_lines_DONE (before rest : list jsstring) :
  Api.for_lines (before ++ (data_prefix ++ DONE) :: rest)
  = (fst (Api.for_lines before), true).
Proof.
  rewrite Api_for_lines_app.
  destruct (Api.for_lines before) as [ys [|]]; [reflexivity|].
  cbn [Api.for_lines]. rewrite startsWith_app.
  change (JS.slice_from 6 (data_prefix ++ DONE)) with DONE.
  rewrite eqb_refl, app_nil_r. reflexivity.
Qed.

(** Whatever a body holds after a complete line [data: [DONE]], and
    however it ends, [streamChat] yields what the lines before yield and
    returns normally. *)
Lemma Api_streamChat_returns_at_DONE
      (values : list (list byte)) (ending : option thrown)
      (before rest : list jsstring) :
  complete_lines (List.concat values) = before ++ (data_prefix ++ DONE) :: rest ->
  Api.streamChat (Resolved (streaming values ending))
  = (fst (Api.for_lines before), None).
Proof.
  intros Hlines. unfold Api.streamChat, streaming.
  cbn [ok negb response_body chunks failure].
  rewrite Api_while_reading_complete_lines, Hlines, Api_for_lines_DONE.
  reflexivity.
Qed.

(** In [handleSend] a line [data: [DONE]] is skipped and the lines after
    it are handled like the others. *)
Lemma for_lines_DONE (p : ChatInterface.Pending) (before rest : list jsstring)
      (acc : jsstring * ChatInterface.World) :
  ChatInterface.for_lines p (before ++ (data_prefix ++ DONE) :: rest) acc
  = ChatInterface.for_lines p (before ++ rest) acc.
Proof.
  rewrite !for_lines_app. reflexivity.
Qed.

End Terminal.

(** C2.  One chunk that holds the line [data: [DONE]] and, after it, a
    frame with the delta [X].  The generator [streamChat] returns at the
    terminal frame: it yields nothing and completes normally.  The loop
    of [handleSend] goes on: the delta that follows the terminal frame is
    applied, and the assistant message ends as [X]. *)
Theorem C2_delta_after_DONE :
  @Api.streamChat Run.RT (Resolved (streaming Run.after_DONE None)) = ([], None)
  /\ ChatInterface.messages
       (ChatInterface.state
          (fst (@ChatInterface.handleSend Run.RT (Run.server Run.after_DONE None)
                  (Run.typed "hello" Run.settings))))
     = [Message.mk user (js "hello") 1700000000000;
        Message.mk assistant (js "X") 1700000000003].
Proof. split; vm_compute; reflexivity. Qed.

(** ** Failed sends *)

Section Failure.
Context {RT : Runtime}.

Lemma Forall2_updated_entries (conversationId : jsstring)
      (newMessages : list Message.t) (clock : nat)
      (prev next : list Conversation.t) :
  Forall2 (updated conversationId newMessages clock) prev next ->
  Forall (fun conv' =>
            Conversation.id conv' = conversationId ->
            Conversation.messages conv' = newMessages) next.
Proof.
  induction 1 as [|conv conv' prev next H _ IH]; constructor; [|exact IH].
  unfold updated in H.
  destruct (JS.eqb (Conversation.id conv) conversationId) eqn:Hid.
  - intros _. apply H.
  - subst conv'. apply eqb_neq in Hid. intros Heq. contradiction.
Qed.

Lemma Forall2_updated_kept (conversationId : jsstring)
      (newMessages : list Message.t) (clock : nat)
      (prev next : list Conversation.t) :
  Forall2 (updated conversationId newMessages clock) prev next ->
  Forall2 (kept conversationId) prev next.
Proof.
  intros H. eapply Forall2_impl; [|exact H]. intros a b. apply updated_kept.
Qed.

Lemma Forall2_In_left {A B} (R : A -> B -> Prop) (l : list A) (l' : list B) (x : A) :
  Forall2 R l l' -> In x l -> exists y, In y l' /\ R x y.
Proof.
  induction 1 as [|a b l l' Hab _ IH]; intros Hin; [contradiction|].
  destruct Hin as [->|Hin].
  - exists b. split; [left; reflexivity | exact Hab].
  - destruct (IH Hin) as (y & Hy & Hxy). exists y. split; [right; exact Hy | exact Hxy].
Qed.

(** From the resolution of [fetch] to the end of the send, whatever the
    outcome, the store keeps its entries at their places and touches
    only those with the conversation's id. *)
Lemma handleSend_finish_kept (p : ChatInterface.Pending) (fetched : Fetched)
      (w1 : ChatInterface.World) :
  Forall2 (kept (ChatInterface.conversationId p))
          (ChatInterface.conversations (ChatInterface.state w1))
          (ChatInterface.conversations
             (ChatInterface.state (ChatInterface.handleSend_finish p fetched w1))).
Proof.
  pose proof (run_deltas_frame p (deltas (received_lines fetched)) [] w1) as Hframe.
  cbv zeta in Hframe. destruct Hframe as (_ & _ & _ & _ & _ & _ & Hkept).
  destruct (snd (ChatInterface.try_block p fetched w1)) as [e|] eqn:Hend.
  - rewrite (handleSend_finish_thrown p fetched w1 e Hend).
    unfold ChatInterface.catch_block. state_simpl.
    eapply Forall2_kept_trans; [exact Hkept|].
    eapply Forall2_updated_kept.
    match goal with
    | |- Forall2 _ _ (ChatInterface.conversations
                        (ChatInterface.state
                           (ChatInterface.updateConversation ?c ?m ?w))) =>
        exact (updateConversation_updated c m w)
    end.
  - rewrite (handleSend_finish_normal p fetched w1 Hend). state_simpl.
    exact Hkept.
Qed.

(** The [try] block throws exactly in the four ways of [send_fails], and
    throws the error named there. *)
Lemma try_block_throws (p : ChatInterface.Pending) (fetched : Fetched)
      (w1 : ChatInterface.World) (e : thrown) :
  send_fails fetched e <-> snd (ChatInterface.try_block p fetched w1) = Some e.
Proof.
  unfold ChatInterface.try_block. split.
  - intros [e' | r Hok | r Hok Hbody | r reader e' Hok Hbody Hread].
    + reflexivity.
    + rewrite Hok. reflexivity.
    + rewrite Hok, Hbody. reflexivity.
    + rewrite Hok, Hbody. cbn [negb].
      rewrite while_reading_complete_lines. exact Hread.
  - destruct fetched as [e'|r].
    + cbn [snd]. intros H. injection H as ->. constructor.
    + destruct (ok r) eqn:Hok; cbn [negb].
      * destruct (response_body r) as [reader|] eqn:Hbody.
        -- rewrite while_reading_complete_lines. cbn [snd]. intros H.
           exact (ReadFailure r reader e Hok Hbody H).
        -- cbn [snd]. intros H. injection H as <-.
           exact (StreamUnavailable r Hok Hbody).
      * cbn [snd]. intros H. injection H as <-. exact (UpstreamError r Hok).
Qed.

End Failure.

(** C6, as stated, fails.  The body delivers the delta [Hi] and then a
    read is rejected.  The error is shown and [Hi] stays on screen, but
    the conversation in the store is written back as the history and the
    user message alone: the partial answer, which the store held while
    the stream was alive, is gone from it. *)
Lemma C6_partial_answer_leaves_the_store :
  let lost := fst (@ChatInterface.handleSend Run.RT
                     (Run.server [Run.sse [Run.content_Hi]] (Some Run.connection_lost))
                     (Run.typed "hello" Run.settings)) in
  let alive := fst (@ChatInterface.handleSend Run.RT
                      (Run.server [Run.sse [Run.content_Hi]] None)
                      (Run.typed "hello" Run.settings)) in
  ChatInterface.error (ChatInterface.state lost) = Some (js "network error")
  /\ ChatInterface.messages (ChatInterface.state lost)
     = [Message.mk user (js "hello") 1700000000000;
        Message.mk assistant (js "Hi") 1700000000003]
  /\ map Conversation.messages (ChatInterface.conversations (ChatInterface.state alive))
     = [[Message.mk user (js "hello") 1700000000000;
         Message.mk assistant (js "Hi") 1700000000003]]
  /\ map Conversation.messages (ChatInterface.conversations (ChatInterface.state lost))
     = [[Message.mk user (js "hello") 1700000000000]].
Proof. vm_compute. repeat split. Qed.

(** C6, amended.  When a send that has issued its request fails (a
    rejected [fetch], a status that is not ok, a response without a body,
    a rejected read), the send ends there with its one request: the error
    cell takes the message of the error (a fixed text for a thrown value
    that is not an [Error]) and the banner shows it, unless the message
    is empty, for which no banner is rendered; the send is no longer in
    flight, the screen keeps the user message and the assistant message
    with the text accumulated so far, and the store keeps its entries in
    place, those with the conversation's id holding the history and the
    user message, without an assistant message. *)
Theorem C6_failed_send :
  forall (RT : Runtime) (fetch : Request -> Fetched) (w w1 : ChatInterface.World)
         (request : Request) (p : ChatInterface.Pending) (e : thrown),
    ChatInterface.handleSend_start w = ChatInterface.Awaiting request p w1 ->
    send_fails (fetch request) e ->
    let after := fst (ChatInterface.handleSend fetch w) in
    let history := ChatInterface.messages (ChatInterface.state w) in
    snd (ChatInterface.handleSend fetch w) = [request]
    /\ ChatInterface.error (ChatInterface.state after)
       = Some (match e with
               | Error message => message
               | NotAnError => js "发送消息失败"
               end)
    /\ banner (ChatInterface.state after)
       = match e with
         | Error [] => None
         | Error message => Some message
         | NotAnError => Some (js "发送消息失败")
         end
    /\ ChatInterface.isLoading (ChatInterface.state after) = false
    /\ ChatInterface.messages (ChatInterface.state after)
       = history
           ++ [ChatInterface.userMessage p;
               Message.mk assistant
                 (List.concat (deltas (received_lines (fetch request))))
                 (Message.timestamp (ChatInterface.assistantMessage p))]
    /\ Forall2 (kept (ChatInterface.conversationId p))
               (ChatInterface.conversations (ChatInterface.state w1))
               (ChatInterface.conversations (ChatInterface.state after))
    /\ Forall (fun conv =>
                 Conversation.id conv = ChatInterface.conversationId p ->
                 Conversation.messages conv = history ++ [ChatInterface.userMessage p])
              (ChatInterface.conversations (ChatInterface.state after))
    /\ (In (ChatInterface.conversationId p)
           (map Conversation.id (ChatInterface.conversations (ChatInterface.state w1))) ->
        exists conv,
          In conv (ChatInterface.conversations (ChatInterface.state after))
          /\ Conversation.id conv = ChatInterface.conversationId p
          /\ Conversation.messages conv = history ++ [ChatInterface.userMessage p]).
Proof.
  intros RT fetch w w1 request p e Hstart Hfails after history.
  subst after history.
  pose proof (proj1 (try_block_throws p (fetch request) w1 e) Hfails) as Hthrown.
  destruct (handleSend_start_Awaiting w w1 request p Hstart) as (Hclosure & _).
  pose proof (handleSend_finish_kept p (fetch request) w1) as Hkept.
  unfold ChatInterface.handleSend. rewrite Hstart. cbn [fst snd].
  split; [reflexivity|].
  rewrite (handleSend_finish_thrown p (fetch request) w1 e Hthrown) in *.
  unfold ChatInterface.catch_block in *.
  set (wk := snd (run_deltas p (deltas (received_lines (fetch request))) ([], w1))) in *.
  set (shown := ChatInterface.on_state _ wk) in *.
  pose proof (updateConversation_updated (ChatInterface.conversationId p)
                (ChatInterface.closure_messages p ++ [ChatInterface.userMessage p])
                shown) as Hup.
  unfold banner.
  state_simpl. rewrite updateConversation_state in *. subst shown. state_simpl.
  split; [reflexivity|].
  split; [destruct e as [[|c message]|]; reflexivity|].
  split; [reflexivity|].
  split; [apply (run_deltas_shown w w1 request p _ Hstart)|].
  split; [exact Hkept|].
  assert (Hentries :
            Forall (fun conv =>
                      Conversation.id conv = ChatInterface.conversationId p ->
                      Conversation.messages conv
                      = ChatInterface.messages (ChatInterface.state w)
                          ++ [ChatInterface.userMessage p])
                   (fst (ChatInterface.updateConversation_map
                           (ChatInterface.conversationId p)
                           (ChatInterface.closure_messages p ++ [ChatInterface.userMessage p])
                           (ChatInterface.conversations (ChatInterface.state wk))
                           (ChatInterface.clock wk))))
    by (rewrite <- Hclosure; eapply Forall2_updated_entries; exact Hup).
  split; [exact Hentries|].
  intros Hin. apply in_map_iff in Hin. destruct Hin as (conv1 & Hid1 & Hin1).
  destruct (Forall2_In_left _ _ _ conv1 Hkept Hin1) as (conv & Hconv & Hid & _).
  exists conv. split; [exact Hconv|]. split; [congruence|].
  rewrite Forall_forall in Hentries. apply Hentries; [exact Hconv | congruence].
Qed.

(** C6, amended, at a read that is rejected after the delta [Hi]. *)
Lemma C6_connection_lost :
  let after := fst (@ChatInterface.handleSend Run.RT
                      (Run.server [Run.sse [Run.content_Hi]] (Some Run.connection_lost))
                      (Run.typed "hello" Run.settings)) in
  ChatInterface.error (ChatInterface.state after) = Some (js "network error")
  /\ banner (ChatInterface.state after) = Some (js "network error")
  /\ ChatInterface.isLoading (ChatInterface.state after) = false
  /\ ChatInterface.messages (ChatInterface.state after)
     = [Message.mk user (js "hello") 1700000000000;
        Message.mk assistant (js "Hi") 1700000000003].
Proof.
  pose proof
       (fun request p w1 Hstart =>
          C6_failed_send Run.RT
            (Run.server [Run.sse [Run.content_Hi]] (Some Run.connection_lost))
            (Run.typed "hello" Run.settings) w1 request p Run.connection_lost
            Hstart
            (ReadFailure (streaming [Run.sse [Run.content_Hi]] (Some Run.connection_lost))
               _ _ eq_refl eq_refl eq_refl)) as H.
  specialize (H _ _ _ eq_refl).
  destruct H as (_ & Herror & Hbanner & Hloading & Hmessages & _).
  vm_compute in Herror, Hbanner, Hloading, Hmessages. vm_compute.
  exact (conj Herror (conj Hbanner (conj Hloading Hmessages))).
Defined.

(** ** The order of the store *)

(** C9, as stated, fails.  The store holds two conversations, the more
    recent one first, and the older one is selected.  A send in the older
    one, answered by one delta, gives it the latest time stamp and leaves
    it in second place: the list is no longer ordered by recency. *)
Lemma C9_updated_conversation_stays_behind :
  let before := ChatInterface.conversations (ChatInterface.state Run.older_selected) in
  let after :=
    ChatInterface.conversations
      (ChatInterface.state
         (fst (@ChatInterface.handleSend Run.RT
                 (Run.server [Run.sse [Run.content_Hi]] None) Run.older_selected))) in
  recency_sorted before = true
  /\ map Conversation.timestamp before = [1650000000001; 1600000000001]
  /\ map Conversation.timestamp after = [1650000000001; 1700000000002]
  /\ recency_sorted after = false.
Proof. vm_compute. repeat split. Qed.

(** C9, amended.  The store is a list in which every conversation keeps
    its place: [updateConversation] rewrites entries where they stand,
    and a whole send leaves the order of the ids as it was, or as it was
    behind the id of the conversation it has created, which is then the
    active one. *)
Theorem C9_conversations_keep_their_place :
  forall (RT : Runtime) (fetch : Request -> Fetched) (w : ChatInterface.World)
         (conversationId : jsstring) (newMessages : list Message.t),
    let ids (x : ChatInterface.World) :=
      map Conversation.id (ChatInterface.conversations (ChatInterface.state x)) in
    ids (ChatInterface.updateConversation conversationId newMessages w) = ids w
    /\ (ids (fst (ChatInterface.handleSend fetch w)) = ids w
        \/ exists newId,
             ids (fst (ChatInterface.handleSend fetch w)) = newId :: ids w
             /\ ChatInterface.currentConversationId
                  (ChatInterface.state (fst (ChatInterface.handleSend fetch w)))
                = Some newId).
Proof.
  intros RT fetch w conversationId newMessages ids. subst ids. cbv beta. split.
  - apply updateConversation_ids.
  - unfold ChatInterface.handleSend.
    destruct (ChatInterface.handleSend_start w) as [w'|request p w1] eqn:Hstart.
    + left. cbn [fst]. revert Hstart. unfold ChatInterface.handleSend_start.
      cbv zeta.
      destruct (negb (JS.truthy (JS.trim (ChatInterface.input (ChatInterface.state w))))
                || ChatInterface.isLoading (ChatInterface.state w)).
      * intros H. injection H as <-. reflexivity.
      * destruct (negb (JS.truthy (name (ChatInterface.modelSettings (ChatInterface.state w))))
                  || negb (JS.truthy (baseUrl (ChatInterface.modelSettings (ChatInterface.state w))))
                  || negb (JS.truthy (apiKey (ChatInterface.modelSettings (ChatInterface.state w))))).
        -- intros H. injection H as <-. reflexivity.
        -- destruct (ChatInterface.currentConversationId (ChatInterface.state w))
             as [[|c id']|]; discriminate.
    + cbn [fst].
      pose proof (handleSend_finish_kept p (fetch request) w1) as Hkept.
      apply Forall2_kept_ids in Hkept. rewrite Hkept.
      pose proof (run_deltas_frame p (deltas (received_lines (fetch request))) [] w1)
        as Hframe.
      cbv zeta in Hframe. destruct Hframe as (Hcur & _).
      destruct (handleSend_start_Awaiting w w1 request p Hstart)
        as (_ & _ & _ & _ & _ & Hid & _ & [Hsame | (c & Hnew & Hc)]).
      * left. rewrite Hsame. reflexivity.
      * right. exists (ChatInterface.conversationId p). split.
        -- rewrite Hnew. cbn [map]. rewrite Hc. reflexivity.
        -- rewrite <- Hid, <- Hcur.
           destruct (snd (ChatInterface.try_block p (fetch request) w1)) as [e|] eqn:Hend.
           ++ rewrite (handleSend_finish_thrown p (fetch request) w1 e Hend).
              unfold ChatInterface.catch_block. state_simpl.
              rewrite updateConversation_state. reflexivity.
           ++ rewrite (handleSend_finish_normal p (fetch request) w1 Hend).
              reflexivity.
Qed.

(** ** [selectConversation] *)

(** C7, as stated, fails.  Selecting an id that the store does not hold
    changes the active conversation id: it becomes that id. *)
Lemma C7_unknown_id_becomes_active :
  let s := ChatInterface.state (Run.typed "hello" Run.settings) in
  ChatInterface.conversations s = []
  /\ ChatInterface.currentConversationId s = None
  /\ ChatInterface.currentConversationId (ChatInterface.selectConversation (js "42") s)
     = Some (js "42").
Proof. vm_compute. repeat split. Qed.

(** C7, amended.  Selecting an id that the store does not hold leaves
    the messages on screen and the store as they are, as well as the
    input, the in-flight flag and the settings; it makes that id the
    active one and clears the error banner. *)
Theorem C7_select_unknown_id :
  forall (s : ChatInterface.State) (conversationId : jsstring),
    (forall conv, In conv (ChatInterface.conversations s) ->
                  Conversation.id conv <> conversationId) ->
    let s' := ChatInterface.selectConversation conversationId s in
    ChatInterface.messages s' = ChatInterface.messages s
    /\ ChatInterface.conversations s' = ChatInterface.conversations s
    /\ ChatInterface.input s' = ChatInterface.input s
    /\ ChatInterface.isLoading s' = ChatInterface.isLoading s
    /\ ChatInterface.modelSettings s' = ChatInterface.modelSettings s
    /\ ChatInterface.currentConversationId s' = Some conversationId
    /\ ChatInterface.error s' = None.
Proof.
  intros s conversationId Hunknown s'. subst s'.
  unfold ChatInterface.selectConversation. cbv zeta.
  destruct (find (fun c => JS.eqb (Conversation.id c) conversationId)
                 (ChatInterface.conversations s)) as [conv|] eqn:Hfind.
  - apply find_some in Hfind. destruct Hfind as [Hin Hid].
    apply eqb_eq in Hid. exfalso. exact (Hunknown conv Hin Hid).
  - repeat split.
Qed.

(** C7, amended, at an id selected while the store is empty. *)
Lemma C7_select_in_empty_store :
  let s := ChatInterface.state (Run.typed "hello" Run.settings) in
  let s' := ChatInterface.selectConversation (js "42") s in
  ChatInterface.messages s' = ChatInterface.messages s
  /\ ChatInterface.conversations s' = ChatInterface.conversations s
  /\ ChatInterface.input s' = ChatInterface.input s
  /\ ChatInterface.isLoading s' = ChatInterface.isLoading s
  /\ ChatInterface.modelSettings s' = ChatInterface.modelSettings s
  /\ ChatInterface.currentConversationId s' = Some (js "42")
  /\ ChatInterface.error s' = None.
Proof.
  apply (C7_select_unknown_id
           (ChatInterface.state (Run.typed "hello" Run.settings)) (js "42")).
  intros conv Hin. simpl in Hin. contradiction.
Defined.

(** ** The recency groups *)

Lemma filter_three_ways {A} (f g h : A -> bool) (l : list A) :
  (forall x, In x l ->
             (f x = true /\ g x = false /\ h x = false)
             \/ (f x = false /\ g x = true /\ h x = false)
             \/ (f x = false /\ g x = false /\ h x = true)) ->
  Permutation (filter f l ++ filter g l ++ filter h l) l.
Proof.
  induction l as [|a l IH]; intros Hone; [constructor|].
  assert (Hl : Permutation (filter f l ++ filter g l ++ filter h l) l)
    by (apply IH; intros x Hx; apply Hone; right; exact Hx).
  simpl.
  destruct (Hone a (or_introl eq_refl))
    as [(-> & -> & ->) | [(-> & -> & ->) | (-> & -> & ->)]].
  - simpl. constructor. exact Hl.
  - etransitivity; [symmetry; apply Permutation_middle|]. constructor. exact Hl.
  - rewrite app_assoc.
    etransitivity; [symmetry; apply Permutation_middle|].
    rewrite <- app_assoc. constructor. exact Hl.
Qed.

(** For a clock at or after the epoch, [now - now % 86400000] is the
    last midnight of UTC. *)
Lemma today_is_UTC_midnight (now : Z) :
  0 <= now ->
  now - Z.rem now 86400000 = 86400000 * (now / 86400000).
Proof.
  intros Hnow. rewrite Z.rem_mod_nonneg by lia.
  pose proof (Z.div_mod now 86400000). lia.
Qed.

(** C8, as stated, fails.  In a zone eight hours ahead of UTC, at 09:00
    local time, a conversation last updated at 07:00 of the same local
    day is not put under "today" but under "past week"; and a time stamp
    two days ahead, which is within no current day, is put under
    "today". *)
Lemma C8_today_is_not_the_local_day :
  within_local_day Run.UTC_plus_8 Run.nine_local
    (Conversation.timestamp Run.seven_local) = true
  /\ ChatInterface.todayConvs
       (ChatInterface.groupConversationsByTime Run.nine_local [Run.seven_local]) = []
  /\ ChatInterface.weekConvs
       (ChatInterface.groupConversationsByTime Run.nine_local [Run.seven_local])
     = [Run.seven_local]
  /\ within_local_day Run.UTC_plus_8 Run.nine_local
       (Conversation.timestamp Run.from_the_future) = false
  /\ ChatInterface.todayConvs
       (ChatInterface.groupConversationsByTime Run.nine_local [Run.from_the_future])
     = [Run.from_the_future].
Proof. vm_compute. repeat split. Qed.

(** C8, amended.  With [midnight] the last midnight of UTC at or before
    [now] (for a clock at or after the epoch), a conversation is under
    "today" exactly when its time stamp is at or after [midnight], under
    "past week" exactly when it lies in the seven days before [midnight],
    and under "older" exactly when it is earlier than that; the three
    groups are a partition of the list, computed from the list and the
    clock at every call. *)
Theorem C8_groups :
  forall (now : Z) (convs : list Conversation.t),
    0 <= now ->
    let midnight := 86400000 * (now / 86400000) in
    let weekAgo := midnight - 7 * 86400000 in
    let g := ChatInterface.groupConversationsByTime now convs in
    (midnight <= now < midnight + 86400000)
    /\ (forall conv, In conv (ChatInterface.todayConvs g)
                     <-> In conv convs /\ midnight <= Conversation.timestamp conv)
    /\ (forall conv, In conv (ChatInterface.weekConvs g)
                     <-> In conv convs
                         /\ weekAgo <= Conversation.timestamp conv < midnight)
    /\ (forall conv, In conv (ChatInterface.olderConvs g)
                     <-> In conv convs /\ Conversation.timestamp conv < weekAgo)
    /\ Permutation
         (ChatInterface.todayConvs g ++ ChatInterface.weekConvs g
            ++ ChatInterface.olderConvs g)
         convs.
Proof.
  intros now convs Hnow midnight weekAgo g.
  subst g. unfold ChatInterface.groupConversationsByTime. cbv zeta.
  cbn [ChatInterface.todayConvs ChatInterface.weekConvs ChatInterface.olderConvs].
  rewrite (today_is_UTC_midnight now Hnow). fold midnight. fold weekAgo.
  split; [|split; [|split; [|split]]].
  - subst midnight. pose proof (Z.div_mod now 86400000).
    pose proof (Z.mod_pos_bound now 86400000). lia.
  - intros conv. rewrite filter_In. rewrite Z.geb_le. tauto.
  - intros conv. rewrite filter_In, andb_true_iff, Z.geb_le, Z.ltb_lt. tauto.
  - intros conv. rewrite filter_In, Z.ltb_lt. tauto.
  - apply filter_three_ways. intros conv _.
    destruct (Z.geb_spec (Conversation.timestamp conv) midnight);
      destruct (Z.geb_spec (Conversation.timestamp conv) weekAgo);
      destruct (Z.ltb_spec (Conversation.timestamp conv) midnight);
      destruct (Z.ltb_spec (Conversation.timestamp conv) weekAgo);
      cbn [andb]; subst weekAgo; try lia; tauto.
Qed.

(** C8, amended, at two conversations grouped at 01:00 UTC. *)
Lemma C8_groups_at_one_UTC :
  let g := ChatInterface.groupConversationsByTime Run.nine_local
             [Run.seven_local; Run.from_the_future] in
  Permutation
    (ChatInterface.todayConvs g ++ ChatInterface.weekConvs g
       ++ ChatInterface.olderConvs g)
    [Run.seven_local; Run.from_the_future].
Proof.
  apply (C8_groups Run.nine_local [Run.seven_local; Run.from_the_future]).
  vm_compute. discriminate.
Defined.

(** ** Titles *)

Section Titles.
Context {RT : Runtime}.

Lemma updateConversation_map_renamed (conversationId newTitle : jsstring)
      (newMessages : list Message.t) (prev : list Conversation.t) :
  forall clock,
    ChatInterface.updateConversation_map conversationId newMessages
      (map (fun conv =>
              if JS.eqb (Conversation.id conv) conversationId
              then Conversation.mk (Conversation.id conv) newTitle
                     (Conversation.messages conv) (Conversation.timestamp conv)
                     (Conversation.lastMessage conv)
              else conv) prev) clock
    = ChatInterface.updateConversation_map conversationId newMessages prev clock.
Proof.
  induction prev as [|conv rest IH]; intros clock; [reflexivity|].
  cbn [map ChatInterface.updateConversation_map].
  destruct (JS.eqb (Conversation.id conv) conversationId) eqn:Hid.
  - cbn [Conversation.id]. rewrite Hid, IH. reflexivity.
  - rewrite Hid, IH. reflexivity.
Qed.

Lemma title_of_spelled_out (newMessages : list Message.t) :
  ChatInterface.title_of newMessages
  = match find (fun m => Role_eqb (Message.role m) user) newMessages with
    | Some m =>
        match firstn 15 (Message.content m) with
        | [] => js "新对话"
        | c :: t => c :: t
        end
    | None => js "新对话"
    end.
Proof.
  unfold ChatInterface.title_of, ChatInterface.is_user, JS.or_else, JS.slice_to.
  destruct (find (fun m => Role_eqb (Message.role m) user) newMessages) as [m|];
    [|reflexivity].
  destruct (firstn 15 (Message.content m)); reflexivity.
Qed.

End Titles.

(** C10, as stated, fails.  The first user message of the list has no
    text: its first 15 code units are the empty string, and the title
    that [updateConversation] sets is not that string but the default. *)
Lemma C10_empty_user_message_gets_default_title :
  find ChatInterface.is_user [Run.empty_user_message] = Some Run.empty_user_message
  /\ firstn 15 (Message.content Run.empty_user_message) = []
  /\ map Conversation.title
         (ChatInterface.conversations
            (ChatInterface.state
               (@ChatInterface.updateConversation Run.RT
                  (Conversation.id Run.renamed) [Run.empty_user_message]
                  Run.renamed_only)))
     = [js "新对话"].
Proof. vm_compute. repeat split. Qed.

(** C10, amended.  [updateConversation] gives every entry with the id the
    new messages and a title that does not depend on the title stored:
    the first 15 code units of the first user message of the list, or
    the default when the list has no user message or those code units
    are the empty string; the other entries are untouched.  So a title
    set by [renameConversation] does not survive: renaming and then
    updating is the same as updating. *)
Theorem C10_title_is_recomputed :
  forall (RT : Runtime) (conversationId newTitle : jsstring)
         (newMessages : list Message.t) (w : ChatInterface.World),
    let title :=
      match find (fun m => Role_eqb (Message.role m) user) newMessages with
      | Some m =>
          match firstn 15 (Message.content m) with
          | [] => js "新对话"
          | c :: t => c :: t
          end
      | None => js "新对话"
      end in
    Forall2 (fun conv conv' =>
               if JS.eqb (Conversation.id conv) conversationId
               then Conversation.id conv' = Conversation.id conv
                    /\ Conversation.title conv' = title
                    /\ Conversation.messages conv' = newMessages
               else conv' = conv)
            (ChatInterface.conversations (ChatInterface.state w))
            (ChatInterface.conversations
               (ChatInterface.state
                  (ChatInterface.updateConversation conversationId newMessages w)))
    /\ ChatInterface.updateConversation conversationId newMessages
         (ChatInterface.on_state
            (ChatInterface.renameConversation conversationId newTitle) w)
       = ChatInterface.updateConversation conversationId newMessages w.
Proof.
  intros RT conversationId newTitle newMessages w title. split.
  - eapply Forall2_impl; [|apply updateConversation_updated].
    intros conv conv'. unfold updated.
    destruct (JS.eqb (Conversation.id conv) conversationId); [|tauto].
    intros (Hid & Htitle & Hmessages & _). subst title.
    rewrite <- title_of_spelled_out. tauto.
  - unfold ChatInterface.updateConversation, ChatInterface.renameConversation.
    state_simpl. rewrite updateConversation_map_renamed.
    destruct (ChatInterface.updateConversation_map conversationId newMessages
                (ChatInterface.conversations (ChatInterface.state w))
                (ChatInterface.clock w)).
    reflexivity.
Qed.

(** ** Instances *)

(** C1 at a payload whose only multi-byte character is cut twice: the
    three bytes of U+65B0 come in three chunks and the end of the line in
    a fourth. *)
Lemma C1_cut_inside_a_character :
  List.concat Run.cut_inside_character = Run.content_xin ++ [x0a]
  /\ @Api.streamChat Run.RT (Resolved (streaming Run.cut_inside_character None))
     = @Api.streamChat Run.RT (Resolved (streaming [Run.content_xin ++ [x0a]] None))
  /\ @ChatInterface.handleSend Run.RT (Run.server Run.cut_inside_character None)
       (Run.typed "hello" Run.settings)
     = @ChatInterface.handleSend Run.RT (Run.server [Run.content_xin ++ [x0a]] None)
         (Run.typed "hello" Run.settings).
Proof.
  assert (H : List.concat Run.cut_inside_character = Run.content_xin ++ [x0a])
    by (vm_compute; reflexivity).
  destruct (C1_chunking_is_invisible Run.RT (streaming [] None)
              (Run.content_xin ++ [x0a]) Run.cut_inside_character None H)
    as (Hgenerator & _ & _ & Hsend).
  split; [exact H|]. split; [exact Hgenerator|].
  exact (Hsend (Run.typed "hello" Run.settings)).
Defined.

(** What that run gives: one delta, the character. *)
Example cut_inside_a_character_run :
  @Api.streamChat Run.RT (Resolved (streaming Run.cut_inside_character None))
  = ([JString (js "新")], None)
  /\ ChatInterface.messages
       (ChatInterface.state
          (fst (@ChatInterface.handleSend Run.RT
                  (Run.server Run.cut_inside_character None)
                  (Run.typed "hello" Run.settings))))
     = [Message.mk user (js "hello") 1700000000000;
        Message.mk assistant (js "新") 1700000000003].
Proof. split; vm_compute; reflexivity. Qed.

(** C4 at the specification's example, the user sending [hello]: one
    conversation titled [hello], the two messages, and one request with
    the one message. *)
Lemma C4_hello :
  exists (p : ChatInterface.Pending) (w1 : ChatInterface.World),
    @ChatInterface.handleSend_start Run.RT (Run.typed "hello" Run.settings)
    = ChatInterface.Awaiting
        {| url := js "https://x/v1/chat/completions";
           method := js "POST";
           ContentType := js "application/json";
           Authorization := js "Bearer k";
           body := {| model := js "glm-4-flash";
                      body_messages := [(user, js "hello")];
                      stream := true |} |}
        p w1
    /\ ChatInterface.conversations (ChatInterface.state w1)
       = [Conversation.mk (js "1700000000001") (js "hello") [] 1700000000002
            (Some (js "hello"))]
    /\ ChatInterface.messages (ChatInterface.state w1)
       = [Message.mk user (js "hello") 1700000000000;
          Message.mk assistant [] 1700000000003].
Proof.
  destruct (C4_first_send Run.RT (Run.typed "hello" Run.settings)
              ltac:(vm_compute; discriminate) eq_refl eq_refl
              ltac:(vm_compute; discriminate) ltac:(vm_compute; discriminate)
              ltac:(vm_compute; discriminate))
    as (p & w1 & Hstart & Hconvs & _ & Hmessages & _).
  exists p, w1. vm_compute in Hconvs, Hmessages.
  split; [exact Hstart|]. split; [exact Hconvs | exact Hmessages].
Defined.

(** C5 at a send of blanks, and at a send of [hello] before any setting
    is filled in. *)
Lemma C5_blank_and_unconfigured :
  let fetch := Run.server Run.Hi_there None in
  let blank := Run.typed "   " Run.settings in
  let unconfigured := Run.typed "hello" Run.no_settings in
  (fst (@ChatInterface.handleSend Run.RT fetch blank) = blank
   /\ snd (@ChatInterface.handleSend Run.RT fetch blank) = [])
  /\ snd (@ChatInterface.handleSend Run.RT fetch unconfigured) = []
  /\ ChatInterface.messages
       (ChatInterface.state (fst (@ChatInterface.handleSend Run.RT fetch unconfigured)))
     = []
  /\ ChatInterface.error
       (ChatInterface.state (fst (@ChatInterface.handleSend Run.RT fetch unconfigured)))
     = Some (js "请先配置模型设置（模型名称、API Base、API Key）").
Proof.
  intros fetch blank unconfigured.
  destruct (C5_rejected_sends Run.RT fetch blank) as [Hblank _].
  destruct (C5_rejected_sends Run.RT fetch unconfigured) as [_ Hunconfigured].
  specialize (Hblank (or_introl eq_refl)).
  destruct (Hunconfigured (or_introl eq_refl)) as (Hissued & Hmessages & _ & Herror).
  specialize (Herror ltac:(vm_compute; discriminate) eq_refl).
  split; [exact Hblank|]. split; [exact Hissued|]. split; [exact Hmessages|].
  exact Herror.
Defined.

(* ===================================================================== *)
(** * Further properties *)
(* ===================================================================== *)

(** ** The decoders on frames that carry nothing *)

Section Frames.
Context {RT : Runtime}.

(** The two loops read the content of a payload alike: where
    [streamChat] finds a value to yield, [handleSend] appends the string
    of that value, if it can be made one, and where [streamChat] finds
    nothing so does [handleSend]. *)
Lemma line_delta_try_parse (line : jsstring) :
  JS.startsWith data_prefix line = true ->
  JS.eqb (JS.slice_from 6 line) DONE = false ->
  line_delta line
  = match Api.try_parse (JS.slice_from 6 line) with
    | Some content => Value.toString content
    | None => None
    end.
Proof.
  intros Hprefix Hdone. unfold line_delta, Api.try_parse. rewrite Hprefix. cbv zeta.
  rewrite Hdone.
  destruct (JSON_parse (JS.slice_from 6 line)) as [parsed|]; [|reflexivity].
  unfold ChatInterface.delta_content, Api.delta_content.
  destruct (Value.get parsed Value.choices) as [c|]; [|reflexivity].
  unfold Value.get, Value.get_optional.
  destruct (Value.nullish c) eqn:Hc; [reflexivity|].
  cbn [Value.nullish].
  match goal with
  | |- context [Value.truthy (if Value.truthy ?x then _ else _)] =>
      destruct (Value.truthy x) eqn:Hx; [rewrite Hx; reflexivity | reflexivity]
  end.
Qed.

Lemma deltas_without_prefix (line : jsstring) :
  JS.startsWith data_prefix line = false -> line_delta line = None.
Proof. intros H. unfold line_delta. rewrite H. reflexivity. Qed.

End Frames.

(** A line that does not start with [data: ] is ignored by both loops:
    taking such lines out of the list changes neither what [streamChat]
    yields and whether it returns, nor the deltas of [handleSend]. *)
Theorem lines_without_prefix_are_ignored :
  forall (RT : Runtime) (lines : list jsstring),
    Api.for_lines (filter (JS.startsWith data_prefix) lines) = Api.for_lines lines
    /\ deltas (filter (JS.startsWith data_prefix) lines) = deltas lines.
Proof.
  intros RT lines. split.
  - induction lines as [|line lines IH]; [reflexivity|].
    cbn [filter]. destruct (JS.startsWith data_prefix line) eqn:Hprefix.
    + cbn [Api.for_lines]. rewrite Hprefix, IH. reflexivity.
    + cbn [Api.for_lines]. rewrite Hprefix. exact IH.
  - induction lines as [|line lines IH]; [reflexivity|].
    cbn [filter]. destruct (JS.startsWith data_prefix line) eqn:Hprefix.
    + cbn [deltas]. rewrite IH. reflexivity.
    + cbn [deltas]. rewrite (deltas_without_prefix line Hprefix). exact IH.
Qed.

(** Whatever bytes an ok response delivers, if its reads succeed to the
    end, [streamChat] does not throw: frames that do not parse or hold
    no content are passed over. *)
Theorem streamChat_never_throws_on_content :
  forall (RT : Runtime) (r : Response) (values : list (list byte)),
    ok r = true ->
    snd (Api.streamChat (Resolved (with_body r values None))) = None.
Proof.
  intros RT r values Hok. unfold Api.streamChat, with_body.
  cbn [ok response_body chunks failure]. rewrite Hok. cbn [negb].
  rewrite Api_while_reading_complete_lines.
  destruct (Api.for_lines (complete_lines (List.concat values))) as [ys [|]];
    reflexivity.
Qed.

(** [streamChat_never_throws_on_content] at a body without one
    well-formed frame: nothing is yielded and nothing is thrown. *)
Lemma streamChat_on_malformed_body :
  @Api.streamChat Run.RT (Resolved (streaming StreamRuns.malformed None)) = ([], None).
Proof.
  pose proof (streamChat_never_throws_on_content Run.RT (streaming [] None)
                StreamRuns.malformed eq_refl) as H.
  assert (Hys : fst (@Api.streamChat Run.RT (Resolved (streaming StreamRuns.malformed None)))
                = []) by (vm_compute; reflexivity).
  change (with_body (streaming [] None) StreamRuns.malformed None)
    with (streaming StreamRuns.malformed None) in H.
  destruct (@Api.streamChat Run.RT (Resolved (streaming StreamRuns.malformed None)))
    as [ys completion].
  cbn [fst snd] in *. subst. reflexivity.
Defined.

(** When [streamChat] throws and what.  It throws exactly when [fetch]
    is rejected, when the status is not ok, when the response has no
    body, and when a read is rejected before a terminal frame was seen.
    What it throws is always an [Error] whose message is
    [Stream chat failed: ] followed by the message of the cause, or by
    [Unknown error] when the cause is not an [Error]; the cause is the
    rejection of [fetch], [API Error: ] with the status and its text,
    [Failed to get response reader], or the rejection of the read. *)
Theorem streamChat_wraps_every_error :
  forall (RT : Runtime) (fetched : Fetched) (e : thrown),
    snd (Api.streamChat fetched) = Some e
    <-> exists cause : thrown,
          e = Error (js "Stream chat failed: "
                       ++ match cause with
                          | Error message => message
                          | NotAnError => js "Unknown error"
                          end)
          /\ (fetched = Rejected cause
              \/ (exists r,
                     fetched = Resolved r /\ ok r = false
                     /\ cause = Error (js "API Error: " ++ JS.of_Z (status r)
                                          ++ js " " ++ statusText r))
              \/ (exists r,
                     fetched = Resolved r /\ ok r = true /\ response_body r = None
                     /\ cause = Error (js "Failed to get response reader"))
              \/ (exists r reader,
                     fetched = Resolved r /\ ok r = true
                     /\ response_body r = Some reader
                     /\ failure reader = Some cause
                     /\ snd (Api.for_lines (complete_lines (List.concat (chunks reader))))
                        = false)).
Proof.
  intros RT fetched e. unfold Api.streamChat. split.
  - destruct fetched as [e0|r].
    + cbn [snd]. intros H. injection H as <-. exists e0.
      split; [reflexivity | left; reflexivity].
    + destruct (ok r) eqn:Hok; cbn [negb].
      * destruct (response_body r) as [reader|] eqn:Hbody.
        -- rewrite Api_while_reading_complete_lines.
           destruct (Api.for_lines (complete_lines (List.concat (chunks reader))))
             as [ys [|]] eqn:Hlines; cbn [snd option_map]; [discriminate|].
           destruct (failure reader) as [e0|] eqn:Hfailure; cbn [option_map];
             [|discriminate].
           intros H. injection H as <-. exists e0. split; [reflexivity|].
           right. right. right. exists r, reader.
           rewrite Hlines. repeat split; assumption.
        -- cbn [snd]. intros H. injection H as <-. eexists.
           split; [reflexivity|]. right. right. left. exists r.
           repeat split; first [assumption | reflexivity].
      * cbn [snd]. intros H. injection H as <-. eexists.
        split; [reflexivity|]. right. left. exists r. repeat split. exact Hok.
  - intros (cause & -> & [->|[(r & -> & Hok & ->)|[(r & -> & Hok & Hbody & ->)
                                 |(r & reader & -> & Hok & Hbody & Hfailure & Hlines)]]]).
    + reflexivity.
    + rewrite Hok. reflexivity.
    + rewrite Hok, Hbody. reflexivity.
    + rewrite Hok, Hbody. cbn [negb]. rewrite Api_while_reading_complete_lines.
      destruct (Api.for_lines (complete_lines (List.concat (chunks reader))))
        as [ys returned]. cbn [snd] in Hlines. subst returned.
      rewrite Hfailure. reflexivity.
Qed.

(** [streamChat_wraps_every_error] at a [fetch] rejected with a value
    that is not an [Error]: the generator throws an [Error] with the
    message [Stream chat failed: Unknown error]. *)
Lemma streamChat_wraps_unknown_error :
  snd (@Api.streamChat Run.RT (Rejected NotAnError))
  = Some (Error (js "Stream chat failed: Unknown error")).
Proof.
  destruct (proj1 (streamChat_wraps_every_error Run.RT (Rejected NotAnError)
                     (Api.wrap NotAnError)) eq_refl)
    as (cause & Hwrapped & [Hcause|[(r & Hcause & _)|[(r & Hcause & _)
                                                    |(r & reader & Hcause & _)]]]);
    try discriminate Hcause.
  injection Hcause as <-. cbn [Api.streamChat snd]. rewrite Hwrapped.
  vm_compute. reflexivity.
Defined.

(** ** The two decoders side by side *)

Section Agreement.
Context {RT : Runtime}.

Lemma deltas_until_DONE (lines : list jsstring) :
  strings (fst (Api.for_lines lines)) = deltas (until_DONE lines).
Proof.
  induction lines as [|line lines IH]; [reflexivity|].
  cbn [Api.for_lines until_DONE]. unfold is_DONE.
  destruct (JS.startsWith data_prefix line) eqn:Hprefix; cbn [andb].
  - cbv zeta. destruct (JS.eqb (JS.slice_from 6 line) DONE) eqn:Hdone; [reflexivity|].
    cbn [deltas]. rewrite (line_delta_try_parse line Hprefix Hdone), <- IH.
    destruct (Api.for_lines lines) as [ys returned].
    destruct (Api.try_parse (JS.slice_from 6 line)) as [content|]; [|reflexivity].
    cbn [fst]. unfold strings. cbn [flat_map].
    destruct (Value.toString content); reflexivity.
  - cbn [deltas]. rewrite (deltas_without_prefix line Hprefix). exact IH.
Qed.

End Agreement.

(** On one body, what [handleSend] accumulates from the lines before the
    first terminal frame are the strings of the values that [streamChat]
    yields, in order, without the values that cannot be made a string:
    those [streamChat] yields as they are and [handleSend] passes over.
    [handleSend] goes on to accumulate the deltas of all the complete
    lines.  So the two agree on every body in which no frame with
    content follows a terminal frame and every content can be made a
    string. *)
Theorem streamChat_and_handleSend_agree_until_DONE :
  forall (RT : Runtime) (r : Response) (values : list (list byte))
         (ending : option thrown) (p : ChatInterface.Pending)
         (w : ChatInterface.World),
    ok r = true ->
    let lines := complete_lines (List.concat values) in
    strings (fst (Api.streamChat (Resolved (with_body r values ending))))
    = deltas (until_DONE lines)
    /\ fst (fst (ChatInterface.try_block p (Resolved (with_body r values ending)) w))
       = List.concat (deltas lines).
Proof.
  intros RT r values ending p w Hok lines. split.
  - unfold Api.streamChat, with_body.
    cbn [ok response_body chunks failure]. rewrite Hok. cbn [negb].
    rewrite Api_while_reading_complete_lines. fold lines.
    rewrite <- deltas_until_DONE.
    destruct (Api.for_lines lines) as [ys returned]. reflexivity.
  - rewrite try_block_received. unfold received_lines, with_body.
    cbn [ok response_body chunks]. rewrite Hok. fold lines.
    apply run_deltas_fst.
Qed.

(** [streamChat_and_handleSend_agree_until_DONE] at the stream [Hi],
    [ there], [[DONE]]. *)
Lemma streamChat_and_handleSend_agree_on_Hi_there :
  @strings Run.RT
     (fst (@Api.streamChat Run.RT (Resolved (streaming Run.Hi_there None))))
  = [js "Hi"; js " there"].
Proof.
  pose proof (proj1 (streamChat_and_handleSend_agree_until_DONE Run.RT
                       (streaming [] None) Run.Hi_there None
                       {| ChatInterface.closure_messages := [];
                          ChatInterface.userMessage := Message.mk user [] 0;
                          ChatInterface.assistantMessage := Message.mk assistant [] 0;
                          ChatInterface.conversationId := [] |}
                       (Run.typed "hello" Run.settings) eq_refl)) as H.
  change (with_body (streaming [] None) Run.Hi_there None)
    with (streaming Run.Hi_there None) in H.
  rewrite H. vm_compute. reflexivity.
Defined.

(** A frame whose content is an object with a member [toString],
    followed by the frame [Hi]: [streamChat] yields the object and then
    [Hi]; in [handleSend] the object cannot be appended to the text, the
    frame is passed over, and the answer is [Hi]. *)
Example object_content_is_passed_over :
  List.length
    (fst (@Api.streamChat Run.RT (Resolved (streaming StreamRuns.object_then_Hi None))))
  = 2%nat
  /\ @strings Run.RT
       (fst (@Api.streamChat Run.RT (Resolved (streaming StreamRuns.object_then_Hi None))))
     = [js "Hi"]
  /\ ChatInterface.messages
       (ChatInterface.state
          (fst (@ChatInterface.handleSend Run.RT
                  (Run.server StreamRuns.object_then_Hi None)
                  (Run.typed "hello" Run.settings))))
     = [Message.mk user (js "hello") 1700000000000;
        Message.mk assistant (js "Hi") 1700000000003].
Proof. vm_compute. repeat split. Qed.

(** ** A send in flight *)

Section InFlight.
Context {RT : Runtime}.

(** What a send that reaches [fetch] leaves in the other cells. *)
Lemma handleSend_start_in_flight (w w1 : ChatInterface.World)
      (request : Request) (p : ChatInterface.Pending) :
  ChatInterface.handleSend_start w = ChatInterface.Awaiting request p w1 ->
  ChatInterface.isLoading (ChatInterface.state w1) = true
  /\ ChatInterface.input (ChatInterface.state w1) = []
  /\ ChatInterface.error (ChatInterface.state w1) = None.
Proof.
  unfold ChatInterface.handleSend_start. cbv zeta.
  destruct (negb (JS.truthy (JS.trim (ChatInterface.input (ChatInterface.state w))))
            || ChatInterface.isLoading (ChatInterface.state w)); [discriminate|].
  destruct (negb (JS.truthy (name (ChatInterface.modelSettings (ChatInterface.state w))))
            || negb (JS.truthy (baseUrl (ChatInterface.modelSettings (ChatInterface.state w))))
            || negb (JS.truthy (apiKey (ChatInterface.modelSettings (ChatInterface.state w)))));
    [discriminate|].
  destruct (ChatInterface.currentConversationId (ChatInterface.state w))
    as [[|c id']|]; intros H; injection H as <- <- <-; repeat split.
Qed.

End InFlight.

(** From the moment a send has issued its request until it ends, that
    is before the response and after any number of deltas, another call
    of [handleSend] does nothing: the state stays as it is and no request
    is issued.  When the send ends, however it ends, it is no longer in
    flight and the input is empty. *)
Theorem second_send_is_ignored :
  forall (RT : Runtime) (w w1 : ChatInterface.World) (request : Request)
         (p : ChatInterface.Pending),
    ChatInterface.handleSend_start w = ChatInterface.Awaiting request p w1 ->
    (forall (ds : list jsstring) (fetch : Request -> Fetched),
        let streaming_state := snd (run_deltas p ds ([], w1)) in
        ChatInterface.handleSend fetch streaming_state = (streaming_state, []))
    /\ (forall fetched : Fetched,
           let ended := ChatInterface.state (ChatInterface.handleSend_finish p fetched w1) in
           ChatInterface.isLoading ended = false /\ ChatInterface.input ended = []).
Proof.
  intros RT w w1 request p Hstart.
  destruct (handleSend_start_in_flight w w1 request p Hstart) as (Hloading & Hinput & _).
  split.
  - intros ds fetch streaming_state.
    pose proof (run_deltas_frame p ds [] w1) as Hframe. cbv zeta in Hframe.
    destruct Hframe as (_ & _ & Hl & _).
    unfold ChatInterface.handleSend.
    rewrite handleSend_start_blank; [reflexivity|].
    right. subst streaming_state. exact (eq_trans Hl Hloading).
  - intros fetched ended. subst ended.
    pose proof (run_deltas_frame p (deltas (received_lines fetched)) [] w1) as Hframe.
    cbv zeta in Hframe. destruct Hframe as (_ & Hi & _).
    destruct (snd (ChatInterface.try_block p fetched w1)) as [e|] eqn:Hend.
    + rewrite (handleSend_finish_thrown p fetched w1 e Hend).
      unfold ChatInterface.catch_block. state_simpl.
      rewrite updateConversation_state. state_simpl.
      split; [reflexivity|]. exact (eq_trans Hi Hinput).
    + rewrite (handleSend_finish_normal p fetched w1 Hend). state_simpl.
      split; [reflexivity|]. exact (eq_trans Hi Hinput).
Qed.

(** [second_send_is_ignored] at the user sending [hello]: a second call
    while the request is out changes nothing. *)
Lemma second_hello_is_ignored :
  exists (request : Request) (p : ChatInterface.Pending) (w1 : ChatInterface.World),
    @ChatInterface.handleSend_start Run.RT (Run.typed "hello" Run.settings)
    = ChatInterface.Awaiting request p w1
    /\ @ChatInterface.handleSend Run.RT (Run.server Run.Hi_there None) w1 = (w1, []).
Proof.
  destruct (@ChatInterface.handleSend_start Run.RT (Run.typed "hello" Run.settings))
    as [w'|request p w1] eqn:Hstart; [vm_compute in Hstart; discriminate|].
  exists request, p, w1. split; [reflexivity|].
  exact (proj1 (second_send_is_ignored Run.RT (Run.typed "hello" Run.settings)
                  w1 request p Hstart) [] (Run.server Run.Hi_there None)).
Defined.

(** ** A send and the store *)

Section SendAndStore.
Context {RT : Runtime}.

(** The start of a send when a conversation is active. *)
Lemma handleSend_start_active (w : ChatInterface.World) (c : code_unit) (id' : jsstring) :
  JS.trim (ChatInterface.input (ChatInterface.state w)) <> [] ->
  ChatInterface.isLoading (ChatInterface.state w) = false ->
  name (ChatInterface.modelSettings (ChatInterface.state w)) <> [] ->
  baseUrl (ChatInterface.modelSettings (ChatInterface.state w)) <> [] ->
  apiKey (ChatInterface.modelSettings (ChatInterface.state w)) <> [] ->
  ChatInterface.currentConversationId (ChatInterface.state w) = Some (c :: id') ->
  let s := ChatInterface.state w in
  let userMessage :=
    Message.mk user (JS.trim (ChatInterface.input s)) (Date_now (ChatInterface.clock w)) in
  let placeholder := Message.mk assistant [] (Date_now (1 + ChatInterface.clock w)) in
  ChatInterface.handleSend_start w
  = ChatInterface.Awaiting
      {| url := baseUrl (ChatInterface.modelSettings s) ++ js "/chat/completions";
         method := js "POST";
         ContentType := js "application/json";
         Authorization := js "Bearer " ++ apiKey (ChatInterface.modelSettings s);
         body := {| model := name (ChatInterface.modelSettings s);
                    body_messages :=
                      map (fun m => (Message.role m, Message.content m))
                          (ChatInterface.messages s ++ [userMessage]);
                    stream := true |} |}
      {| ChatInterface.closure_messages := ChatInterface.messages s;
         ChatInterface.userMessage := userMessage;
         ChatInterface.assistantMessage := placeholder;
         ChatInterface.conversationId := c :: id' |}
      {| ChatInterface.state :=
           {| ChatInterface.conversations := ChatInterface.conversations s;
              ChatInterface.currentConversationId := Some (c :: id');
              ChatInterface.messages :=
                ChatInterface.messages s ++ [userMessage; placeholder];
              ChatInterface.input := [];
              ChatInterface.isLoading := true;
              ChatInterface.error := None;
              ChatInterface.modelSettings := ChatInterface.modelSettings s |};
         ChatInterface.clock := 2 + ChatInterface.clock w |}.
Proof.
  intros Htext Hload Hname Hbase Hkey Hcur s userMessage placeholder.
  subst s userMessage placeholder.
  unfold ChatInterface.handleSend_start. cbv zeta.
  apply truthy_true in Htext, Hname, Hbase, Hkey.
  rewrite Htext, Hload, Hname, Hbase, Hkey, Hcur.
  cbn [negb orb]. state_simpl.
  unfold chat_completions, Bearer, role_and_content, ChatInterface.currentMessages,
    JS.or_else.
  rewrite Hname.
  unfold ChatInterface.setMessages, ChatInterface.setError, ChatInterface.setIsLoading,
    ChatInterface.setInput.
  state_simpl. rewrite Hcur, <- app_assoc. reflexivity.
Qed.

(** The start of a send when no conversation is active. *)
Lemma handleSend_start_creates (w w1 : ChatInterface.World) (request : Request)
      (p : ChatInterface.Pending) :
  ChatInterface.currentConversationId (ChatInterface.state w) = None ->
  ChatInterface.handleSend_start w = ChatInterface.Awaiting request p w1 ->
  exists created,
    ChatInterface.conversations (ChatInterface.state w1)
    = created :: ChatInterface.conversations (ChatInterface.state w)
    /\ Conversation.id created = ChatInterface.conversationId p
    /\ Conversation.messages created = [].
Proof.
  intros Hcur. unfold ChatInterface.handleSend_start. cbv zeta.
  destruct (negb (JS.truthy (JS.trim (ChatInterface.input (ChatInterface.state w))))
            || ChatInterface.isLoading (ChatInterface.state w)); [discriminate|].
  destruct (negb (JS.truthy (name (ChatInterface.modelSettings (ChatInterface.state w))))
            || negb (JS.truthy (baseUrl (ChatInterface.modelSettings (ChatInterface.state w))))
            || negb (JS.truthy (apiKey (ChatInterface.modelSettings (ChatInterface.state w)))));
    [discriminate|].
  rewrite Hcur. intros H. injection H as <- <- <-. state_simpl.
  eexists. split; [reflexivity|]. split; reflexivity.
Qed.

Lemma handleSend_start_Returned (w w' : ChatInterface.World) :
  ChatInterface.handleSend_start w = ChatInterface.Returned w' ->
  w' = w
  \/ w' = ChatInterface.on_state
            (ChatInterface.setError (Some ChatInterface.configuration_missing)) w.
Proof.
  unfold ChatInterface.handleSend_start. cbv zeta.
  destruct (negb (JS.truthy (JS.trim (ChatInterface.input (ChatInterface.state w))))
            || ChatInterface.isLoading (ChatInterface.state w)).
  - intros H. injection H as <-. left. reflexivity.
  - destruct (negb (JS.truthy (name (ChatInterface.modelSettings (ChatInterface.state w))))
              || negb (JS.truthy (baseUrl (ChatInterface.modelSettings (ChatInterface.state w))))
              || negb (JS.truthy (apiKey (ChatInterface.modelSettings (ChatInterface.state w))))).
    + intros H. injection H as <-. right. reflexivity.
    + destruct (ChatInterface.currentConversationId (ChatInterface.state w))
        as [[|c id']|]; discriminate.
Qed.

(** After at least one delta, the entries of the conversation hold the
    messages that are on screen. *)
Lemma run_deltas_entries (p : ChatInterface.Pending) (ds : list jsstring) :
  forall full w,
    ds <> [] ->
    Forall (fun conv =>
              Conversation.id conv = ChatInterface.conversationId p ->
              Conversation.messages conv
              = ChatInterface.messages
                  (ChatInterface.state (snd (run_deltas p ds (full, w))))
              /\ Conversation.lastMessage conv
                 = Some (JS.slice_to 30 (full ++ List.concat ds)))
           (ChatInterface.conversations
              (ChatInterface.state (snd (run_deltas p ds (full, w))))).
Proof.
  induction ds as [|d ds IH]; intros full w Hds; [congruence|].
  destruct ds as [|d' ds'].
  - cbn [run_deltas fold_left List.concat]. rewrite app_nil_r.
    destruct (append_delta_state p d full w) as (convs & Hst & Hup).
    rewrite Hst. state_simpl. clear Hst IH.
    induction Hup as [|conv conv' prev next H _ IHup]; [constructor|].
    constructor; [|exact IHup].
    unfold updated in H.
    destruct (JS.eqb (Conversation.id conv) (ChatInterface.conversationId p)) eqn:Hid.
    + destruct H as (_ & _ & Hm & Hl & _). intros _. split; [exact Hm|].
      rewrite Hl. f_equal. unfold ChatInterface.lastMessage_of.
      rewrite length_app. cbn [List.length]. rewrite Nat.add_1_r. cbn [Nat.pred].
      rewrite nth_error_app2 by lia. rewrite Nat.sub_diag. cbn [nth_error Message.content].
      apply or_else_nil.
    + subst conv'. apply eqb_neq in Hid. intros Heq. contradiction.
  - rewrite run_deltas_cons.
    pose proof (append_delta_fst p d full w) as Hfst.
    destruct (append_delta p d (full, w)) as [full1 w1]. cbn [fst] in Hfst. subst full1.
    specialize (IH (full ++ d) w1 ltac:(discriminate)).
    cbn [List.concat] in *. rewrite <- app_assoc in IH. exact IH.
Qed.

Lemma Forall2_kept_unknown (conversationId : jsstring) (a b : list Conversation.t) :
  Forall2 (kept conversationId) a b ->
  (forall conv, In conv a -> Conversation.id conv <> conversationId) ->
  b = a.
Proof.
  induction 1 as [|x y a b [_ Hxy] _ IH]; intros Hunknown; [reflexivity|].
  rewrite Hxy by (apply Hunknown; left; reflexivity).
  rewrite IH by (intros conv Hin; apply Hunknown; right; exact Hin).
  reflexivity.
Qed.

Lemma updateConversation_map_unknown (conversationId : jsstring)
      (newMessages : list Message.t) (prev : list Conversation.t) (clock : nat) :
  (forall conv, In conv prev -> Conversation.id conv <> conversationId) ->
  ChatInterface.updateConversation_map conversationId newMessages prev clock
  = (prev, clock).
Proof.
  induction prev as [|conv rest IH]; intros Hunknown; [reflexivity|].
  cbn [ChatInterface.updateConversation_map].
  assert (Hid : JS.eqb (Conversation.id conv) conversationId = false)
    by (apply eqb_neq, Hunknown; left; reflexivity).
  rewrite Hid, IH by (intros c Hin; apply Hunknown; right; exact Hin).
  reflexivity.
Qed.

End SendAndStore.

(** A send of a text that is not blank, with no request in flight, the
    three settings filled in and a conversation active, creates no
    conversation: at the time of the request the store and the active id
    are as before, the user message and an empty assistant message are
    appended on screen, and the one request carries the role and content
    of the messages that were on screen followed by the user message. *)
Theorem send_in_active_conversation :
  forall (RT : Runtime) (w : ChatInterface.World) (c : code_unit) (id' : jsstring),
    let s := ChatInterface.state w in
    JS.trim (ChatInterface.input s) <> [] ->
    ChatInterface.isLoading s = false ->
    name (ChatInterface.modelSettings s) <> [] ->
    baseUrl (ChatInterface.modelSettings s) <> [] ->
    apiKey (ChatInterface.modelSettings s) <> [] ->
    ChatInterface.currentConversationId s = Some (c :: id') ->
    let userMessage :=
      Message.mk user (JS.trim (ChatInterface.input s)) (Date_now (ChatInterface.clock w)) in
    let placeholder := Message.mk assistant [] (Date_now (1 + ChatInterface.clock w)) in
    exists (request : Request) (p : ChatInterface.Pending) (w1 : ChatInterface.World),
      ChatInterface.handleSend_start w = ChatInterface.Awaiting request p w1
      /\ ChatInterface.conversationId p = c :: id'
      /\ ChatInterface.conversations (ChatInterface.state w1) = ChatInterface.conversations s
      /\ ChatInterface.currentConversationId (ChatInterface.state w1) = Some (c :: id')
      /\ ChatInterface.messages (ChatInterface.state w1)
         = ChatInterface.messages s ++ [userMessage; placeholder]
      /\ url request = baseUrl (ChatInterface.modelSettings s) ++ js "/chat/completions"
      /\ Authorization request = js "Bearer " ++ apiKey (ChatInterface.modelSettings s)
      /\ body request
         = {| model := name (ChatInterface.modelSettings s);
              body_messages :=
                map (fun m => (Message.role m, Message.content m))
                    (ChatInterface.messages s ++ [userMessage]);
              stream := true |}
      /\ forall fetch : Request -> Fetched,
           snd (ChatInterface.handleSend fetch w) = [request].
Proof.
  intros RT w c id' s Htext Hload Hname Hbase Hkey Hcur userMessage placeholder.
  pose proof (handleSend_start_active w c id' Htext Hload Hname Hbase Hkey Hcur)
    as Hstart.
  cbv zeta in Hstart.
  do 3 eexists. split; [exact Hstart|].
  repeat (split; [reflexivity|]).
  intros fetch. unfold ChatInterface.handleSend. rewrite Hstart. reflexivity.
Qed.

(** [send_in_active_conversation] at a send of [again] in the older of
    two conversations. *)
Lemma send_again_in_older_conversation :
  exists (request : Request) (p : ChatInterface.Pending) (w1 : ChatInterface.World),
    @ChatInterface.handleSend_start Run.RT Run.older_selected
    = ChatInterface.Awaiting request p w1
    /\ ChatInterface.conversations (ChatInterface.state w1) = [Run.recent; Run.older]
    /\ body_messages (body request) = [(user, js "first"); (user, js "again")].
Proof.
  destruct (send_in_active_conversation Run.RT Run.older_selected 49
              (List.tl (Conversation.id Run.older))
              ltac:(vm_compute; discriminate) eq_refl
              ltac:(vm_compute; discriminate) ltac:(vm_compute; discriminate)
              ltac:(vm_compute; discriminate) eq_refl)
    as (request & p & w1 & Hstart & _ & Hconvs & _ & _ & _ & _ & Hbody & _).
  exists request, p, w1. split; [exact Hstart|]. split; [exact Hconvs|].
  rewrite Hbody. vm_compute. reflexivity.
Defined.

(** When the response is ok and its body ends normally without a single
    delta, nothing is written to the store: it is as it was when the
    request went out.  The user message is then on screen only; for a
    send that created its conversation, the stored conversation has no
    message at all. *)
Theorem send_without_delta_stores_nothing :
  forall (RT : Runtime) (fetch : Request -> Fetched) (w w1 : ChatInterface.World)
         (request : Request) (p : ChatInterface.Pending)
         (r : Response) (values : list (list byte)),
    ChatInterface.handleSend_start w = ChatInterface.Awaiting request p w1 ->
    fetch request = Resolved r ->
    ok r = true ->
    response_body r = Some {| chunks := values; failure := None |} ->
    deltas (complete_lines (List.concat values)) = [] ->
    let after := ChatInterface.state (fst (ChatInterface.handleSend fetch w)) in
    ChatInterface.conversations after = ChatInterface.conversations (ChatInterface.state w1)
    /\ ChatInterface.messages after
       = ChatInterface.messages (ChatInterface.state w)
           ++ [ChatInterface.userMessage p; ChatInterface.assistantMessage p]
    /\ ChatInterface.error after = None
    /\ (ChatInterface.currentConversationId (ChatInterface.state w) = None ->
        exists created,
          ChatInterface.conversations after
          = created :: ChatInterface.conversations (ChatInterface.state w)
          /\ Conversation.id created = ChatInterface.conversationId p
          /\ Conversation.messages created = []).
Proof.
  intros RT fetch w w1 request p r values Hstart Hfetch Hok Hbody Hnone after.
  subst after.
  destruct (handleSend_start_Awaiting w w1 request p Hstart)
    as (_ & _ & _ & _ & Hmessages & _).
  destruct (handleSend_start_in_flight w w1 request p Hstart) as (_ & _ & Herror).
  unfold ChatInterface.handleSend. rewrite Hstart, Hfetch. cbn [fst].
  rewrite handleSend_finish_normal
    by (rewrite (try_block_streaming p r _ w1 Hok Hbody); reflexivity).
  unfold received_lines. rewrite Hok, Hbody. cbn [chunks]. rewrite Hnone.
  cbn [run_deltas fold_left snd]. state_simpl.
  split; [reflexivity|]. split; [exact Hmessages|]. split; [exact Herror|].
  intros Hcur. exact (handleSend_start_creates w w1 request p Hcur Hstart).
Qed.

(** [send_without_delta_stores_nothing] at the first send of [hello],
    answered by the terminal frame alone. *)
Lemma hello_answered_by_DONE_alone :
  let after :=
    ChatInterface.state
      (fst (@ChatInterface.handleSend Run.RT (Run.server StreamRuns.only_DONE None)
              (Run.typed "hello" Run.settings))) in
  map Conversation.messages (ChatInterface.conversations after) = [[]]
  /\ ChatInterface.messages after
     = [Message.mk user (js "hello") 1700000000000;
        Message.mk assistant [] 1700000000003].
Proof.
  pose proof
       (fun request p w1 Hstart =>
          send_without_delta_stores_nothing Run.RT (Run.server StreamRuns.only_DONE None)
            (Run.typed "hello" Run.settings) w1 request p
            (streaming StreamRuns.only_DONE None) StreamRuns.only_DONE
            Hstart eq_refl eq_refl eq_refl ltac:(vm_compute; reflexivity)) as H.
  specialize (H _ _ _ eq_refl). cbv zeta in H.
  destruct H as (_ & Hmessages & _ & Hcreated).
  destruct (Hcreated eq_refl) as (created & Hconvs & _ & Hnone).
  cbv zeta. split.
  - rewrite Hconvs. cbn [map]. rewrite Hnone. reflexivity.
  - rewrite Hmessages. vm_compute. reflexivity.
Defined.

(** When the response is ok and its body ends normally after at least
    one delta, every entry of the store with the conversation's id holds
    exactly the messages that are on screen, and its preview is the first
    30 code units of the answer. *)
Theorem store_mirrors_screen_after_stream :
  forall (RT : Runtime) (fetch : Request -> Fetched) (w w1 : ChatInterface.World)
         (request : Request) (p : ChatInterface.Pending)
         (r : Response) (values : list (list byte)),
    ChatInterface.handleSend_start w = ChatInterface.Awaiting request p w1 ->
    fetch request = Resolved r ->
    ok r = true ->
    response_body r = Some {| chunks := values; failure := None |} ->
    deltas (complete_lines (List.concat values)) <> [] ->
    let after := ChatInterface.state (fst (ChatInterface.handleSend fetch w)) in
    Forall (fun conv =>
              Conversation.id conv = ChatInterface.conversationId p ->
              Conversation.messages conv = ChatInterface.messages after
              /\ Conversation.lastMessage conv
                 = Some (firstn 30
                           (List.concat (deltas (complete_lines (List.concat values))))))
           (ChatInterface.conversations after).
Proof.
  intros RT fetch w w1 request p r values Hstart Hfetch Hok Hbody Hsome after.
  subst after.
  unfold ChatInterface.handleSend. rewrite Hstart, Hfetch. cbn [fst].
  rewrite handleSend_finish_normal
    by (rewrite (try_block_streaming p r _ w1 Hok Hbody); reflexivity).
  unfold received_lines. rewrite Hok, Hbody. cbn [chunks]. state_simpl.
  exact (run_deltas_entries p _ [] w1 Hsome).
Qed.

(** [store_mirrors_screen_after_stream] at the first send of [hello],
    answered by [Hi] and [ there]. *)
Lemma store_mirrors_screen_after_Hi_there :
  let after :=
    ChatInterface.state
      (fst (@ChatInterface.handleSend Run.RT (Run.server Run.Hi_there None)
              (Run.typed "hello" Run.settings))) in
  Forall (fun conv =>
            Conversation.id conv = js "1700000000001" ->
            Conversation.messages conv = ChatInterface.messages after
            /\ Conversation.lastMessage conv = Some (js "Hi there"))
         (ChatInterface.conversations after).
Proof.
  pose proof
       (fun request p w1 Hstart =>
          store_mirrors_screen_after_stream Run.RT (Run.server Run.Hi_there None)
            (Run.typed "hello" Run.settings) w1 request p
            (streaming Run.Hi_there None) Run.Hi_there
            Hstart eq_refl eq_refl eq_refl ltac:(vm_compute; discriminate)) as H.
  specialize (H _ _ _ eq_refl). exact H.
Defined.

(** A send, whatever comes back, leaves the settings alone, removes no
    entry of the store, and changes no entry but those of the
    conversation that is active when it ends: every other entry is still
    there as it was. *)
Theorem send_keeps_other_conversations :
  forall (RT : Runtime) (fetch : Request -> Fetched) (w : ChatInterface.World),
    let after := ChatInterface.state (fst (ChatInterface.handleSend fetch w)) in
    ChatInterface.modelSettings after
    = ChatInterface.modelSettings (ChatInterface.state w)
    /\ (List.length (ChatInterface.conversations (ChatInterface.state w))
        <= List.length (ChatInterface.conversations after))%nat
    /\ forall conv : Conversation.t,
         In conv (ChatInterface.conversations (ChatInterface.state w)) ->
         ChatInterface.currentConversationId after <> Some (Conversation.id conv) ->
         In conv (ChatInterface.conversations after).
Proof.
  intros RT fetch w after. subst after.
  unfold ChatInterface.handleSend in *.
  destruct (ChatInterface.handleSend_start w) as [w'|request p w1] eqn:Hstart.
  - cbn [fst] in *. destruct (handleSend_start_Returned w w' Hstart) as [->| ->];
      state_simpl; (split; [reflexivity|]); (split; [apply Nat.le_refl|]);
      intros conv Hin _; exact Hin.
  - cbn [fst] in *.
    destruct (handleSend_start_Awaiting w w1 request p Hstart)
      as (_ & _ & _ & _ & _ & Hcur & Hsettings & Hconvs).
    pose proof (handleSend_finish_kept p (fetch request) w1) as Hkept.
    pose proof (run_deltas_frame p (deltas (received_lines (fetch request))) [] w1)
      as Hframe.
    cbv zeta in Hframe. destruct Hframe as (Hcur' & _ & _ & _ & Hsettings' & _).
    assert (Hfinal :
              ChatInterface.currentConversationId
                (ChatInterface.state (ChatInterface.handleSend_finish p (fetch request) w1))
              = Some (ChatInterface.conversationId p)
              /\ ChatInterface.modelSettings
                   (ChatInterface.state
                      (ChatInterface.handleSend_finish p (fetch request) w1))
                 = ChatInterface.modelSettings (ChatInterface.state w)).
    { destruct (snd (ChatInterface.try_block p (fetch request) w1)) as [e|] eqn:Hend.
      - rewrite (handleSend_finish_thrown p (fetch request) w1 e Hend).
        unfold ChatInterface.catch_block. state_simpl.
        rewrite updateConversation_state. state_simpl.
        split; [exact (eq_trans Hcur' Hcur) | exact (eq_trans Hsettings' Hsettings)].
      - rewrite (handleSend_finish_normal p (fetch request) w1 Hend). state_simpl.
        split; [exact (eq_trans Hcur' Hcur) | exact (eq_trans Hsettings' Hsettings)]. }
    destruct Hfinal as (Hactive & Hkeep).
    assert (Hlen : (List.length (ChatInterface.conversations (ChatInterface.state w))
                    <= List.length (ChatInterface.conversations (ChatInterface.state w1)))%nat).
    { destruct Hconvs as [->|(created & -> & _)]; cbn [List.length]; lia. }
    split; [exact Hkeep|]. split.
    + rewrite <- (Forall2_length Hkept). exact Hlen.
    + intros conv Hin Hother.
      assert (Hin1 : In conv (ChatInterface.conversations (ChatInterface.state w1))).
      { destruct Hconvs as [->|(created & -> & _)]; [exact Hin | right; exact Hin]. }
      destruct (Forall2_In_left _ _ _ conv Hkept Hin1) as (conv' & Hin' & _ & Hsame).
      rewrite Hsame in Hin'; [exact Hin'|].
      intros Heq. apply Hother. rewrite Hactive, Heq. reflexivity.
Qed.

(** [send_keeps_other_conversations] at a send in the older of two
    conversations: the recent one is untouched. *)
Lemma send_in_older_keeps_recent :
  In Run.recent
     (ChatInterface.conversations
        (ChatInterface.state
           (fst (@ChatInterface.handleSend Run.RT
                   (Run.server [Run.sse [Run.content_Hi]] None) Run.older_selected)))).
Proof.
  apply (proj2 (proj2 (send_keeps_other_conversations Run.RT
                         (Run.server [Run.sse [Run.content_Hi]] None)
                         Run.older_selected))
           Run.recent).
  - left. reflexivity.
  - vm_compute. discriminate.
Defined.

(** [updateConversation] with an id that the store does not hold does
    nothing, and does not read the clock.  So when the active id is not
    in the store, a send, whatever comes back, writes nothing to the
    store: its messages exist on screen only. *)
Theorem send_with_unknown_active_id_stores_nothing :
  forall (RT : Runtime) (fetch : Request -> Fetched) (w : ChatInterface.World)
         (c : code_unit) (id' : jsstring),
    (forall conv, In conv (ChatInterface.conversations (ChatInterface.state w)) ->
                  Conversation.id conv <> c :: id') ->
    (forall newMessages,
        ChatInterface.updateConversation (c :: id') newMessages w = w)
    /\ (ChatInterface.currentConversationId (ChatInterface.state w) = Some (c :: id') ->
        ChatInterface.conversations
          (ChatInterface.state (fst (ChatInterface.handleSend fetch w)))
        = ChatInterface.conversations (ChatInterface.state w)).
Proof.
  intros RT fetch w c id' Hunknown. split.
  - intros newMessages. unfold ChatInterface.updateConversation.
    rewrite updateConversation_map_unknown by exact Hunknown.
    destruct w as [[convs cur msgs inp load err settings] clock]. reflexivity.
  - intros Hcur. unfold ChatInterface.handleSend.
    destruct (ChatInterface.handleSend_start w) as [w'|request p w1] eqn:Hstart.
    + cbn [fst]. destruct (handleSend_start_Returned w w' Hstart) as [->| ->];
        reflexivity.
    + cbn [fst].
      pose proof (handleSend_finish_kept p (fetch request) w1) as Hkept.
      assert (Hp : ChatInterface.conversationId p = c :: id'
                   /\ ChatInterface.conversations (ChatInterface.state w1)
                      = ChatInterface.conversations (ChatInterface.state w)).
      { revert Hstart. unfold ChatInterface.handleSend_start. cbv zeta.
        destruct (negb (JS.truthy (JS.trim (ChatInterface.input (ChatInterface.state w))))
                  || ChatInterface.isLoading (ChatInterface.state w)); [discriminate|].
        destruct (negb (JS.truthy (name (ChatInterface.modelSettings (ChatInterface.state w))))
                  || negb (JS.truthy (baseUrl (ChatInterface.modelSettings (ChatInterface.state w))))
                  || negb (JS.truthy (apiKey (ChatInterface.modelSettings (ChatInterface.state w)))));
          [discriminate|].
        rewrite Hcur. intros H. injection H as <- <- <-. split; reflexivity. }
      destruct Hp as (Hid & Hconvs). rewrite Hid, Hconvs in Hkept.
      exact (Forall2_kept_unknown _ _ _ Hkept Hunknown).
Qed.

(** [send_with_unknown_active_id_stores_nothing] at a send of [hello]
    after an id that the store does not hold was selected: the answer is
    on screen and the store is still empty. *)
Lemma send_after_unknown_selection :
  let after :=
    ChatInterface.state
      (fst (@ChatInterface.handleSend Run.RT (Run.server Run.Hi_there None)
              StreamRuns.unknown_selected)) in
  ChatInterface.conversations after = []
  /\ ChatInterface.messages after
     = [Message.mk user (js "hello") 1700000000000;
        Message.mk assistant (js "Hi there") 1700000000001].
Proof.
  cbv zeta. split.
  - apply (proj2 (send_with_unknown_active_id_stores_nothing Run.RT
                    (Run.server Run.Hi_there None) StreamRuns.unknown_selected 52 [50]
                    ltac:(intros conv Hin; simpl in Hin; contradiction))).
    reflexivity.
  - vm_compute. reflexivity.
Defined.

(** ** [String.prototype.trim] *)

Lemma trimStart_clean (s : jsstring) : starts_clean (JS.trimStart s).
Proof.
  induction s as [|c s IH]; simpl; [exact I|].
  destruct (JS.is_whitespace c) eqn:Hc; [exact IH | exact Hc].
Qed.

Lemma trimStart_of_clean (s : jsstring) : starts_clean s -> JS.trimStart s = s.
Proof.
  destruct s as [|c s]; [reflexivity|]. simpl. intros ->. reflexivity.
Qed.

Lemma trimStart_suffix (s : jsstring) : exists spaces, s = spaces ++ JS.trimStart s.
Proof.
  induction s as [|c s [spaces IH]]; [exists []; reflexivity|].
  simpl. destruct (JS.is_whitespace c).
  - exists (c :: spaces). simpl. rewrite <- IH. reflexivity.
  - exists []. reflexivity.
Qed.

(** What [trim] returns neither starts nor ends with white space. *)
Lemma trim_no_outer_whitespace (s : jsstring) : no_outer_whitespace (JS.trim s).
Proof.
  unfold no_outer_whitespace, JS.trim, JS.trimEnd. split.
  - pose proof (trimStart_clean s) as Hclean.
    destruct (trimStart_suffix (rev (JS.trimStart s))) as [spaces Hsuffix].
    set (v := JS.trimStart (rev (JS.trimStart s))) in *.
    assert (Hu : JS.trimStart s = rev v ++ rev spaces).
    { rewrite <- (rev_involutive (JS.trimStart s)), Hsuffix, rev_app_distr.
      reflexivity. }
    destruct (rev v) as [|c t]; [exact I|].
    rewrite Hu in Hclean. exact Hclean.
  - rewrite rev_involutive. apply trimStart_clean.
Qed.

Lemma trim_of_clean (s : jsstring) : no_outer_whitespace s -> JS.trim s = s.
Proof.
  intros [Hstart Hend]. unfold JS.trim, JS.trimEnd.
  rewrite (trimStart_of_clean s Hstart), (trimStart_of_clean (rev s) Hend).
  apply rev_involutive.
Qed.

(** Trimming twice is trimming once. *)
Lemma trim_idempotent (s : jsstring) : JS.trim (JS.trim s) = JS.trim s.
Proof. apply trim_of_clean, trim_no_outer_whitespace. Qed.

(** ** Renaming and deleting conversations *)

Lemma renameConversation_titles (conversationId newTitle : jsstring)
      (s : ChatInterface.State) :
  Forall2 (fun conv conv' =>
             Conversation.id conv' = Conversation.id conv
             /\ Conversation.messages conv' = Conversation.messages conv
             /\ Conversation.timestamp conv' = Conversation.timestamp conv
             /\ Conversation.lastMessage conv' = Conversation.lastMessage conv
             /\ Conversation.title conv'
                = if JS.eqb (Conversation.id conv) conversationId
                  then newTitle else Conversation.title conv)
          (ChatInterface.conversations s)
          (ChatInterface.conversations
             (ChatInterface.renameConversation conversationId newTitle s)).
Proof.
  unfold ChatInterface.renameConversation. state_simpl.
  induction (ChatInterface.conversations s) as [|conv rest IH]; constructor.
  - destruct (JS.eqb (Conversation.id conv) conversationId); repeat split.
  - exact IH.
Qed.

(** A title that is blank after trimming is refused: nothing changes,
    and the dialog stays open.  Any other title is stored trimmed, so
    without white space at either end and not empty: the entries with the
    id of the dialog get it as their title and keep their id, messages,
    time stamp and preview, the other entries and the other cells of the
    session are untouched, and the dialog closes.  The trimming that the
    input dialog does before it confirms changes nothing. *)
Theorem confirmRename_stores_trimmed_title :
  forall (newTitle : jsstring) (ui : Sidebar.UI),
    let target := RenameDialog.conversationId (Sidebar.renameDialog ui) in
    let ui' := Sidebar.confirmRename newTitle ui in
    (JS.trim newTitle = [] -> ui' = ui)
    /\ (JS.trim newTitle <> [] ->
        no_outer_whitespace (JS.trim newTitle)
        /\ Sidebar.renameDialog ui' = RenameDialog.closed
        /\ Sidebar.deleteConfirm ui' = Sidebar.deleteConfirm ui
        /\ Forall2 (fun conv conv' =>
                      Conversation.id conv' = Conversation.id conv
                      /\ Conversation.messages conv' = Conversation.messages conv
                      /\ Conversation.timestamp conv' = Conversation.timestamp conv
                      /\ Conversation.lastMessage conv' = Conversation.lastMessage conv
                      /\ Conversation.title conv'
                         = if JS.eqb (Conversation.id conv) target
                           then JS.trim newTitle else Conversation.title conv)
                   (ChatInterface.conversations (Sidebar.session ui))
                   (ChatInterface.conversations (Sidebar.session ui'))
        /\ ChatInterface.messages (Sidebar.session ui')
           = ChatInterface.messages (Sidebar.session ui)
        /\ ChatInterface.currentConversationId (Sidebar.session ui')
           = ChatInterface.currentConversationId (Sidebar.session ui))
    /\ Sidebar.RenameInputDialog_handleSubmit newTitle ui = ui'.
Proof.
  intros newTitle ui target ui'. subst target ui'.
  unfold Sidebar.RenameInputDialog_handleSubmit, Sidebar.confirmRename.
  rewrite trim_idempotent.
  destruct (JS.trim newTitle) as [|c t] eqn:Htrim; cbn [JS.truthy].
  - split; [reflexivity|]. split; [congruence | reflexivity].
  - split; [discriminate|]. split; [|reflexivity]. intros _.
    split; [rewrite <- Htrim; apply trim_no_outer_whitespace|].
    cbn [Sidebar.renameDialog Sidebar.deleteConfirm Sidebar.session
         Sidebar.setRenameDialog Sidebar.on_session].
    split; [reflexivity|]. split; [reflexivity|].
    split; [apply renameConversation_titles|]. split; reflexivity.
Qed.

(** [confirmRename_stores_trimmed_title] at the older conversation
    renamed to [  Plans  ] and then to blanks. *)
Lemma rename_older_to_Plans :
  let opened :=
    Sidebar.showRenameDialog (Conversation.id Run.older) (js "first")
      StoreRuns.two_conversations in
  Sidebar.renameDialog (Sidebar.confirmRename (js "  Plans  ") opened)
  = RenameDialog.closed
  /\ map Conversation.title
         (ChatInterface.conversations
            (Sidebar.session (Sidebar.confirmRename (js "  Plans  ") opened)))
     = [js "second"; js "Plans"]
  /\ Sidebar.confirmRename (js "   ") opened = opened.
Proof.
  intros opened.
  destruct (confirmRename_stores_trimmed_title (js "  Plans  ") opened)
    as (_ & Hstored & _).
  destruct (Hstored ltac:(vm_compute; discriminate)) as (_ & Hclosed & _).
  destruct (confirmRename_stores_trimmed_title (js "   ") opened) as (Hblank & _).
  split; [exact Hclosed|]. split; [vm_compute; reflexivity|]. exact (Hblank eq_refl).
Defined.

(** The click on a delete button changes nothing in the session and
    nothing in the store: it opens the confirmation, with the id, when
    the store holds the id, and does nothing at all when it does not.
    Cancelling closes the confirmation, and that is all it does. *)
Theorem deletion_is_confirmed_first :
  forall (conversationId : jsstring) (ui : Sidebar.UI),
    let asked := Sidebar.deleteConversation conversationId ui in
    Sidebar.session asked = Sidebar.session ui
    /\ Sidebar.renameDialog asked = Sidebar.renameDialog ui
    /\ ((forall conv, In conv (ChatInterface.conversations (Sidebar.session ui)) ->
                      Conversation.id conv <> conversationId) ->
        asked = ui)
    /\ ((exists conv, In conv (ChatInterface.conversations (Sidebar.session ui))
                      /\ Conversation.id conv = conversationId) ->
        DeleteConfirm.show (Sidebar.deleteConfirm asked) = true
        /\ DeleteConfirm.conversationId (Sidebar.deleteConfirm asked) = conversationId)
    /\ Sidebar.cancelDelete asked
       = Sidebar.setDeleteConfirm DeleteConfirm.closed ui.
Proof.
  intros conversationId ui asked. subst asked. unfold Sidebar.deleteConversation.
  destruct (find (fun c => JS.eqb (Conversation.id c) conversationId)
                 (ChatInterface.conversations (Sidebar.session ui)))
    as [conversation|] eqn:Hfind.
  - split; [reflexivity|]. split; [reflexivity|]. split.
    + intros Hunknown. apply find_some in Hfind. destruct Hfind as [Hin Hid].
      apply eqb_eq in Hid. exfalso. exact (Hunknown conversation Hin Hid).
    + split; [intros _; split; reflexivity | reflexivity].
  - split; [reflexivity|]. split; [reflexivity|]. split; [reflexivity|]. split.
    + intros (conv & Hin & Hid). exfalso.
      pose proof (find_none _ _ Hfind conv Hin) as Hno. cbv beta in Hno.
      rewrite Hid, eqb_refl in Hno. discriminate.
    + reflexivity.
Qed.

(** [deletion_is_confirmed_first] at the delete button of the older of
    two conversations, and at an id that the store does not hold. *)
Lemma delete_button_of_older :
  DeleteConfirm.show
    (Sidebar.deleteConfirm
       (Sidebar.deleteConversation (Conversation.id Run.older) StoreRuns.two_conversations))
  = true
  /\ Sidebar.deleteConversation (js "42") StoreRuns.two_conversations
     = StoreRuns.two_conversations.
Proof.
  destruct (deletion_is_confirmed_first (Conversation.id Run.older)
              StoreRuns.two_conversations) as (_ & _ & _ & Hknown & _).
  destruct (deletion_is_confirmed_first (js "42") StoreRuns.two_conversations)
    as (_ & _ & Hunknown & _).
  split.
  - apply Hknown. exists Run.older. split; [right; left; reflexivity | reflexivity].
  - apply Hunknown. intros conv [<-|[<-|[]]]; vm_compute; discriminate.
Defined.

(** A deletion that is confirmed removes from the store every entry with
    the id and no other, the order of the others kept.  When the id is
    the active one, the session goes back to the state without a
    conversation: no active id, no messages on screen, empty input, no
    error; otherwise those cells are untouched.  The settings and the
    in-flight flag are never touched, and the confirmation closes. *)
Theorem confirmDelete_removes_the_conversation :
  forall (conversationId : jsstring) (ui : Sidebar.UI),
    (exists conv, In conv (ChatInterface.conversations (Sidebar.session ui))
                  /\ Conversation.id conv = conversationId) ->
    let before := Sidebar.session ui in
    let ui' := Sidebar.confirmDelete (Sidebar.deleteConversation conversationId ui) in
    let after := Sidebar.session ui' in
    (forall conv, In conv (ChatInterface.conversations after)
                  <-> In conv (ChatInterface.conversations before)
                      /\ Conversation.id conv <> conversationId)
    /\ ChatInterface.conversations after
       = filter (fun conv => negb (JS.eqb (Conversation.id conv) conversationId))
                (ChatInterface.conversations before)
    /\ Sidebar.deleteConfirm ui' = DeleteConfirm.closed
    /\ ChatInterface.modelSettings after = ChatInterface.modelSettings before
    /\ ChatInterface.isLoading after = ChatInterface.isLoading before
    /\ (ChatInterface.currentConversationId before = Some conversationId ->
        ChatInterface.currentConversationId after = None
        /\ ChatInterface.messages after = []
        /\ ChatInterface.input after = []
        /\ ChatInterface.error after = None)
    /\ (ChatInterface.currentConversationId before <> Some conversationId ->
        ChatInterface.currentConversationId after
        = ChatInterface.currentConversationId before
        /\ ChatInterface.messages after = ChatInterface.messages before
        /\ ChatInterface.input after = ChatInterface.input before
        /\ ChatInterface.error after = ChatInterface.error before).
Proof.
  intros conversationId ui Hknown before ui' after.
  assert (Hasked : exists title,
             Sidebar.deleteConversation conversationId ui
             = Sidebar.setDeleteConfirm
                 (DeleteConfirm.mk true conversationId title) ui).
  { unfold Sidebar.deleteConversation.
    destruct (find (fun c => JS.eqb (Conversation.id c) conversationId)
                   (ChatInterface.conversations (Sidebar.session ui)))
      as [conversation|] eqn:Hfind; [eexists; reflexivity|].
    destruct Hknown as (conv & Hin & Hid). exfalso.
    pose proof (find_none _ _ Hfind conv Hin) as Hno. cbv beta in Hno.
    rewrite Hid, eqb_refl in Hno. discriminate. }
  destruct Hasked as (title & Hasked).
  subst after ui' before. rewrite Hasked. unfold Sidebar.confirmDelete. cbv zeta.
  cbn [Sidebar.deleteConfirm Sidebar.setDeleteConfirm Sidebar.session
       DeleteConfirm.conversationId].
  assert (Hcases :
            (ChatInterface.currentConversationId (Sidebar.session ui) = Some conversationId
             /\ Sidebar.is_current
                  (ChatInterface.currentConversationId (Sidebar.session ui))
                  conversationId = true)
            \/ (ChatInterface.currentConversationId (Sidebar.session ui)
                <> Some conversationId
                /\ Sidebar.is_current
                     (ChatInterface.currentConversationId (Sidebar.session ui))
                     conversationId = false)).
  { unfold Sidebar.is_current.
    destruct (ChatInterface.currentConversationId (Sidebar.session ui)) as [id|].
    - destruct (JS.eqb id conversationId) eqn:Hid.
      + apply eqb_eq in Hid. subst. left. split; reflexivity.
      + apply eqb_neq in Hid. right. split; [congruence | reflexivity].
    - right. split; [discriminate | reflexivity]. }
  assert (Hfilter : forall conv,
             In conv (filter (fun conv => negb (JS.eqb (Conversation.id conv) conversationId))
                             (ChatInterface.conversations (Sidebar.session ui)))
             <-> In conv (ChatInterface.conversations (Sidebar.session ui))
                 /\ Conversation.id conv <> conversationId).
  { intros conv. rewrite filter_In, negb_true_iff, eqb_neq. tauto. }
  destruct Hcases as [(Hcur & ->) | (Hcur & ->)];
    cbn [Sidebar.deleteConfirm Sidebar.setDeleteConfirm Sidebar.session
         Sidebar.on_session];
    unfold ChatInterface.createNewConversation; state_simpl;
    (split; [exact Hfilter|]); repeat (split; [reflexivity|]); split;
    intros H; try contradiction; repeat split.
Qed.

(** [confirmDelete_removes_the_conversation] at the older of two
    conversations, which is the active one. *)
Lemma delete_older_conversation :
  let ui' :=
    Sidebar.confirmDelete
      (Sidebar.deleteConversation (Conversation.id Run.older) StoreRuns.two_conversations) in
  ChatInterface.conversations (Sidebar.session ui') = [Run.recent]
  /\ ChatInterface.currentConversationId (Sidebar.session ui') = None
  /\ ChatInterface.messages (Sidebar.session ui') = [].
Proof.
  destruct (confirmDelete_removes_the_conversation (Conversation.id Run.older)
              StoreRuns.two_conversations
              (ex_intro _ Run.older (conj (or_intror (or_introl eq_refl)) eq_refl)))
    as (_ & Hstore & _ & _ & _ & Hactive & _).
  destruct (Hactive eq_refl) as (Hcur & Hmessages & _).
  cbv zeta. split; [rewrite Hstore; vm_compute; reflexivity|].
  split; [exact Hcur | exact Hmessages].
Defined.

(** ** What survives a reload *)

Lemma save_conversations_not_Unparsable (s : ChatInterface.State) (st : Storage.t) :
  Storage.conversations_item st <> Storage.Unparsable ->
  Storage.conversations_item (Storage.save s st) <> Storage.Unparsable.
Proof.
  intros H. unfold Storage.save. cbn [Storage.conversations_item].
  destruct (ChatInterface.conversations s); [exact H | discriminate].
Qed.

Lemma clean_old_defaults_conversations (st : Storage.t) :
  Storage.conversations_item (Storage.clean_old_defaults st)
  = Storage.conversations_item st.
Proof.
  unfold Storage.clean_old_defaults.
  destruct (Storage.modelSettings_item st) as [| |parsed]; try reflexivity.
  destruct (JS.eqb (name parsed) Storage.old_default_name
            || JS.eqb (baseUrl parsed) Storage.old_default_baseUrl); reflexivity.
Qed.

(** What the effect at mount loads, by what the storage holds once the
    old defaults are cleaned out. *)
Lemma mount_loads (st : Storage.t) :
  Storage.conversations_item st <> Storage.Unparsable ->
  exists s',
    snd (Storage.mount st) = Some s'
    /\ fst (Storage.mount st) = Storage.clean_old_defaults st
    /\ ChatInterface.conversations s'
       = match Storage.conversations_item st with
         | Storage.Stored l => l
         | _ => []
         end
    /\ ChatInterface.modelSettings s'
       = match Storage.modelSettings_item (Storage.clean_old_defaults st) with
         | Storage.Stored p => p
         | _ => Storage.empty_settings
         end
    /\ ChatInterface.currentConversationId s' = None
    /\ ChatInterface.messages s' = []
    /\ ChatInterface.input s' = []
    /\ ChatInterface.isLoading s' = false
    /\ ChatInterface.error s' = None.
Proof.
  intros Hparsable. unfold Storage.mount. cbv zeta.
  rewrite clean_old_defaults_conversations.
  destruct (Storage.conversations_item st) as [| |l]; [|congruence|];
    destruct (Storage.modelSettings_item (Storage.clean_old_defaults st));
    eexists; repeat split.
Qed.

(** A list of conversations that is not empty comes back from a reload
    as it was saved; the session does not: after the reload no
    conversation is active, no message is on screen, the input is empty
    and nothing is in flight. *)
Theorem reload_restores_the_list_not_the_session :
  forall (s : ChatInterface.State) (st : Storage.t),
    ChatInterface.conversations s <> [] ->
    exists s',
      snd (Storage.mount (Storage.save s st)) = Some s'
      /\ ChatInterface.conversations s' = ChatInterface.conversations s
      /\ ChatInterface.currentConversationId s' = None
      /\ ChatInterface.messages s' = []
      /\ ChatInterface.input s' = []
      /\ ChatInterface.isLoading s' = false
      /\ ChatInterface.error s' = None.
Proof.
  intros s st Hlist.
  assert (Hitem : Storage.conversations_item (Storage.save s st)
                  = Storage.Stored (ChatInterface.conversations s)).
  { unfold Storage.save. cbn [Storage.conversations_item].
    destruct (ChatInterface.conversations s); [congruence | reflexivity]. }
  destruct (mount_loads (Storage.save s st)) as (s' & Hs' & _ & Hconvs & _ & Hrest).
  - rewrite Hitem. discriminate.
  - exists s'. rewrite Hitem in Hconvs. split; [exact Hs'|]. split; [exact Hconvs|].
    exact Hrest.
Qed.

(** [reload_restores_the_list_not_the_session] at the two conversations
    of which the older is active. *)
Lemma reload_two_conversations :
  exists s',
    snd (Storage.mount (Storage.save (ChatInterface.state Run.older_selected)
                          StoreRuns.nothing_stored)) = Some s'
    /\ ChatInterface.conversations s' = [Run.recent; Run.older]
    /\ ChatInterface.currentConversationId s' = None
    /\ ChatInterface.messages s' = [].
Proof.
  destruct (reload_restores_the_list_not_the_session
              (ChatInterface.state Run.older_selected) StoreRuns.nothing_stored
              ltac:(discriminate))
    as (s' & Hs' & Hconvs & Hcur & Hmessages & _).
  exists s'. split; [exact Hs'|]. split; [exact Hconvs|]. split; assumption.
Defined.

Lemma filter_out_all (conversationId : jsstring) (l : list Conversation.t) :
  (forall conv, In conv l -> Conversation.id conv = conversationId) ->
  filter (fun conv => negb (eqb (Conversation.id conv) conversationId)) l = [].
Proof.
  induction l as [|conv rest IH]; intros Hall; [reflexivity|].
  cbn [filter]. rewrite (Hall conv (or_introl eq_refl)), eqb_refl.
  apply IH. intros c Hc. apply Hall. right. exact Hc.
Qed.

(** The store after a confirmed deletion. *)
Lemma confirmDelete_store (conversationId : jsstring) (ui : Sidebar.UI) :
  (exists conv, In conv (ChatInterface.conversations (Sidebar.session ui))
                /\ Conversation.id conv = conversationId) ->
  ChatInterface.conversations
    (Sidebar.session
       (Sidebar.confirmDelete (Sidebar.deleteConversation conversationId ui)))
  = filter (fun conv => negb (JS.eqb (Conversation.id conv) conversationId))
           (ChatInterface.conversations (Sidebar.session ui)).
Proof.
  intros (conv & Hin & Hid). unfold Sidebar.deleteConversation.
  destruct (find (fun c => JS.eqb (Conversation.id c) conversationId)
                 (ChatInterface.conversations (Sidebar.session ui)))
    as [conversation|] eqn:Hfind.
  - unfold Sidebar.confirmDelete. cbv zeta.
    cbn [Sidebar.deleteConfirm Sidebar.setDeleteConfirm Sidebar.session
         DeleteConfirm.conversationId].
    destruct (Sidebar.is_current _ _);
      cbn [Sidebar.deleteConfirm Sidebar.setDeleteConfirm Sidebar.session
           Sidebar.on_session];
      unfold ChatInterface.createNewConversation; state_simpl; reflexivity.
  - exfalso. pose proof (find_none _ _ Hfind conv Hin) as Hno. cbv beta in Hno.
    rewrite Hid, eqb_refl in Hno. discriminate.
Qed.

(** The empty list is never written.  So when a confirmed deletion
    empties the store, the storage still holds the list as it was saved
    before, and a reload brings the deleted conversations back. *)
Theorem deleted_last_conversation_returns :
  forall (conversationId : jsstring) (ui : Sidebar.UI) (st : Storage.t),
    ChatInterface.conversations (Sidebar.session ui) <> [] ->
    (forall conv, In conv (ChatInterface.conversations (Sidebar.session ui)) ->
                  Conversation.id conv = conversationId) ->
    let saved := Storage.save (Sidebar.session ui) st in
    let ui' := Sidebar.confirmDelete (Sidebar.deleteConversation conversationId ui) in
    ChatInterface.conversations (Sidebar.session ui') = []
    /\ Storage.conversations_item (Storage.save (Sidebar.session ui') saved)
       = Storage.Stored (ChatInterface.conversations (Sidebar.session ui))
    /\ exists s',
         snd (Storage.mount (Storage.save (Sidebar.session ui') saved)) = Some s'
         /\ ChatInterface.conversations s'
            = ChatInterface.conversations (Sidebar.session ui).
Proof.
  intros conversationId ui st Hlist Hall saved ui'.
  assert (Hknown : exists conv,
             In conv (ChatInterface.conversations (Sidebar.session ui))
             /\ Conversation.id conv = conversationId).
  { destruct (ChatInterface.conversations (Sidebar.session ui)) as [|conv rest] eqn:Hc;
      [congruence|].
    exists conv. split; [left; reflexivity | apply Hall; left; reflexivity]. }
  pose proof (confirmDelete_store conversationId ui Hknown) as Hstore.
  assert (Hempty : ChatInterface.conversations (Sidebar.session ui') = []).
  { subst ui'. rewrite Hstore. apply filter_out_all. exact Hall. }
  assert (Hitem : Storage.conversations_item (Storage.save (Sidebar.session ui') saved)
                  = Storage.Stored (ChatInterface.conversations (Sidebar.session ui))).
  { unfold Storage.save at 1. cbn [Storage.conversations_item]. rewrite Hempty.
    subst saved. unfold Storage.save. cbn [Storage.conversations_item].
    destruct (ChatInterface.conversations (Sidebar.session ui)); [congruence | reflexivity]. }
  split; [exact Hempty|]. split; [exact Hitem|].
  destruct (mount_loads (Storage.save (Sidebar.session ui') saved))
    as (s' & Hs' & _ & Hconvs & _).
  - rewrite Hitem. discriminate.
  - exists s'. rewrite Hitem in Hconvs. split; assumption.
Qed.

(** [deleted_last_conversation_returns] at the only conversation of the
    store. *)
Lemma deleted_only_conversation_returns :
  let ui' :=
    Sidebar.confirmDelete
      (Sidebar.deleteConversation (Conversation.id Run.older) StoreRuns.one_conversation) in
  ChatInterface.conversations (Sidebar.session ui') = []
  /\ exists s',
       snd (Storage.mount
              (Storage.save (Sidebar.session ui')
                 (Storage.save (Sidebar.session StoreRuns.one_conversation)
                    StoreRuns.nothing_stored))) = Some s'
       /\ ChatInterface.conversations s' = [Run.older].
Proof.
  destruct (deleted_last_conversation_returns (Conversation.id Run.older)
              StoreRuns.one_conversation StoreRuns.nothing_stored
              ltac:(discriminate)
              ltac:(intros conv [<-|[]]; reflexivity))
    as (Hempty & _ & Hback).
  split; [exact Hempty | exact Hback].
Defined.

(** Settings with a field filled in come back from a reload as they were
    saved, unless the model name is the old default name or the base URL
    is the old default URL. *)
Theorem reload_restores_settings :
  forall (s : ChatInterface.State) (st : Storage.t),
    Storage.conversations_item st <> Storage.Unparsable ->
    name (ChatInterface.modelSettings s) <> []
    \/ baseUrl (ChatInterface.modelSettings s) <> []
    \/ apiKey (ChatInterface.modelSettings s) <> [] ->
    name (ChatInterface.modelSettings s) <> js "智谱AI" ->
    baseUrl (ChatInterface.modelSettings s) <> js "https://open.bigmodel.cn/api/paas/v4" ->
    exists s',
      snd (Storage.mount (Storage.save s st)) = Some s'
      /\ ChatInterface.modelSettings s' = ChatInterface.modelSettings s
      /\ Storage.modelSettings_item (fst (Storage.mount (Storage.save s st)))
         = Storage.Stored (ChatInterface.modelSettings s).
Proof.
  intros s st Hparsable Hfilled Hname Hbase.
  assert (Hitem : Storage.modelSettings_item (Storage.save s st)
                  = Storage.Stored (ChatInterface.modelSettings s)).
  { unfold Storage.save. cbn [Storage.modelSettings_item].
    destruct Hfilled as [H|[H|H]]; apply truthy_true in H; rewrite H;
      rewrite ?orb_true_r; reflexivity. }
  assert (Hclean : Storage.clean_old_defaults (Storage.save s st) = Storage.save s st).
  { unfold Storage.clean_old_defaults. rewrite Hitem.
    apply eqb_neq in Hname, Hbase.
    change Storage.old_default_name with (js "智谱AI").
    change Storage.old_default_baseUrl with (js "https://open.bigmodel.cn/api/paas/v4").
    rewrite Hname, Hbase. reflexivity. }
  destruct (mount_loads (Storage.save s st)
              (save_conversations_not_Unparsable s st Hparsable))
    as (s' & Hs' & Hst' & _ & Hsettings & _).
  exists s'. rewrite Hclean, Hitem in Hsettings. rewrite Hst', Hclean.
  split; [exact Hs'|]. split; [exact Hsettings | exact Hitem].
Qed.

(** [reload_restores_settings] at the settings of the specification's
    example. *)
Lemma reload_example_settings :
  exists s',
    snd (Storage.mount
           (Storage.save (ChatInterface.state (Run.typed "hello" Run.settings))
              StoreRuns.nothing_stored)) = Some s'
    /\ ChatInterface.modelSettings s' = Run.settings.
Proof.
  assert (Hfilled : name Run.settings <> []) by (vm_compute; discriminate).
  assert (Hname : name Run.settings <> js "智谱AI") by (vm_compute; discriminate).
  assert (Hbase : baseUrl Run.settings <> js "https://open.bigmodel.cn/api/paas/v4")
    by (vm_compute; discriminate).
  destruct (reload_restores_settings
              (ChatInterface.state (Run.typed "hello" Run.settings))
              StoreRuns.nothing_stored ltac:(discriminate)
              (or_introl Hfilled) Hname Hbase)
    as (s' & Hs' & Hsettings & _).
  exists s'. split; [exact Hs' | exact Hsettings].
Defined.

(** Settings whose model name is the old default name, or whose base URL
    is the old default URL (the one [api.ts] has as [BASE_URL]), do not
    survive a reload: the effect at mount removes them from the storage
    and the session starts with the three fields empty. *)
Theorem old_default_settings_do_not_survive_reload :
  forall (s : ChatInterface.State) (st : Storage.t),
    Storage.conversations_item st <> Storage.Unparsable ->
    name (ChatInterface.modelSettings s) = js "智谱AI"
    \/ baseUrl (ChatInterface.modelSettings s) = js "https://open.bigmodel.cn/api/paas/v4" ->
    Storage.modelSettings_item (Storage.save s st)
    = Storage.Stored (ChatInterface.modelSettings s)
    /\ Storage.modelSettings_item (fst (Storage.mount (Storage.save s st)))
       = Storage.Absent
    /\ exists s',
         snd (Storage.mount (Storage.save s st)) = Some s'
         /\ ChatInterface.modelSettings s'
            = {| name := []; baseUrl := []; apiKey := [] |}.
Proof.
  intros s st Hparsable Hold.
  assert (Hitem : Storage.modelSettings_item (Storage.save s st)
                  = Storage.Stored (ChatInterface.modelSettings s)).
  { unfold Storage.save. cbn [Storage.modelSettings_item].
    destruct Hold as [H|H]; rewrite H; rewrite ?orb_true_r; reflexivity. }
  assert (Hclean : Storage.modelSettings_item
                     (Storage.clean_old_defaults (Storage.save s st))
                   = Storage.Absent).
  { unfold Storage.clean_old_defaults. rewrite Hitem.
    change Storage.old_default_name with (js "智谱AI").
    change Storage.old_default_baseUrl with (js "https://open.bigmodel.cn/api/paas/v4").
    destruct Hold as [H|H]; rewrite H, eqb_refl; rewrite ?orb_true_r; reflexivity. }
  destruct (mount_loads (Storage.save s st)
              (save_conversations_not_Unparsable s st Hparsable))
    as (s' & Hs' & Hst' & _ & Hsettings & _).
  split; [exact Hitem|]. rewrite Hst'. split; [exact Hclean|].
  exists s'. rewrite Hclean in Hsettings. split; [exact Hs' | exact Hsettings].
Qed.

(** [old_default_settings_do_not_survive_reload] at settings with the
    endpoint of [api.ts]. *)
Lemma reload_zhipu_settings :
  exists s',
    snd (Storage.mount
           (Storage.save (ChatInterface.state (Run.typed "hello" StoreRuns.zhipu_settings))
              StoreRuns.nothing_stored)) = Some s'
    /\ ChatInterface.modelSettings s' = {| name := []; baseUrl := []; apiKey := [] |}.
Proof.
  destruct (old_default_settings_do_not_survive_reload
              (ChatInterface.state (Run.typed "hello" StoreRuns.zhipu_settings))
              StoreRuns.nothing_stored ltac:(discriminate) (or_intror eq_refl))
    as (_ & _ & Hloaded).
  exact Hloaded.
Defined.

(** Settings with the three fields empty are never written.  So when the
    user clears the three fields, the storage still holds the settings
    saved before, and a reload brings them back. *)
Theorem cleared_settings_return :
  forall (s : ChatInterface.State) (st : Storage.t) (previous : ModelSettings),
    Storage.conversations_item st <> Storage.Unparsable ->
    Storage.modelSettings_item st = Storage.Stored previous ->
    name previous <> js "智谱AI" ->
    baseUrl previous <> js "https://open.bigmodel.cn/api/paas/v4" ->
    ChatInterface.modelSettings s = {| name := []; baseUrl := []; apiKey := [] |} ->
    Storage.modelSettings_item (Storage.save s st) = Storage.Stored previous
    /\ exists s',
         snd (Storage.mount (Storage.save s st)) = Some s'
         /\ ChatInterface.modelSettings s' = previous.
Proof.
  intros s st previous Hparsable Hprevious Hname Hbase Hcleared.
  assert (Hitem : Storage.modelSettings_item (Storage.save s st)
                  = Storage.Stored previous).
  { unfold Storage.save. cbn [Storage.modelSettings_item]. rewrite Hcleared.
    exact Hprevious. }
  assert (Hclean : Storage.clean_old_defaults (Storage.save s st) = Storage.save s st).
  { unfold Storage.clean_old_defaults. rewrite Hitem.
    apply eqb_neq in Hname, Hbase.
    change Storage.old_default_name with (js "智谱AI").
    change Storage.old_default_baseUrl with (js "https://open.bigmodel.cn/api/paas/v4").
    rewrite Hname, Hbase. reflexivity. }
  destruct (mount_loads (Storage.save s st)
              (save_conversations_not_Unparsable s st Hparsable))
    as (s' & Hs' & _ & _ & Hsettings & _).
  split; [exact Hitem|]. exists s'. rewrite Hclean, Hitem in Hsettings.
  split; assumption.
Qed.

(** [cleared_settings_return] at the example settings, saved and then
    cleared. *)
Lemma cleared_example_settings_return :
  exists s',
    snd (Storage.mount
           (Storage.save (ChatInterface.state (Run.typed "hello" Run.no_settings))
              (Storage.save (ChatInterface.state (Run.typed "hello" Run.settings))
                 StoreRuns.nothing_stored))) = Some s'
    /\ ChatInterface.modelSettings s' = Run.settings.
Proof.
  assert (Hname : name Run.settings <> js "智谱AI") by (vm_compute; discriminate).
  assert (Hbase : baseUrl Run.settings <> js "https://open.bigmodel.cn/api/paas/v4")
    by (vm_compute; discriminate).
  destruct (cleared_settings_return
              (ChatInterface.state (Run.typed "hello" Run.no_settings))
              (Storage.save (ChatInterface.state (Run.typed "hello" Run.settings))
                 StoreRuns.nothing_stored)
              Run.settings ltac:(discriminate) eq_refl Hname Hbase eq_refl)
    as (_ & Hloaded).
  exact Hloaded.
Defined.

(** The start of a session writes nothing new: once the effect at mount
    has run and the two saving effects have seen what it loaded, the
    storage is as the cleaning of the old defaults left it, and its
    conversations are those it held before. *)
Theorem startup_leaves_the_storage :
  forall (st : Storage.t),
    Storage.conversations_item st <> Storage.Unparsable ->
    exists loaded,
      snd (Storage.mount st) = Some loaded
      /\ Storage.save loaded (fst (Storage.mount st)) = Storage.clean_old_defaults st
      /\ Storage.conversations_item (Storage.clean_old_defaults st)
         = Storage.conversations_item st.
Proof.
  intros st Hparsable.
  destruct (mount_loads st Hparsable) as (loaded & Hloaded & Hst' & Hconvs & Hsettings & _).
  exists loaded. split; [exact Hloaded|]. split; [|apply clean_old_defaults_conversations].
  rewrite Hst'. unfold Storage.save. rewrite Hconvs, Hsettings.
  rewrite <- (clean_old_defaults_conversations st).
  destruct (Storage.clean_old_defaults st) as [convs_item settings_item].
  cbn [Storage.conversations_item Storage.modelSettings_item].
  f_equal.
  - destruct convs_item as [| |[|conv rest]]; reflexivity.
  - destruct settings_item as [| |p]; try reflexivity.
    destruct (JS.truthy (name p) || JS.truthy (baseUrl p) || JS.truthy (apiKey p));
      reflexivity.
Qed.

(** [startup_leaves_the_storage] at a storage that holds the two
    conversations and settings with the endpoint of [api.ts]: the
    conversations stay, the settings are gone. *)
Lemma startup_with_zhipu_settings :
  let st := {| Storage.conversations_item := Storage.Stored [Run.recent; Run.older];
               Storage.modelSettings_item := Storage.Stored StoreRuns.zhipu_settings |} in
  exists loaded,
    snd (Storage.mount st) = Some loaded
    /\ Storage.save loaded (fst (Storage.mount st))
       = {| Storage.conversations_item := Storage.Stored [Run.recent; Run.older];
            Storage.modelSettings_item := Storage.Absent |}.
Proof.
  intros st.
  destruct (startup_leaves_the_storage st ltac:(discriminate))
    as (loaded & Hloaded & Hsaved & _).
  exists loaded. split; [exact Hloaded|]. rewrite Hsaved. reflexivity.
Defined.

(** ** The last frame of a body *)

Lemma split_terminated (lines : list jsstring) (tail : jsstring) :
  Forall (fun line => ~ In newline line) lines ->
  ~ In newline tail ->
  JS.split newline (terminated lines ++ tail) = lines ++ [tail].
Proof.
  intros Hlines Htail. induction Hlines as [|line lines Hline _ IH].
  - apply split_without_sep. exact Htail.
  - unfold terminated in *. cbn [map List.concat].
    rewrite <- !app_assoc. rewrite split_app.
    rewrite (split_without_sep newline line Hline).
    cbn [removelast last app]. cbn [JS.split].
    rewrite Z.eqb_refl. cbn [hd tl]. rewrite app_nil_r.
    rewrite IH. reflexivity.
Qed.

(** A frame counts only once its newline has arrived.  When the text of
    a body is a sequence of lines, each ended by a newline, followed by
    text without a newline, the send accumulates the deltas of those
    lines only, and [streamChat] yields what its loop yields on those
    lines only: a last frame that the server did not end with a newline
    is dropped, whatever it holds. *)
Theorem unterminated_last_frame_is_dropped :
  forall (RT : Runtime) (fetch : Request -> Fetched) (w w1 : ChatInterface.World)
         (request : Request) (p : ChatInterface.Pending)
         (r : Response) (values : list (list byte))
         (lines : list jsstring) (tail : jsstring),
    ChatInterface.handleSend_start w = ChatInterface.Awaiting request p w1 ->
    fetch request = Resolved r ->
    ok r = true ->
    response_body r = Some {| chunks := values; failure := None |} ->
    snd (TextDecoder.decode (List.concat values) TextDecoder.fresh)
    = terminated lines ++ tail ->
    Forall (fun line => ~ In newline line) lines ->
    ~ In newline tail ->
    ChatInterface.messages
      (ChatInterface.state (fst (ChatInterface.handleSend fetch w)))
    = ChatInterface.messages (ChatInterface.state w)
        ++ [ChatInterface.userMessage p;
            Message.mk assistant (List.concat (deltas lines))
              (Message.timestamp (ChatInterface.assistantMessage p))]
    /\ fst (Api.streamChat (fetch request)) = fst (Api.for_lines lines)
    /\ strings (fst (Api.streamChat (fetch request)))
       = deltas (until_DONE lines).
Proof.
  intros RT fetch w w1 request p r values lines tail
         Hstart Hfetch Hok Hbody Htext Hlines Htail.
  assert (Hcomplete : complete_lines (List.concat values) = lines).
  { unfold complete_lines. rewrite Htext, split_terminated by assumption.
    apply removelast_last. }
  split.
  - unfold ChatInterface.handleSend. rewrite Hstart, Hfetch. cbn [fst].
    rewrite handleSend_finish_normal.
    + state_simpl. unfold received_lines. rewrite Hok, Hbody. cbn [chunks].
      rewrite Hcomplete.
      apply (run_deltas_shown w w1 request p _ Hstart).
    + rewrite (try_block_streaming p r _ w1 Hok Hbody). reflexivity.
  - assert (Hyields : fst (Api.streamChat (fetch request)) = fst (Api.for_lines lines)).
    { rewrite Hfetch. unfold Api.streamChat. rewrite Hok, Hbody.
      cbn [negb chunks failure].
      rewrite Api_while_reading_complete_lines, Hcomplete.
      destruct (Api.for_lines lines) as [ys returned]. reflexivity. }
    split; [exact Hyields|]. rewrite Hyields. apply deltas_until_DONE.
Qed.

(** [unterminated_last_frame_is_dropped] at the frame [Hi] followed by
    the frame [ there] without its newline: the answer is [Hi]. *)
Lemma there_without_newline_is_dropped :
  ChatInterface.messages
    (ChatInterface.state
       (fst (@ChatInterface.handleSend Run.RT (Run.server FrameRuns.last_frame_cut None)
               (Run.typed "hello" Run.settings))))
  = [Message.mk user (js "hello") 1700000000000;
     Message.mk assistant (js "Hi") 1700000000003].
Proof.
  assert (Htext : snd (TextDecoder.decode (List.concat FrameRuns.last_frame_cut)
                         TextDecoder.fresh)
                  = terminated [js (Run.dq Run.content_Hi)]
                      ++ js (Run.dq Run.content_there))
    by (vm_compute; reflexivity).
  assert (Hlines : Forall (fun line => ~ In newline line) [js (Run.dq Run.content_Hi)]).
  { constructor; [|constructor]. vm_compute. intuition discriminate. }
  assert (Htail : ~ In newline (js (Run.dq Run.content_there))).
  { vm_compute. intuition discriminate. }
  pose proof (fun request p w1 Hstart =>
                proj1 (unterminated_last_frame_is_dropped Run.RT
                         (Run.server FrameRuns.last_frame_cut None)
                         (Run.typed "hello" Run.settings) w1 request p
                         (streaming FrameRuns.last_frame_cut None) FrameRuns.last_frame_cut
                         [js (Run.dq Run.content_Hi)] (js (Run.dq Run.content_there))
                         Hstart eq_refl eq_refl eq_refl Htext Hlines Htail)) as H.
  specialize (H _ _ _ eq_refl).
  rewrite H. vm_compute. reflexivity.
Defined.

(** ** The text shown for an assistant message *)

Lemma trimStart_whitespace_app (a x : jsstring) :
  forallb JS.is_whitespace a = true -> JS.trimStart (a ++ x) = JS.trimStart x.
Proof.
  induction a as [|c a IH]; intros Ha; [reflexivity|].
  cbn [forallb] in Ha. apply andb_true_iff in Ha as [Hc Ha].
  cbn [app JS.trimStart]. rewrite Hc. apply IH. exact Ha.
Qed.

Lemma forallb_rev {A} (f : A -> bool) (l : list A) :
  forallb f (rev l) = forallb f l.
Proof.
  induction l as [|x l IH]; [reflexivity|].
  cbn [rev forallb]. rewrite forallb_app, IH. cbn [forallb].
  rewrite andb_true_r. apply andb_comm.
Qed.

Lemma trimEnd_app_whitespace (x b : jsstring) :
  forallb JS.is_whitespace b = true -> JS.trimEnd (x ++ b) = JS.trimEnd x.
Proof.
  intros Hb. unfold JS.trimEnd. rewrite rev_app_distr.
  rewrite trimStart_whitespace_app by (rewrite forallb_rev; exact Hb).
  reflexivity.
Qed.

Lemma trimStart_whitespace (b : jsstring) :
  forallb JS.is_whitespace b = true -> JS.trimStart b = [].
Proof.
  intros Hb. rewrite <- (app_nil_r b). rewrite trimStart_whitespace_app by exact Hb.
  reflexivity.
Qed.

(** White space around a text does not change what [trim] gives. *)
Lemma trim_strip (a x b : jsstring) :
  forallb JS.is_whitespace a = true ->
  forallb JS.is_whitespace b = true ->
  JS.trim (a ++ x ++ b) = JS.trim x.
Proof.
  intros Ha Hb. unfold JS.trim. rewrite trimStart_whitespace_app by exact Ha.
  induction x as [|c x IH].
  - cbn [app]. rewrite trimStart_whitespace by exact Hb. reflexivity.
  - cbn [app JS.trimStart]. destruct (JS.is_whitespace c); [exact IH|].
    apply (trimEnd_app_whitespace (c :: x) b Hb).
Qed.

Lemma trimStart_prefix (s : jsstring) :
  exists spaces,
    s = spaces ++ JS.trimStart s /\ forallb JS.is_whitespace spaces = true.
Proof.
  induction s as [|c s (spaces & IH & Hspaces)]; [exists []; split; reflexivity|].
  cbn [JS.trimStart]. destruct (JS.is_whitespace c) eqn:Hc.
  - exists (c :: spaces). cbn [app forallb]. rewrite <- IH, Hc, Hspaces.
    split; reflexivity.
  - exists []. split; reflexivity.
Qed.

(** What [trim] removes is white space at the two ends. *)
Lemma trim_ends (s : jsstring) :
  exists a b,
    s = a ++ JS.trim s ++ b
    /\ forallb JS.is_whitespace a = true /\ forallb JS.is_whitespace b = true.
Proof.
  destruct (trimStart_prefix s) as (a & Ha & Hwa).
  destruct (trimStart_prefix (rev (JS.trimStart s))) as (b & Hb & Hwb).
  exists a, (rev b). unfold JS.trim, JS.trimEnd.
  rewrite <- rev_app_distr, <- Hb, rev_involutive, forallb_rev.
  split; [exact Ha|]. split; assumption.
Qed.

Lemma includes_cons (p : jsstring) (c : code_unit) (s : jsstring) :
  includes p (c :: s) = JS.startsWith p (c :: s) || includes p s.
Proof. reflexivity. Qed.

Lemma includes_suffix (p a s : jsstring) :
  includes p (a ++ s) = false -> includes p s = false.
Proof.
  induction a as [|c a IH]; intros H; [exact H|].
  cbn [app] in H. rewrite includes_cons in H.
  apply orb_false_iff in H as [_ H]. apply IH. exact H.
Qed.

Lemma startsWith_longer (p s b : jsstring) :
  JS.startsWith p s = true -> JS.startsWith p (s ++ b) = true.
Proof.
  revert s. induction p as [|x p IH]; intros s H; [reflexivity|].
  destruct s as [|y s]; [discriminate|].
  cbn [app JS.startsWith] in *. apply andb_true_iff in H as [Hxy H].
  rewrite Hxy. cbn [andb]. apply IH. exact H.
Qed.

Lemma includes_prefix (p s b : jsstring) :
  includes p (s ++ b) = false -> includes p s = false.
Proof.
  induction s as [|c s IH]; intros H.
  - destruct p as [|x p]; [|reflexivity].
    destruct b; discriminate H.
  - cbn [app] in H. rewrite includes_cons in *.
    apply orb_false_iff in H as [Hstart H].
    rewrite (IH H), orb_false_r.
    destruct (JS.startsWith p (c :: s)) eqn:Hs; [|reflexivity].
    pose proof (startsWith_longer p (c :: s) b Hs) as Hlonger.
    cbn [app] in Hlonger. congruence.
Qed.

(** A text that a longer one does not include is not included in a part
    of it either. *)
Lemma includes_infix (p a x b : jsstring) :
  includes p (a ++ x ++ b) = false -> includes p x = false.
Proof. intros H. apply includes_suffix in H. apply includes_prefix in H. exact H. Qed.

Lemma visible_whitespace (a : jsstring) :
  forallb JS.is_whitespace a = true -> visible a = [].
Proof.
  induction a as [|c a IH]; intros Ha; [reflexivity|].
  cbn [forallb] in Ha. apply andb_true_iff in Ha as [Hc Ha].
  unfold visible in *. cbn [filter]. rewrite Hc. cbn [negb]. apply IH. exact Ha.
Qed.

Lemma visible_strip (a x b : jsstring) :
  forallb JS.is_whitespace a = true ->
  forallb JS.is_whitespace b = true ->
  visible (a ++ x ++ b) = visible x.
Proof.
  intros Ha Hb. pose proof (visible_whitespace a Ha) as Hva.
  pose proof (visible_whitespace b Hb) as Hvb.
  unfold visible in *. rewrite !filter_app, Hva, Hvb, app_nil_r. reflexivity.
Qed.

Lemma is_newline_spec (c : code_unit) : is_newline c = true -> c = newline.
Proof. unfold is_newline. apply Z.eqb_eq. Qed.

Lemma newline_is_whitespace (c : code_unit) :
  is_newline c = true -> JS.is_whitespace c = true.
Proof. intros H. apply is_newline_spec in H. subst c. reflexivity. Qed.

(** *** The first replacement: runs of three or more newlines *)

Lemma star_accept (p : code_unit -> bool) (s : jsstring) (i : nat) :
  RegExp.star p RegExp.accept i s = Some ((i + span p s)%nat, skipn (span p s) s).
Proof.
  revert i. induction s as [|c s IH]; intros i; cbn [RegExp.star span].
  - unfold RegExp.accept. rewrite Nat.add_0_r. reflexivity.
  - destruct (p c).
    + rewrite IH. cbn [skipn]. f_equal. f_equal. lia.
    + unfold RegExp.accept. rewrite Nat.add_0_r. reflexivity.
Qed.

(** [/\n{3,}/] matches where three newlines start, and takes the whole
    run. *)
Lemma match_three_or_more (i : nat) (s : jsstring) :
  RegExp.match_at three_or_more_newlines i s
  = if (3 <=? span is_newline s)%nat
    then Some ((i + span is_newline s)%nat, skipn (span is_newline s) s)
    else None.
Proof.
  unfold RegExp.match_at, three_or_more_newlines.
  cbn [RegExp.matcher RegExp.at_least]. unfold RegExp.one.
  destruct s as [|c1 s]; [reflexivity|]. cbn [span].
  destruct (is_newline c1); [|reflexivity].
  destruct s as [|c2 s]; [reflexivity|]. cbn [span].
  destruct (is_newline c2); [|reflexivity].
  destruct s as [|c3 s]; [reflexivity|]. cbn [span].
  destruct (is_newline c3); [|reflexivity].
  rewrite star_accept. cbn [Nat.leb skipn]. f_equal. f_equal. lia.
Qed.

Lemma includes_three_newlines_cons (c : code_unit) (s : jsstring) :
  includes three_newlines (c :: s)
  = (is_newline c && (2 <=? span is_newline s)%nat) || includes three_newlines s.
Proof.
  rewrite includes_cons. f_equal.
  unfold three_newlines, is_newline. cbn [JS.startsWith].
  rewrite (Z.eqb_sym newline c). destruct (c =? newline); [|reflexivity].
  cbn [andb]. destruct s as [|c2 s]; [reflexivity|].
  cbn [span]. unfold is_newline. rewrite (Z.eqb_sym newline c2).
  destruct (c2 =? newline); [|reflexivity].
  cbn [andb]. destruct s as [|c3 s]; [reflexivity|].
  cbn [span]. unfold is_newline. rewrite (Z.eqb_sym newline c3).
  destruct (c3 =? newline); reflexivity.
Qed.

(** What the first replacement gives, from a place inside or outside a
    match: no three newlines in a row, at most two at its start, and the
    characters that are not white space as they were. *)
Lemma collapse_from (s : jsstring) :
  forall (skip i : nat),
    skip = O \/ skip = span is_newline s ->
    let out := RegExp.replace_from three_or_more_newlines [newline; newline] skip i s in
    includes three_newlines out = false
    /\ span is_newline out
       = match skip with
         | O => Nat.min (span is_newline s) 2
         | S _ => O
         end
    /\ visible out = visible s.
Proof.
  induction s as [|c s IH]; intros skip i Hskip out; subst out.
  - assert (skip = O) as -> by (destruct Hskip as [H|H]; exact H).
    cbn [RegExp.replace_from]. rewrite match_three_or_more. cbn.
    repeat split.
  - destruct skip as [|k].
    + cbn [RegExp.replace_from]. rewrite match_three_or_more.
      destruct (3 <=? span is_newline (c :: s))%nat eqn:Hrun.
      * apply Nat.leb_le in Hrun. cbn [span] in Hrun |- *.
        destruct (is_newline c) eqn:Hc; [|lia].
        replace ((i + S (span is_newline s) =? i)%nat) with false
          by (symmetry; apply Nat.eqb_neq; lia).
        replace (i + S (span is_newline s) - i - 1)%nat with (span is_newline s) by lia.
        destruct (IH (span is_newline s) (S i) (or_intror eq_refl))
          as (Hno & Hspan & Hvisible).
        destruct (span is_newline s) as [|n] eqn:Hn; [lia|].
        remember (RegExp.replace_from three_or_more_newlines [newline; newline] _ (S i) s) as out eqn:Hout.
        clear Hout.
        cbn [app]. rewrite !includes_three_newlines_cons. cbn [span].
        rewrite Hspan, Hno. change (is_newline newline) with true.
        split; [reflexivity|]. split; [lia|].
        unfold visible in *. cbn [filter]. change (JS.is_whitespace newline) with true.
        rewrite (newline_is_whitespace c Hc). cbn [negb]. exact Hvisible.
      * apply Nat.leb_gt in Hrun.
        destruct (IH O (S i) (or_introl eq_refl)) as (Hno & Hspan & Hvisible).
        remember (RegExp.replace_from three_or_more_newlines [newline; newline] _ (S i) s) as out eqn:Hout.
        clear Hout.
        rewrite includes_three_newlines_cons, Hno, orb_false_r.
        cbn [span] in Hrun |- *. unfold visible in *. cbn [filter]. rewrite Hvisible.
        destruct (is_newline c) eqn:Hc.
        -- rewrite Hspan. split; [|split; [lia | reflexivity]].
           cbn [andb]. apply Nat.leb_gt. lia.
        -- split; [reflexivity|]. split; reflexivity.
    + destruct Hskip as [Hskip|Hskip]; [discriminate|].
      cbn [span] in Hskip. destruct (is_newline c) eqn:Hc; [|discriminate].
      injection Hskip as Hk.
      cbn [RegExp.replace_from].
      destruct (IH k (S i) (or_intror Hk)) as (Hno & Hspan & Hvisible).
      split; [exact Hno|]. split.
      * rewrite Hspan. destruct k; [|reflexivity]. rewrite <- Hk. reflexivity.
      * rewrite Hvisible. unfold visible. cbn [filter].
        rewrite (newline_is_whitespace c Hc). reflexivity.
Qed.

(** A text without three newlines in a row is left as it is. *)
Lemma collapse_nothing (s : jsstring) (i : nat) :
  includes three_newlines s = false ->
  RegExp.replace_from three_or_more_newlines [newline; newline] 0 i s = s.
Proof.
  revert i. induction s as [|c s IH]; intros i Hno.
  - cbn [RegExp.replace_from]. rewrite match_three_or_more. reflexivity.
  - rewrite includes_three_newlines_cons in Hno.
    apply orb_false_iff in Hno as [Hstart Hno].
    cbn [RegExp.replace_from]. rewrite match_three_or_more.
    replace (3 <=? span is_newline (c :: s))%nat with false.
    + rewrite (IH (S i) Hno). reflexivity.
    + symmetry. cbn [span]. destruct (is_newline c); [|reflexivity].
      cbn [andb] in Hstart. exact Hstart.
Qed.

(** *** The second replacement: blank text at the two ends *)

Lemma consumes_accept (q : code_unit -> bool) : consumes q (fun _ => True) RegExp.accept.
Proof.
  intros i s e rest H. injection H as <- <-. exists O.
  rewrite Nat.add_0_r. repeat split. lia.
Qed.

Lemma consumes_End (q : code_unit -> bool) :
  consumes q (fun rest => rest = []) (RegExp.matcher RegExp.End_ RegExp.accept).
Proof.
  intros i s e rest H. cbn [RegExp.matcher] in H.
  destruct s; [|discriminate]. injection H as <- <-. exists O.
  rewrite Nat.add_0_r. repeat split. lia.
Qed.

Lemma consumes_one (p q : code_unit -> bool) (P : jsstring -> Prop)
      (k : RegExp.Continuation) :
  (forall c, p c = true -> q c = true) ->
  consumes q P k -> consumes q P (RegExp.one p k).
Proof.
  intros Hpq Hk i s e rest H. unfold RegExp.one in H.
  destruct s as [|c s]; [discriminate|].
  destruct (p c) eqn:Hc; [|discriminate].
  destruct (Hk _ _ _ _ H) as (m & -> & Hm & -> & Hq & HP).
  exists (S m). cbn [firstn skipn forallb List.length]. rewrite (Hpq c Hc), Hq.
  repeat split; [lia | lia | exact HP].
Qed.

Lemma consumes_star (p q : code_unit -> bool) (P : jsstring -> Prop)
      (k : RegExp.Continuation) :
  (forall c, p c = true -> q c = true) ->
  consumes q P k -> consumes q P (RegExp.star p k).
Proof.
  intros Hpq Hk i s. revert i. induction s as [|c s IH]; intros i e rest H.
  - cbn [RegExp.star] in H. exact (Hk _ _ _ _ H).
  - cbn [RegExp.star] in H. destruct (p c) eqn:Hc; [|exact (Hk _ _ _ _ H)].
    destruct (RegExp.star p k (S i) s) as [r|] eqn:Hmore; [|exact (Hk _ _ _ _ H)].
    injection H as ->.
    destruct (IH _ _ _ Hmore) as (m & -> & Hm & -> & Hq & HP).
    exists (S m). cbn [firstn skipn forallb List.length]. rewrite (Hpq c Hc), Hq.
    repeat split; [lia | lia | exact HP].
Qed.

Lemma consumes_at_least (n : nat) (p q : code_unit -> bool) (P : jsstring -> Prop)
      (k : RegExp.Continuation) :
  (forall c, p c = true -> q c = true) ->
  consumes q P k -> consumes q P (RegExp.at_least n p k).
Proof.
  intros Hpq Hk. induction n as [|n IH]; cbn [RegExp.at_least].
  - apply consumes_star; assumption.
  - apply consumes_one; assumption.
Qed.

(** The second alternative, [\n+\s*$], matches white space up to the end
    of the input. *)
Lemma blank_end_consumes :
  consumes JS.is_whitespace (fun rest => rest = [])
    (RegExp.matcher
       (RegExp.Seq (RegExp.Plus is_newline)
          (RegExp.Seq (RegExp.Star JS.is_whitespace) RegExp.End_))
       RegExp.accept).
Proof.
  cbn [RegExp.matcher].
  apply (consumes_at_least 1); [exact newline_is_whitespace|].
  apply consumes_star; [auto|]. apply consumes_End.
Qed.

(** The first alternative, [^\s*\n+], matches white space. *)
Lemma blank_start_consumes :
  consumes JS.is_whitespace (fun _ => True)
    (RegExp.matcher
       (RegExp.Seq RegExp.Start
          (RegExp.Seq (RegExp.Star JS.is_whitespace) (RegExp.Plus is_newline)))
       RegExp.accept).
Proof.
  intros i s e rest H. cbn [RegExp.matcher] in H.
  destruct (i =? 0)%nat; [|discriminate].
  revert i s e rest H. apply consumes_star; [auto|].
  apply (consumes_at_least 1); [exact newline_is_whitespace|].
  apply consumes_accept.
Qed.

Lemma match_blank (i : nat) (s : jsstring) (e : nat) (rest : jsstring) :
  RegExp.match_at blank_start_or_end i s = Some (e, rest) ->
  exists m : nat,
    e = (i + m)%nat /\ (m <= List.length s)%nat
    /\ forallb JS.is_whitespace (firstn m s) = true
    /\ (i <> O -> m = List.length s).
Proof.
  unfold RegExp.match_at, blank_start_or_end. intros H.
  change (match RegExp.matcher
                  (RegExp.Seq RegExp.Start
                     (RegExp.Seq (RegExp.Star JS.is_whitespace) (RegExp.Plus is_newline)))
                  RegExp.accept i s with
          | Some r => Some r
          | None =>
              RegExp.matcher
                (RegExp.Seq (RegExp.Plus is_newline)
                   (RegExp.Seq (RegExp.Star JS.is_whitespace) RegExp.End_))
                RegExp.accept i s
          end = Some (e, rest)) in H.
  destruct (RegExp.matcher
              (RegExp.Seq RegExp.Start
                 (RegExp.Seq (RegExp.Star JS.is_whitespace) (RegExp.Plus is_newline)))
              RegExp.accept i s) as [r|] eqn:Hfirst.
  - injection H as ->.
    destruct (blank_start_consumes _ _ _ _ Hfirst) as (m & He & Hm & _ & Hq & _).
    exists m. repeat split; try assumption.
    intros Hi. cbn [RegExp.matcher] in Hfirst.
    destruct i; [congruence | discriminate Hfirst].
  - destruct (blank_end_consumes _ _ _ _ H) as (m & He & Hm & Hrest & Hq & Hend).
    exists m. repeat split; try assumption.
    intros _. subst rest. symmetry in Hend.
    apply (f_equal (@List.length code_unit)) in Hend.
    rewrite length_skipn in Hend. cbn [List.length] in Hend. lia.
Qed.

(** Behind the start of the input, the second replacement removes
    nothing but white space at the end. *)
Lemma strip_blank_later (s : jsstring) :
  forall (skip i : nat),
    i <> O -> (skip <= List.length s)%nat ->
    exists b,
      skipn skip s = RegExp.replace_from blank_start_or_end [] skip i s ++ b
      /\ forallb JS.is_whitespace b = true.
Proof.
  induction s as [|c s IH]; intros skip i Hi Hskip.
  - cbn [List.length] in Hskip. assert (skip = O) as -> by lia.
    exists []. cbn [RegExp.replace_from].
    destruct (RegExp.match_at blank_start_or_end i []) as [[e rest]|];
      split; reflexivity.
  - destruct skip as [|k].
    + cbn [RegExp.replace_from skipn].
      destruct (RegExp.match_at blank_start_or_end i (c :: s)) as [[e rest]|] eqn:Hmatch.
      * destruct (match_blank _ _ _ _ Hmatch) as (m & -> & _ & Hq & Hend).
        specialize (Hend Hi). subst m. rewrite firstn_all in Hq.
        cbn [List.length].
        replace ((i + S (List.length s) =? i)%nat) with false
          by (symmetry; apply Nat.eqb_neq; lia).
        replace (i + S (List.length s) - i - 1)%nat with (List.length s) by lia.
        destruct (IH (List.length s) (S i) ltac:(lia) ltac:(lia)) as (b & Hb & _).
        rewrite skipn_all in Hb. symmetry in Hb. apply app_eq_nil in Hb as [Hout _].
        rewrite Hout. exists (c :: s). split; [reflexivity | exact Hq].
      * destruct (IH O (S i) ltac:(lia) ltac:(lia)) as (b & Hb & Hwb).
        cbn [skipn] in Hb. exists b. split; [|exact Hwb].
        cbn [app]. rewrite <- Hb. reflexivity.
    + cbn [RegExp.replace_from skipn]. cbn [List.length] in Hskip.
      apply IH; lia.
Qed.

(** The second replacement removes nothing but white space at the two
    ends of its input. *)
Lemma strip_blank_ends (s : jsstring) :
  exists a b,
    s = a ++ RegExp.replace blank_start_or_end [] s ++ b
    /\ forallb JS.is_whitespace a = true /\ forallb JS.is_whitespace b = true.
Proof.
  unfold RegExp.replace. destruct s as [|c s].
  - exists [], []. cbn [RegExp.replace_from].
    destruct (RegExp.match_at blank_start_or_end 0 []) as [[e rest]|];
      repeat split.
  - cbn [RegExp.replace_from].
    destruct (RegExp.match_at blank_start_or_end 0 (c :: s)) as [[e rest]|] eqn:Hmatch.
    + destruct (match_blank _ _ _ _ Hmatch) as (m & -> & Hm & Hq & _).
      cbn [Nat.add app]. destruct m as [|m].
      * cbn [Nat.eqb].
        destruct (strip_blank_later s O 1 ltac:(lia) ltac:(lia)) as (b & Hb & Hwb).
        cbn [skipn] in Hb. exists [], b. cbn [app]. rewrite <- Hb.
        repeat split. exact Hwb.
      * cbn [Nat.eqb]. cbn [List.length] in Hm.
        replace (S m - 0 - 1)%nat with m by lia.
        destruct (strip_blank_later s m 1 ltac:(lia) ltac:(lia)) as (b & Hb & Hwb).
        exists (firstn (S m) (c :: s)), b. rewrite <- Hb.
        split; [|split; assumption].
        change (skipn m s) with (skipn (S m) (c :: s)).
        symmetry. apply firstn_skipn.
    + destruct (strip_blank_later s O 1 ltac:(lia) ltac:(lia)) as (b & Hb & Hwb).
      cbn [skipn] in Hb. exists [], b. cbn [app]. rewrite <- Hb.
      repeat split. exact Hwb.
Qed.

(** The second replacement is covered by the [trim] that follows it:
    what [processAIContent] returns is its input with every run of
    three or more newlines made two, trimmed. *)
Lemma processAIContent_spelled_out (content : jsstring) :
  processAIContent content
  = JS.trim (RegExp.replace three_or_more_newlines [newline; newline] content).
Proof.
  unfold processAIContent. destruct content as [|c content]; [reflexivity|].
  cbn [JS.truthy negb].
  destruct (strip_blank_ends
              (RegExp.replace three_or_more_newlines [newline; newline] (c :: content)))
    as (a & b & Hends & Ha & Hb).
  rewrite Hends at 2. rewrite trim_strip by assumption. reflexivity.
Qed.

Lemma tidy_parts_of_shown_text (content : jsstring) :
  no_outer_whitespace (processAIContent content)
  /\ includes three_newlines (processAIContent content) = false.
Proof.
  rewrite processAIContent_spelled_out.
  destruct (collapse_from content O O (or_introl eq_refl)) as (Hno & _ & _).
  fold (RegExp.replace three_or_more_newlines [newline; newline] content) in Hno.
  destruct (trim_ends (RegExp.replace three_or_more_newlines [newline; newline] content))
    as (a & b & Hends & Ha & Hb).
  split; [apply trim_no_outer_whitespace|].
  rewrite Hends in Hno. exact (includes_infix _ _ _ _ Hno).
Qed.

(** The text shown for an assistant message neither starts nor ends with
    white space and has no three newlines in a row, and its characters
    that are not white space are those of the stored content, in the
    same order: the display drops and never adds or changes text. *)
Theorem shown_text_is_tidy :
  forall (content : jsstring),
    no_outer_whitespace (processAIContent content)
    /\ includes three_newlines (processAIContent content) = false
    /\ visible (processAIContent content) = visible content.
Proof.
  intros content. rewrite processAIContent_spelled_out.
  destruct (collapse_from content O O (or_introl eq_refl)) as (Hno & _ & Hvisible).
  fold (RegExp.replace three_or_more_newlines [newline; newline] content) in Hno, Hvisible.
  destruct (trim_ends (RegExp.replace three_or_more_newlines [newline; newline] content))
    as (a & b & Hends & Ha & Hb).
  split; [apply trim_no_outer_whitespace|]. split.
  - rewrite Hends in Hno. exact (includes_infix _ _ _ _ Hno).
  - rewrite <- Hvisible. rewrite Hends at 2. rewrite visible_strip by assumption.
    reflexivity.
Qed.

(** The texts that [processAIContent] leaves as they are, are those that
    neither start nor end with white space and have no three newlines in
    a row; so applying it twice gives what applying it once gives. *)
Theorem processAIContent_fixed_points :
  forall (content : jsstring),
    (processAIContent content = content
     <-> no_outer_whitespace content /\ includes three_newlines content = false)
    /\ processAIContent (processAIContent content) = processAIContent content.
Proof.
  assert (Hfixed : forall content,
             no_outer_whitespace content ->
             includes three_newlines content = false ->
             processAIContent content = content).
  { intros content Hclean Hno. rewrite processAIContent_spelled_out.
    unfold RegExp.replace. rewrite collapse_nothing by exact Hno.
    apply trim_of_clean. exact Hclean. }
  intros content. split; [split|].
  - intros Heq. destruct (tidy_parts_of_shown_text content) as (Hclean & Hno).
    rewrite Heq in Hclean, Hno. split; assumption.
  - intros [Hclean Hno]. apply Hfixed; assumption.
  - destruct (tidy_parts_of_shown_text content) as (Hclean & Hno).
    apply Hfixed; assumption.
Qed.

(** The answer with blank lines before, inside and after its text is
    shown as its two words with one blank line between them. *)
Example processAIContent_padded_answer :
  processAIContent TextRuns.padded_answer
  = js ("Hi" ++ String "010" (String "010" "there")).
Proof. vm_compute. reflexivity. Qed.

(** ** The connection test *)

Lemma startsWith_split (p s : jsstring) :
  JS.startsWith p s = true -> exists b, s = p ++ b.
Proof.
  revert s. induction p as [|x p IH]; intros s H; [exists s; reflexivity|].
  destruct s as [|y s]; [discriminate|].
  cbn [JS.startsWith] in H. apply andb_true_iff in H as [Hxy H].
  apply Z.eqb_eq in Hxy. subst y. destruct (IH s H) as [b ->].
  exists b. reflexivity.
Qed.

Lemma includes_split (p s : jsstring) :
  includes p s = true -> exists a b, s = a ++ p ++ b.
Proof.
  induction s as [|c s IH]; intros H.
  - cbn [includes] in H. rewrite orb_false_r in H.
    destruct (startsWith_split p [] H) as [b Hb]. exists [], b. exact Hb.
  - rewrite includes_cons in H. apply orb_true_iff in H as [H|H].
    + destruct (startsWith_split p (c :: s) H) as [b Hb]. exists [], b. exact Hb.
    + destruct (IH H) as (a & b & ->). exists (c :: a), b. reflexivity.
Qed.

Lemma includes_found (p a b : jsstring) : includes p (a ++ p ++ b) = true.
Proof.
  induction a as [|c a IH].
  - cbn [app]. destruct (p ++ b) as [|c s] eqn:Hs.
    + destruct p; [reflexivity | discriminate].
    + rewrite includes_cons, <- Hs, startsWith_app. reflexivity.
  - cbn [app]. rewrite includes_cons, IH. apply orb_true_r.
Qed.

(** A message that includes [Failed to fetch] includes [fetch]. *)
Lemma Failed_to_fetch_includes_fetch (text : jsstring) :
  includes ModelSettingsDialog.Failed_to_fetch text = true ->
  includes ModelSettingsDialog.fetch_word text = true.
Proof.
  intros H. destruct (includes_split _ _ H) as (a & b & ->).
  change ModelSettingsDialog.Failed_to_fetch
    with (js "Failed to " ++ ModelSettingsDialog.fetch_word).
  rewrite <- app_assoc, app_assoc. apply includes_found.
Qed.

Section Test.
Context {RT : Runtime} {B : Browser RT}.

(** The second branch of the outer [catch] is never taken: the text for
    a CORS error is the verdict only when it is the message of the error
    itself. *)
Lemma catch_message_CORS (e : thrown) :
  ModelSettingsDialog.catch_message e = ModelSettingsDialog.CORS_or_network ->
  e = Error ModelSettingsDialog.CORS_or_network.
Proof.
  destruct e as [text|]; cbn [ModelSettingsDialog.catch_message]; [|discriminate].
  destruct (includes ModelSettingsDialog.fetch_word text) eqn:Hfetch; [discriminate|].
  destruct (includes ModelSettingsDialog.Failed_to_fetch text) eqn:Hfailed.
  - rewrite (Failed_to_fetch_includes_fetch text Hfailed) in Hfetch. discriminate.
  - intros ->. reflexivity.
Qed.

Lemma URL_error_None (text : jsstring) :
  ModelSettingsDialog.URL_error text = None ->
  URL_protocol text = inr ModelSettingsDialog.http
  \/ URL_protocol text = inr ModelSettingsDialog.https.
Proof.
  unfold ModelSettingsDialog.URL_error.
  destruct (URL_protocol text) as [e|protocol]; [discriminate|].
  destruct (JS.eqb protocol ModelSettingsDialog.http) eqn:Hhttp.
  - apply eqb_eq in Hhttp. subst protocol. left. reflexivity.
  - destruct (JS.eqb protocol ModelSettingsDialog.https) eqn:Hhttps; [|discriminate].
    apply eqb_eq in Hhttps. subst protocol. right. reflexivity.
Qed.

(** The outer [try] block, case by case. *)
Lemma try_block_cases (fetch : ModelSettingsDialog.TestRequest -> Fetched)
      (settings : ModelSettings) (w : ModelSettingsDialog.World) :
  let sent := ModelSettingsDialog.test_request settings in
  let result := ModelSettingsDialog.try_block fetch settings w in
  let completion := fst (fst result) in
  let w2 := snd (fst result) in
  let requests := snd result in
  ModelSettingsDialog.localSettings (ModelSettingsDialog.state w2)
  = ModelSettingsDialog.localSettings (ModelSettingsDialog.state w)
  /\ ModelSettingsDialog.isTesting (ModelSettingsDialog.state w2)
     = ModelSettingsDialog.isTesting (ModelSettingsDialog.state w)
  /\ (requests = []
      \/ requests = [sent] /\ ModelSettingsDialog.URL_error (baseUrl settings) = None)
  /\ ((exists e, completion = Some e
                 /\ ModelSettingsDialog.testResult (ModelSettingsDialog.state w2)
                    = ModelSettingsDialog.testResult (ModelSettingsDialog.state w))
      \/ (completion = None
          /\ exists verdict,
               ModelSettingsDialog.testResult (ModelSettingsDialog.state w2)
               = Some verdict
               /\ (ModelSettingsDialog.success verdict = true ->
                   exists response data,
                     fetch sent = Resolved response
                     /\ ok response = true
                     /\ JSON_parse (text response) = Some data
                     /\ ModelSettingsDialog.answered data = inr true
                     /\ ModelSettingsDialog.message verdict
                        = ModelSettingsDialog.test_succeeded ++ name settings
                          ++ ModelSettingsDialog.elapsed_label
                          ++ JS.of_Z (Date_now (S (ModelSettingsDialog.clock w))
                                      - Date_now (ModelSettingsDialog.clock w))
                          ++ ModelSettingsDialog.ms))).
Proof.
  intros sent result completion w2 requests.
  subst completion w2 requests result sent.
  unfold ModelSettingsDialog.try_block. cbv zeta.
  destruct (ModelSettingsDialog.URL_error (baseUrl settings)) as [urlError|] eqn:Hurl.
  { cbn. split; [reflexivity|]. split; [reflexivity|]. split; [left; reflexivity|].
    right. split; [reflexivity|]. eexists. split; [reflexivity|]. discriminate. }
  destruct (fetch (ModelSettingsDialog.test_request settings)) as [e|response] eqn:Hfetch.
  { cbn. split; [reflexivity|]. split; [reflexivity|].
    split; [right; split; reflexivity|]. left. exists e. split; reflexivity. }
  destruct (ok response) eqn:Hok; cbn [negb].
  2:{ cbn. split; [reflexivity|]. split; [reflexivity|].
      split; [right; split; reflexivity|].
      right. split; [reflexivity|]. eexists. split; [reflexivity|]. discriminate. }
  destruct (JSON_parse (text response)) as [data|] eqn:Hjson.
  2:{ cbn. split; [reflexivity|]. split; [reflexivity|].
      split; [right; split; reflexivity|]. left. eexists. split; reflexivity. }
  destruct (ModelSettingsDialog.answered data) as [e|[|]] eqn:Hanswered.
  - cbn. split; [reflexivity|]. split; [reflexivity|].
    split; [right; split; reflexivity|]. left. exists e. split; reflexivity.
  - cbn. split; [reflexivity|]. split; [reflexivity|].
    split; [right; split; reflexivity|].
    right. split; [reflexivity|]. eexists. split; [reflexivity|].
    intros _. exists response, data. repeat split; assumption.
  - cbn. split; [reflexivity|]. split; [reflexivity|].
    split; [right; split; reflexivity|].
    right. split; [reflexivity|]. eexists. split; [reflexivity|]. discriminate.
Qed.

End Test.

(** The test sends at most one request, and none unless the three fields
    are filled in and the base URL parses as a URL whose protocol is
    [http:] or [https:]; the request is the canned one, to the base URL
    followed by [/chat/completions], with the key of the dialog. *)
Theorem test_sends_only_to_http_endpoints :
  forall (RT : Runtime) (B : Browser RT)
         (fetch : ModelSettingsDialog.TestRequest -> Fetched)
         (w : ModelSettingsDialog.World),
    let settings := ModelSettingsDialog.localSettings (ModelSettingsDialog.state w) in
    snd (ModelSettingsDialog.handleTest fetch w) = []
    \/ (snd (ModelSettingsDialog.handleTest fetch w)
        = [{| ModelSettingsDialog.request :=
                {| url := baseUrl settings ++ js "/chat/completions";
                   method := js "POST";
                   ContentType := js "application/json";
                   Authorization := js "Bearer " ++ apiKey settings;
                   body := {| model := name settings;
                              body_messages := [(user, js "你好，这是一个连接测试")];
                              stream := false |} |};
              ModelSettingsDialog.max_tokens := 10 |}]
        /\ name settings <> []
        /\ baseUrl settings <> []
        /\ apiKey settings <> []
        /\ (URL_protocol (baseUrl settings) = inr (js "http:")
            \/ URL_protocol (baseUrl settings) = inr (js "https:"))).
Proof.
  intros RT B fetch w settings. subst settings.
  unfold ModelSettingsDialog.handleTest. cbv zeta.
  set (settings := ModelSettingsDialog.localSettings (ModelSettingsDialog.state w)).
  destruct (JS.truthy (name settings)) eqn:Hname; [|left; reflexivity].
  destruct (JS.truthy (baseUrl settings)) eqn:Hbase; [|left; reflexivity].
  destruct (JS.truthy (apiKey settings)) eqn:Hkey; [|left; reflexivity].
  cbn [negb orb].
  pose proof (try_block_cases fetch settings
                (ModelSettingsDialog.on_state (ModelSettingsDialog.setTestResult None)
                   (ModelSettingsDialog.on_state (ModelSettingsDialog.setIsTesting true) w)))
    as Hcases.
  cbv zeta in Hcases. destruct Hcases as (_ & _ & Hrequests & _).
  destruct (ModelSettingsDialog.try_block fetch settings _) as [[completion w2] requests].
  cbn [fst snd] in *. destruct Hrequests as [->|[-> Hurl]]; [left; reflexivity|].
  right. split; [reflexivity|].
  split; [intros H; rewrite H in Hname; discriminate|].
  split; [intros H; rewrite H in Hbase; discriminate|].
  split; [intros H; rewrite H in Hkey; discriminate|].
  exact (URL_error_None _ Hurl).
Qed.

(** Every test ends with a verdict on screen, whatever the network and
    the server do; the fields of the dialog are left as they are, and
    the test is no longer running (a test refused for an empty field
    sends nothing and leaves that flag as it was). *)
Theorem every_test_ends_with_a_verdict :
  forall (RT : Runtime) (B : Browser RT)
         (fetch : ModelSettingsDialog.TestRequest -> Fetched)
         (w : ModelSettingsDialog.World),
    let after := ModelSettingsDialog.state (fst (ModelSettingsDialog.handleTest fetch w)) in
    (exists verdict, ModelSettingsDialog.testResult after = Some verdict)
    /\ ModelSettingsDialog.localSettings after
       = ModelSettingsDialog.localSettings (ModelSettingsDialog.state w)
    /\ (ModelSettingsDialog.isTesting after = false
        \/ ModelSettingsDialog.isTesting after
           = ModelSettingsDialog.isTesting (ModelSettingsDialog.state w)
           /\ snd (ModelSettingsDialog.handleTest fetch w) = []).
Proof.
  intros RT B fetch w after. subst after.
  unfold ModelSettingsDialog.handleTest. cbv zeta.
  set (settings := ModelSettingsDialog.localSettings (ModelSettingsDialog.state w)).
  destruct (negb (JS.truthy (name settings)) || negb (JS.truthy (baseUrl settings))
            || negb (JS.truthy (apiKey settings))).
  { cbn. split; [eexists; reflexivity|]. split; [reflexivity|].
    right. split; reflexivity. }
  pose proof (try_block_cases fetch settings
                (ModelSettingsDialog.on_state (ModelSettingsDialog.setTestResult None)
                   (ModelSettingsDialog.on_state (ModelSettingsDialog.setIsTesting true) w)))
    as Hcases.
  cbv zeta in Hcases. destruct Hcases as (Hsettings & _ & _ & Hverdict).
  destruct (ModelSettingsDialog.try_block fetch settings _) as [[completion w2] requests].
  cbn [fst snd] in *.
  destruct Hverdict as [(e & -> & _)|(-> & verdict & Hverdict & _)].
  - cbn. split; [eexists; reflexivity|]. split; [exact Hsettings|]. left. reflexivity.
  - cbn. split; [exists verdict; exact Hverdict|]. split; [exact Hsettings|].
    left. reflexivity.
Qed.

(** The test reports success only when the request was answered with a
    success status and a body that parses as JSON and in which
    [choices[0].message] is truthy; the message then names the model of
    the dialog and the time between the two readings of the clock. *)
Theorem test_succeeds_only_on_an_answer :
  forall (RT : Runtime) (B : Browser RT)
         (fetch : ModelSettingsDialog.TestRequest -> Fetched)
         (w : ModelSettingsDialog.World) (verdict : ModelSettingsDialog.TestResult),
    let settings := ModelSettingsDialog.localSettings (ModelSettingsDialog.state w) in
    ModelSettingsDialog.testResult
      (ModelSettingsDialog.state (fst (ModelSettingsDialog.handleTest fetch w)))
    = Some verdict ->
    ModelSettingsDialog.success verdict = true ->
    exists (response : Response) (data : jsval number),
      fetch (ModelSettingsDialog.test_request settings) = Resolved response
      /\ ok response = true
      /\ JSON_parse (text response) = Some data
      /\ Value.truthy
           (ModelSettingsDialog.property
              (ModelSettingsDialog.property
                 (ModelSettingsDialog.property data (js "choices")) (js "0"))
              (js "message")) = true
      /\ ModelSettingsDialog.message verdict
         = js "连接测试成功！模型: " ++ name settings ++ js ", 耗时: "
           ++ JS.of_Z (Date_now (S (ModelSettingsDialog.clock w))
                       - Date_now (ModelSettingsDialog.clock w))
           ++ js "ms".
Proof.
  intros RT B fetch w verdict settings. subst settings.
  unfold ModelSettingsDialog.handleTest. cbv zeta.
  set (settings := ModelSettingsDialog.localSettings (ModelSettingsDialog.state w)).
  destruct (negb (JS.truthy (name settings)) || negb (JS.truthy (baseUrl settings))
            || negb (JS.truthy (apiKey settings))).
  { cbn. intros H Hsuccess. injection H as <-. discriminate Hsuccess. }
  pose proof (try_block_cases fetch settings
                (ModelSettingsDialog.on_state (ModelSettingsDialog.setTestResult None)
                   (ModelSettingsDialog.on_state (ModelSettingsDialog.setIsTesting true) w)))
    as Hcases.
  cbv zeta in Hcases. destruct Hcases as (_ & _ & _ & Hverdict).
  destruct (ModelSettingsDialog.try_block fetch settings _) as [[completion w2] requests].
  cbn [fst snd] in *.
  destruct Hverdict as [(e & -> & _)|(-> & verdict' & Hverdict & Hsuccess)].
  - cbn. intros H Hsuccess. injection H as <-. discriminate Hsuccess.
  - cbn. rewrite Hverdict. intros H Htrue. injection H as ->.
    destruct (Hsuccess Htrue) as (response & data & Hfetch & Hok & Hjson & Hanswered & Hmessage).
    exists response, data. do 3 (split; [assumption|]). split; [|exact Hmessage].
    unfold ModelSettingsDialog.answered, ModelSettingsDialog.read in Hanswered.
    destruct (Value.nullish data); [discriminate|].
    destruct (Value.truthy (ModelSettingsDialog.property data
                              ModelSettingsDialog.choices_name)); [|discriminate].
    cbn [negb] in Hanswered.
    destruct (ModelSettingsDialog.length_positive _) as [e|[|]]; try discriminate.
    destruct (Value.nullish _); [discriminate|].
    injection Hanswered as Hanswered. exact Hanswered.
Qed.

(** [test_succeeds_only_on_an_answer] at the example settings and a
    server that answers with a completion. *)
Lemma test_of_the_example_settings :
  exists (response : Response) (data : jsval (@number Run.RT)),
    TestRuns.answering (ModelSettingsDialog.test_request Run.settings)
    = Resolved response
    /\ ok response = true
    /\ @JSON_parse Run.RT (text response) = Some data
    /\ @Value.truthy Run.RT
         (@ModelSettingsDialog.property Run.RT
            (@ModelSettingsDialog.property Run.RT
               (@ModelSettingsDialog.property Run.RT data (js "choices")) (js "0"))
            (js "message")) = true.
Proof.
  assert (Hverdict :
            ModelSettingsDialog.testResult
              (ModelSettingsDialog.state
                 (fst (@ModelSettingsDialog.handleTest Run.RT TestRuns.B TestRuns.answering
                         (TestRuns.opened Run.settings))))
            = Some {| ModelSettingsDialog.success := true;
                      ModelSettingsDialog.message :=
                        js "连接测试成功！模型: glm-4-flash, 耗时: 1ms" |})
    by (vm_compute; reflexivity).
  destruct (test_succeeds_only_on_an_answer Run.RT TestRuns.B TestRuns.answering
              (TestRuns.opened Run.settings) _ Hverdict eq_refl)
    as (response & data & Hfetch & Hok & Hjson & Hanswer & _).
  exists response, data. repeat split; assumption.
Defined.

(** A test with the key missing names the key and sends nothing; a test
    of a base URL that is a file is refused for its protocol and sends
    nothing. *)
Example test_without_key :
  @ModelSettingsDialog.handleTest Run.RT TestRuns.B TestRuns.answering
    (TestRuns.opened TestRuns.key_missing)
  = (ModelSettingsDialog.on_state
       (ModelSettingsDialog.setTestResult
          (Some (ModelSettingsDialog.failed (js "请填写: API Key"))))
       (TestRuns.opened TestRuns.key_missing),
     []).
Proof. vm_compute. reflexivity. Qed.

Example test_of_a_file_URL :
  let result :=
    @ModelSettingsDialog.handleTest Run.RT TestRuns.B TestRuns.answering
      (TestRuns.opened TestRuns.file_settings) in
  snd result = []
  /\ ModelSettingsDialog.testResult (ModelSettingsDialog.state (fst result))
     = Some (ModelSettingsDialog.failed (js "API Base格式错误: 协议必须为http或https")).
Proof. vm_compute. split; reflexivity. Qed.

(** A request that the browser refuses with [Failed to fetch] is
    reported with the text for a failed connection, not with the one for
    a CORS error: that message includes [fetch], which is tested first.
    (No error is reported with the text for a CORS error, unless that
    text is its own message.) *)
Theorem failed_fetch_is_not_reported_as_CORS :
  forall (RT : Runtime) (B : Browser RT)
         (fetch : ModelSettingsDialog.TestRequest -> Fetched)
         (w : ModelSettingsDialog.World) (text : jsstring),
    let settings := ModelSettingsDialog.localSettings (ModelSettingsDialog.state w) in
    name settings <> [] ->
    baseUrl settings <> [] ->
    apiKey settings <> [] ->
    ModelSettingsDialog.URL_error (baseUrl settings) = None ->
    fetch (ModelSettingsDialog.test_request settings) = Rejected (Error text) ->
    includes (js "Failed to fetch") text = true ->
    let after := ModelSettingsDialog.state (fst (ModelSettingsDialog.handleTest fetch w)) in
    ModelSettingsDialog.testResult after
    = Some {| ModelSettingsDialog.success := false;
              ModelSettingsDialog.message :=
                js "网络连接失败，请检查API Base URL是否正确且可访问" |}
    /\ ModelSettingsDialog.isTesting after = false.
Proof.
  intros RT B fetch w text settings Hname Hbase Hkey Hurl Hfetch Hfailed after.
  subst after. unfold ModelSettingsDialog.handleTest. cbv zeta. fold settings.
  apply truthy_true in Hname, Hbase, Hkey. rewrite Hname, Hbase, Hkey.
  cbn [negb orb]. unfold ModelSettingsDialog.try_block. cbv zeta.
  rewrite Hurl, Hfetch. cbn [fst snd].
  cbn [ModelSettingsDialog.catch_message].
  rewrite (Failed_to_fetch_includes_fetch text Hfailed).
  split; reflexivity.
Qed.

(** [failed_fetch_is_not_reported_as_CORS] at the example settings and
    a network that refuses the request. *)
Lemma unreachable_endpoint_verdict :
  ModelSettingsDialog.testResult
    (ModelSettingsDialog.state
       (fst (@ModelSettingsDialog.handleTest Run.RT TestRuns.B TestRuns.unreachable
               (TestRuns.opened Run.settings))))
  = Some {| ModelSettingsDialog.success := false;
            ModelSettingsDialog.message :=
              js "网络连接失败，请检查API Base URL是否正确且可访问" |}.
Proof.
  assert (Hname : name Run.settings <> []) by (vm_compute; discriminate).
  assert (Hbase : baseUrl Run.settings <> []) by (vm_compute; discriminate).
  assert (Hkey : apiKey Run.settings <> []) by (vm_compute; discriminate).
  assert (Hurl : @ModelSettingsDialog.URL_error Run.RT TestRuns.B (baseUrl Run.settings)
                 = None) by (vm_compute; reflexivity).
  assert (Hfailed : includes (js "Failed to fetch") ModelSettingsDialog.Failed_to_fetch
                    = true) by (vm_compute; reflexivity).
  exact (proj1 (failed_fetch_is_not_reported_as_CORS Run.RT TestRuns.B TestRuns.unreachable
                  (TestRuns.opened Run.settings) ModelSettingsDialog.Failed_to_fetch
                  Hname Hbase Hkey Hurl eq_refl Hfailed)).
Defined.

Lemma handleTest_requests {RT : Runtime} {B : Browser RT}
      (fetch : ModelSettingsDialog.TestRequest -> Fetched)
      (w : ModelSettingsDialog.World) :
  snd (ModelSettingsDialog.handleTest fetch w) = []
  \/ snd (ModelSettingsDialog.handleTest fetch w)
     = [ModelSettingsDialog.test_request
          (ModelSettingsDialog.localSettings (ModelSettingsDialog.state w))].
Proof.
  unfold ModelSettingsDialog.handleTest. cbv zeta.
  set (settings := ModelSettingsDialog.localSettings (ModelSettingsDialog.state w)).
  destruct (negb (JS.truthy (name settings)) || negb (JS.truthy (baseUrl settings))
            || negb (JS.truthy (apiKey settings))); [left; reflexivity|].
  pose proof (try_block_cases fetch settings
                (ModelSettingsDialog.on_state (ModelSettingsDialog.setTestResult None)
                   (ModelSettingsDialog.on_state (ModelSettingsDialog.setIsTesting true) w)))
    as Hcases.
  cbv zeta in Hcases. destruct Hcases as (_ & _ & Hrequests & _).
  destruct (ModelSettingsDialog.try_block fetch settings _) as [[completion w2] requests].
  cbn [fst snd] in *. destruct Hrequests as [->|[-> _]]; [left | right]; reflexivity.
Qed.

Lemma handleSend_start_request {RT : Runtime} (w w1 : ChatInterface.World)
      (request : Request) (p : ChatInterface.Pending) :
  ChatInterface.handleSend_start w = ChatInterface.Awaiting request p w1 ->
  let settings := ChatInterface.modelSettings (ChatInterface.state w) in
  url request = chat_completions (baseUrl settings)
  /\ method request = POST
  /\ ContentType request = application_json
  /\ Authorization request = Bearer (apiKey settings)
  /\ model (body request) = name settings
  /\ stream (body request) = true.
Proof.
  unfold ChatInterface.handleSend_start. cbv zeta.
  destruct (negb (JS.truthy (JS.trim (ChatInterface.input (ChatInterface.state w))))
            || ChatInterface.isLoading (ChatInterface.state w)); [discriminate|].
  destruct (JS.truthy (name (ChatInterface.modelSettings (ChatInterface.state w))))
    eqn:Hname; [|discriminate].
  destruct (negb true
            || negb (JS.truthy (baseUrl (ChatInterface.modelSettings (ChatInterface.state w))))
            || negb (JS.truthy (apiKey (ChatInterface.modelSettings (ChatInterface.state w)))));
    [discriminate|].
  destruct (ChatInterface.currentConversationId (ChatInterface.state w))
    as [[|c id']|]; intros H; injection H as <- _ _;
    cbn [url method ContentType Authorization body model stream];
    unfold JS.or_else; rewrite Hname; repeat split.
Qed.

(** The test addresses what a send addresses: when the dialog holds the
    settings of the session, the request of the test and the request of
    a send have the same URL, method, headers (the key among them) and
    model; the test asks for a whole answer where the send asks for a
    stream. *)
Theorem test_addresses_the_endpoint_of_a_send :
  forall (RT : Runtime) (B : Browser RT)
         (fetch : ModelSettingsDialog.TestRequest -> Fetched)
         (dialog : ModelSettingsDialog.World)
         (w w1 : ChatInterface.World) (request : Request) (p : ChatInterface.Pending)
         (sent : ModelSettingsDialog.TestRequest),
    ModelSettingsDialog.localSettings (ModelSettingsDialog.state dialog)
    = ChatInterface.modelSettings (ChatInterface.state w) ->
    ChatInterface.handleSend_start w = ChatInterface.Awaiting request p w1 ->
    In sent (snd (ModelSettingsDialog.handleTest fetch dialog)) ->
    let tested := ModelSettingsDialog.request sent in
    url tested = url request
    /\ method tested = method request
    /\ ContentType tested = ContentType request
    /\ Authorization tested = Authorization request
    /\ model (body tested) = model (body request)
    /\ stream (body tested) = false
    /\ stream (body request) = true.
Proof.
  intros RT B fetch dialog w w1 request p sent Hsettings Hstart Hsent tested.
  subst tested.
  destruct (handleSend_start_request w w1 request p Hstart)
    as (Hurl & Hmethod & Htype & Hauth & Hmodel & Hstream).
  destruct (handleTest_requests fetch dialog) as [Hnone|Hone].
  - rewrite Hnone in Hsent. destruct Hsent.
  - rewrite Hone in Hsent. destruct Hsent as [<-|[]].
    rewrite Hsettings, Hurl, Hmethod, Htype, Hauth, Hmodel, Hstream.
    repeat split.
Qed.

(** [test_addresses_the_endpoint_of_a_send] at the example settings: the
    test and the send of [hello] both go to [https://x/v1/chat/completions]
    with the key [k]. *)
Lemma test_and_send_of_the_example :
  exists (request : Request) (p : ChatInterface.Pending) (w1 : ChatInterface.World),
    @ChatInterface.handleSend_start Run.RT (Run.typed "hello" Run.settings)
    = ChatInterface.Awaiting request p w1
    /\ url request = js "https://x/v1/chat/completions"
    /\ Authorization request = js "Bearer k".
Proof.
  assert (Hsent : In (ModelSettingsDialog.test_request Run.settings)
                     (snd (@ModelSettingsDialog.handleTest Run.RT TestRuns.B TestRuns.answering
                             (TestRuns.opened Run.settings))))
    by (left; vm_compute; reflexivity).
  pose proof (fun request p w1 Hstart =>
                test_addresses_the_endpoint_of_a_send Run.RT TestRuns.B TestRuns.answering
                  (TestRuns.opened Run.settings) (Run.typed "hello" Run.settings) w1
                  request p _ eq_refl Hstart Hsent) as H.
  specialize (H _ _ _ eq_refl). destruct H as (Hurl & _ & _ & Hauth & _).
  do 3 eexists. split; [reflexivity|].
  rewrite <- Hurl, <- Hauth. split; vm_compute; reflexivity.
Defined.

(** ** A conversation selected while an answer streams *)

Section SelectedMeanwhile.
Context {RT : Runtime}.

Lemma selectConversation_current (other : jsstring) (s : ChatInterface.State) :
  ChatInterface.currentConversationId (ChatInterface.selectConversation other s)
  = Some other
  /\ ChatInterface.isLoading (ChatInterface.selectConversation other s)
     = ChatInterface.isLoading s
  /\ ChatInterface.modelSettings (ChatInterface.selectConversation other s)
     = ChatInterface.modelSettings s.
Proof.
  unfold ChatInterface.selectConversation. cbv zeta.
  destruct (find _ (ChatInterface.conversations s)); repeat split.
Qed.

Lemma handleSend_start_filled (w w1 : ChatInterface.World)
      (request : Request) (p : ChatInterface.Pending) :
  ChatInterface.handleSend_start w = ChatInterface.Awaiting request p w1 ->
  name (ChatInterface.modelSettings (ChatInterface.state w)) <> []
  /\ baseUrl (ChatInterface.modelSettings (ChatInterface.state w)) <> []
  /\ apiKey (ChatInterface.modelSettings (ChatInterface.state w)) <> [].
Proof.
  unfold ChatInterface.handleSend_start. cbv zeta.
  destruct (negb (JS.truthy (JS.trim (ChatInterface.input (ChatInterface.state w))))
            || ChatInterface.isLoading (ChatInterface.state w)); [discriminate|].
  destruct (name (ChatInterface.modelSettings (ChatInterface.state w))); [discriminate|].
  destruct (baseUrl (ChatInterface.modelSettings (ChatInterface.state w))); [discriminate|].
  destruct (apiKey (ChatInterface.modelSettings (ChatInterface.state w))); [discriminate|].
  intros _. repeat split; discriminate.
Qed.

(** What a send leaves when another conversation was selected before its
    response arrived, and the response brings at least one delta. *)
Lemma selected_meanwhile (w w1 : ChatInterface.World) (request : Request)
      (p : ChatInterface.Pending) (r : Response) (values : list (list byte))
      (other : jsstring) :
  ChatInterface.handleSend_start w = ChatInterface.Awaiting request p w1 ->
  ok r = true ->
  response_body r = Some {| chunks := values; failure := None |} ->
  deltas (complete_lines (List.concat values)) <> [] ->
  let selected := ChatInterface.on_state (ChatInterface.selectConversation other) w1 in
  let after := ChatInterface.handleSend_finish p (Resolved r) selected in
  ChatInterface.currentConversationId (ChatInterface.state after) = Some other
  /\ ChatInterface.messages (ChatInterface.state after)
     = ChatInterface.messages (ChatInterface.state w)
         ++ [ChatInterface.userMessage p;
             Message.mk assistant
               (List.concat (deltas (complete_lines (List.concat values))))
               (Message.timestamp (ChatInterface.assistantMessage p))]
  /\ ChatInterface.isLoading (ChatInterface.state after) = false
  /\ ChatInterface.modelSettings (ChatInterface.state after)
     = ChatInterface.modelSettings (ChatInterface.state w)
  /\ Forall (fun conv =>
               Conversation.id conv = ChatInterface.conversationId p ->
               Conversation.messages conv
               = ChatInterface.messages (ChatInterface.state after))
            (ChatInterface.conversations (ChatInterface.state after)).
Proof.
  intros Hstart Hok Hbody Hsome selected after. subst after.
  destruct (handleSend_start_Awaiting w w1 request p Hstart)
    as (Hclosure & _ & Hrole & _ & _ & _ & Hsettings & _).
  cbv zeta in Hclosure, Hrole, Hsettings.
  destruct (selectConversation_current other (ChatInterface.state w1))
    as (Hcur & _ & Hsel).
  change (ChatInterface.selectConversation other (ChatInterface.state w1))
    with (ChatInterface.state selected) in Hcur, Hsel.
  clearbody selected.
  rewrite handleSend_finish_normal
    by (rewrite (try_block_streaming p r _ selected Hok Hbody); reflexivity).
  unfold received_lines. rewrite Hok, Hbody. cbn [chunks]. state_simpl.
  remember (deltas (complete_lines (List.concat values))) as ds eqn:Hds.
  pose proof (run_deltas_frame p ds [] selected) as Hframe. cbv zeta in Hframe.
  destruct Hframe as (Hcur' & _ & _ & _ & Hsettings' & _).
  pose proof (run_deltas_messages p ds [] selected Hsome) as Hmessages.
  pose proof (run_deltas_entries p ds [] selected Hsome) as Hentries.
  split; [exact (eq_trans Hcur' Hcur)|].
  split.
  { refine (eq_trans Hmessages _). unfold ChatInterface.currentMessages.
    rewrite Hclosure, Hrole, <- app_assoc. reflexivity. }
  split; [reflexivity|].
  split; [exact (eq_trans Hsettings' (eq_trans Hsel Hsettings))|].
  eapply Forall_impl; [|exact Hentries].
  intros conv H Hid. exact (proj1 (H Hid)).
Qed.

End SelectedMeanwhile.

(** Selecting another conversation is not held back while a send is in
    flight.  When it is done before the response arrives and the
    response brings at least one delta, the selected conversation stays
    the active one, but the screen shows the messages of the sending
    conversation with the answer, which are also what the store holds
    for the sending conversation. *)
Theorem selection_while_streaming_is_overwritten :
  forall (RT : Runtime) (w w1 : ChatInterface.World) (request : Request)
         (p : ChatInterface.Pending) (r : Response) (values : list (list byte))
         (other : jsstring),
    ChatInterface.handleSend_start w = ChatInterface.Awaiting request p w1 ->
    ok r = true ->
    response_body r = Some {| chunks := values; failure := None |} ->
    deltas (complete_lines (List.concat values)) <> [] ->
    let selected := ChatInterface.on_state (ChatInterface.selectConversation other) w1 in
    let after := ChatInterface.state (ChatInterface.handleSend_finish p (Resolved r) selected) in
    ChatInterface.currentConversationId after = Some other
    /\ ChatInterface.messages after
       = ChatInterface.messages (ChatInterface.state w)
           ++ [ChatInterface.userMessage p;
               Message.mk assistant
                 (List.concat (deltas (complete_lines (List.concat values))))
                 (Message.timestamp (ChatInterface.assistantMessage p))]
    /\ ChatInterface.isLoading after = false
    /\ Forall (fun conv =>
                 Conversation.id conv = ChatInterface.conversationId p ->
                 Conversation.messages conv = ChatInterface.messages after)
              (ChatInterface.conversations after).
Proof.
  intros RT w w1 request p r values other Hstart Hok Hbody Hsome selected after.
  destruct (selected_meanwhile w w1 request p r values other Hstart Hok Hbody Hsome)
    as (Hcur & Hmessages & Hloading & _ & Hentries).
  subst after selected. repeat split; assumption.
Qed.

(** [selection_while_streaming_is_overwritten] at a send of [again] in
    the older conversation, during which the recent one is selected and
    which is answered by [Hi] and [ there]. *)
Lemma recent_selected_while_older_streams :
  exists (request : Request) (p : ChatInterface.Pending) (w1 : ChatInterface.World),
    @ChatInterface.handleSend_start Run.RT Run.older_selected
    = ChatInterface.Awaiting request p w1
    /\ let after :=
         ChatInterface.state
           (@ChatInterface.handleSend_finish Run.RT p
              (Resolved (streaming Run.Hi_there None))
              (ChatInterface.on_state
                 (ChatInterface.selectConversation (Conversation.id Run.recent)) w1)) in
       ChatInterface.currentConversationId after = Some (js "1650000000000")
       /\ map Message.content (ChatInterface.messages after)
          = [js "first"; js "again"; js "Hi there"].
Proof.
  pose proof (fun request p w1 Hstart =>
                selection_while_streaming_is_overwritten Run.RT Run.older_selected w1
                  request p (streaming Run.Hi_there None) Run.Hi_there
                  (Conversation.id Run.recent)
                  Hstart eq_refl eq_refl ltac:(vm_compute; discriminate)) as H.
  specialize (H _ _ _ eq_refl). cbv zeta in H.
  destruct H as (Hcur & Hmessages & _).
  do 3 eexists. split; [reflexivity|]. cbv zeta.
  split; [rewrite Hcur; reflexivity|].
  rewrite Hmessages. vm_compute. reflexivity.
Defined.

(** After that, the next send goes out under the selected conversation
    with the messages of the other one: its request carries the history
    and the answer of the conversation that was sending, followed by the
    new text, and the messages it will store under the selected id start
    with them. *)
Theorem send_after_selection_mixes_conversations :
  forall (RT : Runtime) (w w1 : ChatInterface.World) (request : Request)
         (p : ChatInterface.Pending) (r : Response) (values : list (list byte))
         (c : code_unit) (id' text : jsstring),
    ChatInterface.handleSend_start w = ChatInterface.Awaiting request p w1 ->
    ok r = true ->
    response_body r = Some {| chunks := values; failure := None |} ->
    deltas (complete_lines (List.concat values)) <> [] ->
    JS.trim text <> [] ->
    let selected :=
      ChatInterface.on_state (ChatInterface.selectConversation (c :: id')) w1 in
    let after := ChatInterface.handleSend_finish p (Resolved r) selected in
    let shown :=
      ChatInterface.messages (ChatInterface.state w)
        ++ [ChatInterface.userMessage p;
            Message.mk assistant
              (List.concat (deltas (complete_lines (List.concat values))))
              (Message.timestamp (ChatInterface.assistantMessage p))] in
    exists (request' : Request) (p' : ChatInterface.Pending) (w' : ChatInterface.World),
      ChatInterface.handleSend_start
        (ChatInterface.on_state (ChatInterface.setInput text) after)
      = ChatInterface.Awaiting request' p' w'
      /\ ChatInterface.conversationId p' = c :: id'
      /\ ChatInterface.closure_messages p' = shown
      /\ body_messages (body request')
         = map (fun m => (Message.role m, Message.content m)) shown
             ++ [(user, JS.trim text)].
Proof.
  intros RT w w1 request p r values c id' text Hstart Hok Hbody Hsome Htext
         selected after shown.
  destruct (selected_meanwhile w w1 request p r values (c :: id') Hstart Hok Hbody Hsome)
    as (Hcur & Hmessages & Hloading & Hsettings & _).
  fold selected after in Hcur, Hmessages, Hloading, Hsettings. fold shown in Hmessages.
  destruct (handleSend_start_filled w w1 request p Hstart) as (Hname & Hbase & Hkey).
  rewrite <- Hsettings in Hname, Hbase, Hkey.
  pose proof (handleSend_start_active
                (ChatInterface.on_state (ChatInterface.setInput text) after) c id')
    as Hnext.
  cbv zeta in Hnext. unfold ChatInterface.on_state in Hnext.
  cbn [ChatInterface.state ChatInterface.clock
       ChatInterface.setInput ChatInterface.input ChatInterface.isLoading
       ChatInterface.modelSettings ChatInterface.currentConversationId
       ChatInterface.messages ChatInterface.conversations] in Hnext.
  specialize (Hnext Htext Hloading Hname Hbase Hkey Hcur).
  unfold ChatInterface.on_state. do 3 eexists. split; [exact Hnext|].
  cbn [ChatInterface.conversationId ChatInterface.closure_messages body body_messages].
  rewrite Hmessages. split; [reflexivity|]. split; [reflexivity|].
  rewrite map_app. reflexivity.
Qed.

(** [send_after_selection_mixes_conversations] after the recent
    conversation was selected while the older one was answered: the send
    of [more] carries the messages of the older conversation. *)
Lemma more_is_sent_with_the_older_messages :
  exists (request : Request) (p : ChatInterface.Pending) (w1 : ChatInterface.World),
    @ChatInterface.handleSend_start Run.RT Run.older_selected
    = ChatInterface.Awaiting request p w1
    /\ exists (request' : Request) (p' : ChatInterface.Pending) (w' : ChatInterface.World),
         @ChatInterface.handleSend_start Run.RT
           (ChatInterface.on_state (ChatInterface.setInput (js "more"))
              (@ChatInterface.handleSend_finish Run.RT p
                 (Resolved (streaming Run.Hi_there None))
                 (ChatInterface.on_state
                    (ChatInterface.selectConversation (Conversation.id Run.recent)) w1)))
         = ChatInterface.Awaiting request' p' w'
         /\ ChatInterface.conversationId p' = Conversation.id Run.recent
         /\ body_messages (body request')
            = [(user, js "first"); (user, js "again"); (assistant, js "Hi there");
               (user, js "more")].
Proof.
  pose proof (fun request p w1 Hstart =>
                send_after_selection_mixes_conversations Run.RT Run.older_selected w1
                  request p (streaming Run.Hi_there None) Run.Hi_there
                  49 (List.tl (Conversation.id Run.recent)) (js "more")
                  Hstart eq_refl eq_refl ltac:(vm_compute; discriminate)
                  ltac:(vm_compute; discriminate)) as H.
  specialize (H _ _ _ eq_refl). cbv zeta in H.
  destruct H as (request' & p' & w' & Hnext & Hid & _ & Hbody).
  do 3 eexists. split; [reflexivity|].
  exists request', p', w'. split; [exact Hnext|]. split; [exact Hid|].
  rewrite Hbody. vm_compute. reflexivity.
Defined.

(** ** The send button *)

(** With no conversation active the send button is disabled, whatever
    is typed, while the Enter key sends. *)
Lemma no_active_conversation_disables_the_button {RT : Runtime}
      (fetch : Request -> Fetched) (w : ChatInterface.World) :
  ChatInterface.currentConversationId (ChatInterface.state w) = None ->
  send_disabled (ChatInterface.state w) = true
  /\ handleKeyPress (js "Enter") false fetch w = ChatInterface.handleSend fetch w.
Proof.
  intros Hnone. unfold send_disabled. rewrite Hnone, orb_true_r.
  split; reflexivity.
Qed.

(** A click on the send button never starts a conversation: where the
    button is enabled a conversation is active, and the send, whatever
    comes back, leaves the store with the entries it had, in their
    order.  (The first message of a conversation can be sent with the
    Enter key only.) *)
Theorem send_button_never_starts_a_conversation :
  forall (RT : Runtime) (fetch : Request -> Fetched) (w : ChatInterface.World),
    send_disabled (ChatInterface.state w) = false ->
    map Conversation.id
        (ChatInterface.conversations
           (ChatInterface.state (fst (ChatInterface.handleSend fetch w))))
    = map Conversation.id (ChatInterface.conversations (ChatInterface.state w)).
Proof.
  intros RT fetch w Henabled.
  unfold send_disabled in Henabled.
  apply orb_false_iff in Henabled as [Henabled Hactive].
  apply orb_false_iff in Henabled as [Htext Hloading].
  apply negb_false_iff in Htext, Hactive. apply truthy_true in Htext.
  destruct (ChatInterface.currentConversationId (ChatInterface.state w))
    as [[|c id']|] eqn:Hcur; try discriminate.
  destruct (name (ChatInterface.modelSettings (ChatInterface.state w))) as [|n1 n] eqn:Hname.
  { unfold ChatInterface.handleSend.
    rewrite handleSend_start_unconfigured by (left; exact Hname).
    destruct (negb _ || _); reflexivity. }
  destruct (baseUrl (ChatInterface.modelSettings (ChatInterface.state w))) as [|b1 b] eqn:Hbase.
  { unfold ChatInterface.handleSend.
    rewrite handleSend_start_unconfigured by (right; left; exact Hbase).
    destruct (negb _ || _); reflexivity. }
  destruct (apiKey (ChatInterface.modelSettings (ChatInterface.state w))) as [|k1 k] eqn:Hkey.
  { unfold ChatInterface.handleSend.
    rewrite handleSend_start_unconfigured by (right; right; exact Hkey).
    destruct (negb _ || _); reflexivity. }
  pose proof (handleSend_start_active w c id' Htext Hloading
                ltac:(rewrite Hname; discriminate) ltac:(rewrite Hbase; discriminate)
                ltac:(rewrite Hkey; discriminate) Hcur) as Hstart.
  cbv zeta in Hstart. unfold ChatInterface.handleSend. rewrite Hstart. cbn [fst].
  match goal with
  | |- context [ChatInterface.handleSend_finish ?p ?f ?w1] =>
      rewrite (Forall2_kept_ids _ _ _ (handleSend_finish_kept p f w1))
  end.
  reflexivity.
Qed.

(** [send_button_never_starts_a_conversation] at a click on the button
    with [again] typed in the older of two conversations, answered by
    [Hi] and [ there]: the store has its two entries. *)
Lemma click_in_older_conversation :
  map Conversation.id
      (ChatInterface.conversations
         (ChatInterface.state
            (fst (@ChatInterface.handleSend Run.RT (Run.server Run.Hi_there None)
                    Run.older_selected))))
  = [js "1650000000000"; js "1600000000000"].
Proof.
  rewrite (send_button_never_starts_a_conversation Run.RT
             (Run.server Run.Hi_there None) Run.older_selected eq_refl).
  vm_compute. reflexivity.
Defined.
